(** * The well-known readiness controller and the OAuth route reconciler

    A shallow embedding of two Go files of the cluster authentication
    operator: the [readiness] package (the controller that probes the
    OAuth discovery document behind every API server address and folds its
    findings into four operator conditions) and [pkg/operator2/route.go]
    (the reconciler of the [oauth-openshift] route).

    Part I holds the definitions: the pieces of the Go runtime and of the
    Kubernetes client libraries the two files call, then the two packages,
    function by function.  Part II holds the theorems, Part III further
    properties of the two files.

    Conventions.  A Go value that may be nil is an [option]; a result
    of an outside collaborator (a lister, a client, a transport) is a
    sum, the error on the right; a Go function keeps the tuple it
    returns.  A function that sends requests or calls a client runs in
    a world that logs them.  Logging through [klog] is left out. *)

From Stdlib Require Import ZArith String Ascii List Bool Lia DecimalString.
From Stdlib Require DecimalPos.
From stdpp Require Import base tactics option list strings gmap sorting.

#[local] Set Warnings "-register-all".
#[local] Open Scope string_scope.
#[local] Open Scope list_scope.

(* ===================================================================== *)
(** * Part I: definitions *)
(* ===================================================================== *)

(** ** Bytes and strings

    A Go [string] is a sequence of bytes; so is a Rocq [string]. *)

Definition byte (c : ascii) : N := N_of_ascii c.

(** The double quote, which the string literals of this file never hold. *)
Definition dquote : ascii := ascii_of_nat 34.

(** [backquoted s] is [s] with every apostrophe turned into a double
    quote: the way this file writes Go raw string literals that hold
    double quotes. *)
Fixpoint backquoted (s : string) : string :=
  match s with
  | EmptyString => EmptyString
  | String c rest =>
      String (if Ascii.eqb c "'" then dquote else c) (backquoted rest)
  end.

Module GoStrings.

(** [strings.HasSuffix]: [len(s) >= len(suffix) &&
    s[len(s)-len(suffix):] == suffix]. *)
Definition HasSuffix (s suffix : string) : bool :=
  (String.length suffix <=? String.length s)%nat
  && String.eqb
       (substring (String.length s - String.length suffix)
                  (String.length suffix) s)
       suffix.

(** The [asciiSpace] table: tab, newline, vertical tab, form feed,
    carriage return and space. *)
Definition asciiSpace (c : ascii) : bool :=
  let n := byte c in
  ((9 <=? n) && (n <=? 13) || (n =? 32))%N.

Fixpoint trimLeft (s : string) : string :=
  match s with
  | EmptyString => EmptyString
  | String c rest => if asciiSpace c then trimLeft rest else s
  end.

Fixpoint trimRight (s : string) : string :=
  match s with
  | EmptyString => EmptyString
  | String c rest =>
      match trimRight rest with
      | EmptyString => if asciiSpace c then EmptyString else String c EmptyString
      | kept => String c kept
      end
  end.

(** [strings.TrimSpace], on its ASCII path: the two loops of the Go
    function walk inwards over [asciiSpace] bytes.  (Go leaves that path
    for the Unicode one only when the first byte that is not an ASCII
    space, from either end, is 0x80 or above.) *)
Definition TrimSpace (s : string) : string := trimRight (trimLeft s).

(** [strings.IndexByte(s, c) >= 0]. *)
Fixpoint ContainsByte (s : string) (c : ascii) : bool :=
  match s with
  | EmptyString => false
  | String d rest => Ascii.eqb d c || ContainsByte rest c
  end.

End GoStrings.

Module GoFmt.

(** [%#v] and [%+v] print a value by reflection over its Go type; the
    embedding takes the two renderings of a type as an interface. *)
Class Formatter (A : Type) := {
  sharp_v : A -> string;   (* %#v *)
  plus_v : A -> string     (* %+v *)
}.

Definition isVerb (c : ascii) : bool :=
  Ascii.eqb c "s" || Ascii.eqb c "v" || Ascii.eqb c "d".

Definition isFlag (c : ascii) : bool :=
  Ascii.eqb c "#" || Ascii.eqb c "+".

Definition missing (v : ascii) : string :=
  String "%" (String "!" (String v "(MISSING)")).

(** [fmt.Sprintf] over operands that are already rendered with the verb
    that prints them ([%s] of a string, [%v] of an error, [%d] of an
    integer, [%#v] and [%+v] through [Formatter]).  The verbs are the
    ones this program uses: s, v and d, with the flags # and +, and the
    escape for a percent sign; any other directive is kept as it
    stands. *)
Fixpoint Sprintf (format : string) (a : list string) : string :=
  match format with
  | EmptyString => EmptyString
  | String c rest =>
      if Ascii.eqb c "%" then
        match rest with
        | String v rest1 =>
            if Ascii.eqb v "%" then String "%" (Sprintf rest1 a)
            else if isVerb v then
              match a with
              | x :: a' => x +:+ Sprintf rest1 a'
              | [] => missing v +:+ Sprintf rest1 []
              end
            else if isFlag v then
              match rest1 with
              | String w rest2 =>
                  if isVerb w then
                    match a with
                    | x :: a' => x +:+ Sprintf rest2 a'
                    | [] => missing w +:+ Sprintf rest2 []
                    end
                  else String c (String v (String w (Sprintf rest2 a)))
              | EmptyString => String c (String v EmptyString)
              end
            else String c (String v (Sprintf rest1 a))
        | EmptyString => String c EmptyString
        end
      else String c (Sprintf rest a)
  end.

End GoFmt.

Module GoErrors.

(** The dynamic type of an [error] value, as far as [os.IsNotExist] and
    the API machinery's [errors.IsNotFound] tell values apart. *)
Inductive errorType :=
| errorString                      (* errors.New, fmt.Errorf, any other type *)
| ErrNotExist                      (* the sentinel os.ErrNotExist *)
| Errno (errno : Z)                (* syscall.Errno *)
| PathError (Err : errorType)      (* *os.PathError *)
| LinkError (Err : errorType)      (* *os.LinkError *)
| SyscallError (Err : errorType)   (* *os.SyscallError *)
| StatusError (Reason : string).   (* *errors.StatusError of the API machinery *)

(** A non-nil [error]: its dynamic type and what its [Error()] method
    returns.  A Go [error] that may be nil is an [option error]. *)
Record error := mkError { dynType : errorType; Error : string }.

(** [fmt.Errorf] (no [%w] in this program). *)
Definition Errorf (format : string) (a : list string) : error :=
  {| dynType := errorString; Error := GoFmt.Sprintf format a |}.

Definition ENOENT : Z := 2.

(** [os.underlyingError]: one level of the three wrapping types. *)
Definition underlyingError (t : errorType) : errorType :=
  match t with
  | PathError e | LinkError e | SyscallError e => e
  | _ => t
  end.

(** [os.IsNotExist]: the unwrapped error is [ErrNotExist] or the
    [Errno] [ENOENT]. *)
Definition IsNotExist (err : option error) : bool :=
  match err with
  | None => false
  | Some e =>
      match underlyingError (dynType e) with
      | ErrNotExist => true
      | Errno n => (n =? ENOENT)%Z
      | _ => false
      end
  end.

Definition StatusReasonNotFound : string := "NotFound".

(** [errors.NewNotFound(qualifiedResource, name)] of the API machinery:
    a [StatusError] with reason [NotFound]. *)
Definition NewNotFound (qualifiedResource name : string) : error :=
  {| dynType := StatusError StatusReasonNotFound;
     Error := qualifiedResource +:+ " " +:+ String dquote name
              +:+ String dquote " not found" |}.

(** [errors.IsNotFound] of the API machinery:
    [ReasonForError(err) == StatusReasonNotFound]. *)
Definition IsNotFound (err : option error) : bool :=
  match err with
  | Some {| dynType := StatusError reason |} =>
      String.eqb reason StatusReasonNotFound
  | _ => false
  end.

End GoErrors.

Module operatorv1.

(** [operatorv1.ConditionStatus]. *)
Inductive ConditionStatus := ConditionTrue | ConditionFalse | ConditionUnknown.

(** [operatorv1.OperatorCondition]; the controller never sets
    [LastTransitionTime], which is left out. *)
Record OperatorCondition := {
  Type_ : string;
  Status : ConditionStatus;
  Reason : string;
  Message : string
}.

#[export] Instance ConditionStatus_eq_dec : EqDecision ConditionStatus.
Proof. solve_decision. Defined.

#[export] Instance OperatorCondition_eq_dec : EqDecision OperatorCondition.
Proof. solve_decision. Defined.

End operatorv1.

Module v1helpers.

Import operatorv1.

(** [v1helpers.FindOperatorCondition]: the first condition of the given
    type. *)
Fixpoint FindOperatorCondition (conditions : list OperatorCondition)
    (conditionType : string) : option OperatorCondition :=
  match conditions with
  | [] => None
  | c :: rest =>
      if String.eqb (Type_ c) conditionType then Some c
      else FindOperatorCondition rest conditionType
  end.

End v1helpers.

Module sets.

(** [sets.String.List]: the members, sorted. *)
Definition List_ (s : gset string) : list string :=
  merge_sort (fun a b => Is_true (String.leb a b)) (elements s).

End sets.

Module GoStrconv.

Import GoErrors.

(** [strconv.Itoa]. *)
Definition Itoa (i : Z) : string := NilZero.string_of_int (Z.to_int i).

Definition digitVal (c : ascii) : option Z :=
  let n := byte c in
  if ((48 <=? n) && (n <=? 57))%N then Some (Z.of_N n - 48)%Z else None.

Fixpoint parseDigits (s : string) (acc : Z) : option Z :=
  match s with
  | EmptyString => Some acc
  | String c rest =>
      match digitVal c with
      | Some d => parseDigits rest (10 * acc + d)%Z
      | None => None
      end
  end.

Definition maxInt64 : Z := 2 ^ 63 - 1.
Definition minInt64 : Z := - 2 ^ 63.

Definition NumError (s reason : string) : error :=
  {| dynType := errorString;
     Error := "strconv.Atoi: parsing " +:+ String dquote s
              +:+ String dquote ": " +:+ reason |}.

(** [strconv.Atoi] on a 64-bit platform: an optional sign and decimal
    digits; 0 with a syntax error for anything else, and the nearest
    bound with a range error for a value no [int] holds.  (The text of
    the error quotes the operand as [%q] does for plain strings.) *)
Definition Atoi (s : string) : Z * option error :=
  let '(neg, digits) :=
    match s with
    | String c rest =>
        if Ascii.eqb c "-" then (true, rest)
        else if Ascii.eqb c "+" then (false, rest)
        else (false, s)
    | EmptyString => (false, s)
    end in
  match digits with
  | EmptyString => (0%Z, Some (NumError s "invalid syntax"))
  | _ =>
      match parseDigits digits 0 with
      | None => (0%Z, Some (NumError s "invalid syntax"))
      | Some n =>
          let v := if neg : bool then (- n)%Z else n in
          if (maxInt64 <? v)%Z then (maxInt64, Some (NumError s "value out of range"))
          else if (v <? minInt64)%Z then (minInt64, Some (NumError s "value out of range"))
          else (v, None)
      end
  end.

End GoStrconv.

Module GoNet.

(** [net.JoinHostPort]: a host that holds a colon is taken for an IPv6
    literal and put in brackets. *)
Definition JoinHostPort (host port : string) : string :=
  if GoStrings.ContainsByte host ":" then "[" +:+ host +:+ "]:" +:+ port
  else host +:+ ":" +:+ port.

End GoNet.

Module JSON.

(** ** [encoding/json], decoding into [interface{}] values

    What [json.Unmarshal] stores in an [interface{}]: nil, a bool, a
    float64, a string, a [[]interface{}] or a [map[string]interface{}].
    Binary floating point is not modelled: a number is kept as the
    literal that denotes it, and two numbers are compared by their
    literals (the documents this program compares hold no number). *)
Inductive value :=
| JNull
| JBool (b : bool)
| JNumber (literal : string)
| JString (s : string)
| JArray (elems : list value)
| JObject (members : gmap string value).

(** A variable of type [map[string]interface{}]: [None] is the nil map. *)
Definition object := option (gmap string value).

Inductive token :=
| TLBrace | TRBrace | TLBracket | TRBracket | TColon | TComma
| TString (s : string) | TNumber (literal : string)
| TTrue | TFalse | TNull.

(** *** String literals: [unquote] *)

Definition hexVal (c : ascii) : option N :=
  let n := byte c in
  if ((48 <=? n) && (n <=? 57))%N then Some (n - 48)%N
  else if ((97 <=? n) && (n <=? 102))%N then Some (n - 87)%N
  else if ((65 <=? n) && (n <=? 70))%N then Some (n - 55)%N
  else None.

(** [getu4]: the code unit of four hexadecimal digits. *)
Definition getu4 (h1 h2 h3 h4 : ascii) : option N :=
  match hexVal h1, hexVal h2, hexVal h3, hexVal h4 with
  | Some a, Some b, Some c, Some d => Some (((a * 16 + b) * 16 + c) * 16 + d)%N
  | _, _, _, _ => None
  end.

Definition chr (n : N) : ascii := ascii_of_N n.

(** [utf8.EncodeRune] of a code point that is no surrogate and at most
    U+10FFFF. *)
Definition EncodeRune (r : N) : string :=
  if (r <? 128)%N then String (chr r) EmptyString
  else if (r <? 2048)%N then
    String (chr (192 + r / 64)) (String (chr (128 + r mod 64)) EmptyString)
  else if (r <? 65536)%N then
    String (chr (224 + r / 4096))
      (String (chr (128 + (r / 64) mod 64))
         (String (chr (128 + r mod 64)) EmptyString))
  else
    String (chr (240 + r / 262144))
      (String (chr (128 + (r / 4096) mod 64))
         (String (chr (128 + (r / 64) mod 64))
            (String (chr (128 + r mod 64)) EmptyString))).

Definition ReplacementChar : N := 65533.

(** [utf16.IsSurrogate]. *)
Definition IsSurrogate (r : N) : bool := ((55296 <=? r) && (r <? 57344))%N.

(** [utf16.DecodeRune]: the code point of a surrogate pair, or U+FFFD. *)
Definition DecodeSurrogates (r1 r2 : N) : N :=
  if ((55296 <=? r1) && (r1 <? 56320) && (56320 <=? r2) && (r2 <? 57344))%N
  then ((r1 - 55296) * 1024 + (r2 - 56320) + 65536)%N
  else ReplacementChar.

(** The escapes of one character that [unquoteBytes] knows. *)
Definition simpleEscape (e : ascii) : option ascii :=
  let n := byte e in
  if (n =? 34)%N || (n =? 92)%N || (n =? 47)%N || (n =? 39)%N then Some e
  else if (n =? 98)%N then Some (chr 8)
  else if (n =? 102)%N then Some (chr 12)
  else if (n =? 110)%N then Some (chr 10)
  else if (n =? 114)%N then Some (chr 13)
  else if (n =? 116)%N then Some (chr 9)
  else None.

(** The first byte of a UTF-8 sequence: how many bytes follow it and the
    range the second byte must lie in ([utf8.first] and
    [utf8.acceptRanges]); [None] for a byte that starts no sequence. *)
Definition utf8Lead (c : ascii) : option (nat * N * N) :=
  let n := byte c in
  if (n <? 194)%N then None
  else if (n <=? 223)%N then Some (1%nat, 128, 191)%N
  else if (n =? 224)%N then Some (2%nat, 160, 191)%N
  else if (n <=? 236)%N then Some (2%nat, 128, 191)%N
  else if (n =? 237)%N then Some (2%nat, 128, 159)%N
  else if (n <=? 239)%N then Some (2%nat, 128, 191)%N
  else if (n =? 240)%N then Some (3%nat, 144, 191)%N
  else if (n <=? 243)%N then Some (3%nat, 128, 191)%N
  else if (n =? 244)%N then Some (3%nat, 128, 143)%N
  else None.

Definition inRange (lo hi : N) (c : ascii) : bool :=
  ((lo <=? byte c) && (byte c <=? hi))%N.

Definition continuation (c : ascii) : bool := inRange 128 191 c.

(** How many bytes the UTF-8 sequence at the head of [c :: rest] takes:
    0 when [utf8.DecodeRune] answers [(RuneError, 1)]. *)
Definition utf8Size (c : ascii) (rest : string) : nat :=
  match utf8Lead c, rest with
  | Some (1%nat, lo, hi), String b1 _ =>
      if inRange lo hi b1 then 2 else 0
  | Some (2%nat, lo, hi), String b1 (String b2 _) =>
      if inRange lo hi b1 && continuation b2 then 3 else 0
  | Some (3%nat, lo, hi), String b1 (String b2 (String b3 _)) =>
      if inRange lo hi b1 && continuation b2 && continuation b3 then 4 else 0
  | _, _ => 0
  end%nat.

Definition prepend (p : string) (r : option string) : option string :=
  (fun s => p +:+ s) <$> r.

(** [unquoteBytes] on the bytes between the two quotes: escapes are
    decoded, and bytes that are not UTF-8 become U+FFFD. *)
Fixpoint unquote (s : string) : option string :=
  match s with
  | EmptyString => Some EmptyString
  | String c rest =>
      if (byte c =? 92)%N then
        match rest with
        | EmptyString => None
        | String e rest1 =>
            match simpleEscape e with
            | Some b => prepend (String b EmptyString) (unquote rest1)
            | None =>
                if (byte e =? 117)%N then
                  match rest1 with
                  | String h1 (String h2 (String h3 (String h4 rest2))) =>
                      match getu4 h1 h2 h3 h4 with
                      | None => None
                      | Some rr =>
                          if IsSurrogate rr then
                            match rest2 with
                            | String b (String u (String g1 (String g2
                                (String g3 (String g4 rest3))))) =>
                                match
                                  (if (byte b =? 92)%N && (byte u =? 117)%N
                                   then getu4 g1 g2 g3 g4 else None)
                                with
                                | Some rr1 =>
                                    if (DecodeSurrogates rr rr1 =? ReplacementChar)%N
                                    then prepend (EncodeRune ReplacementChar) (unquote rest2)
                                    else prepend (EncodeRune (DecodeSurrogates rr rr1))
                                           (unquote rest3)
                                | None =>
                                    prepend (EncodeRune ReplacementChar) (unquote rest2)
                                end
                            | _ => prepend (EncodeRune ReplacementChar) (unquote rest2)
                            end
                          else prepend (EncodeRune rr) (unquote rest2)
                      end
                  | _ => None
                  end
                else None
            end
        end
      else if (byte c =? 34)%N || (byte c <? 32)%N then None
      else if (byte c <? 128)%N then prepend (String c EmptyString) (unquote rest)
      else
        match utf8Size c rest, rest with
        | 2%nat, String b1 r1 =>
            prepend (String c (String b1 EmptyString)) (unquote r1)
        | 3%nat, String b1 (String b2 r2) =>
            prepend (String c (String b1 (String b2 EmptyString))) (unquote r2)
        | 4%nat, String b1 (String b2 (String b3 r3)) =>
            prepend (String c (String b1 (String b2 (String b3 EmptyString))))
              (unquote r3)
        | _, _ => prepend (EncodeRune ReplacementChar) (unquote rest)
        end
  end.

(** *** Number literals *)

Definition isDigit (c : ascii) : bool := inRange 48 57 c.

Fixpoint skipDigits (s : string) : string :=
  match s with
  | String c rest => if isDigit c then skipDigits rest else s
  | EmptyString => s
  end.

(** One digit at least, then what follows the digits. *)
Definition digits1 (s : string) : option string :=
  match s with
  | String c rest => if isDigit c then Some (skipDigits rest) else None
  | EmptyString => None
  end.

Definition dropSign (minusOnly : bool) (s : string) : string :=
  match s with
  | String c rest =>
      if (byte c =? 45)%N || (negb minusOnly && (byte c =? 43)%N) then rest else s
  | EmptyString => s
  end.

(** The grammar of a JSON number: an optional minus, an integer part
    with no leading zero, an optional fraction, an optional exponent. *)
Definition validNumber (w : string) : bool :=
  let afterInt :=
    match dropSign true w with
    | String c rest =>
        if (byte c =? 48)%N then Some rest
        else if isDigit c then Some (skipDigits rest)
        else None
    | EmptyString => None
    end in
  let afterFrac :=
    match afterInt with
    | Some (String c rest) => if (byte c =? 46)%N then digits1 rest else afterInt
    | other => other
    end in
  let afterExp :=
    match afterFrac with
    | Some (String c rest) =>
        if (byte c =? 101)%N || (byte c =? 69)%N then digits1 (dropSign false rest)
        else afterFrac
    | other => other
    end in
  match afterExp with
  | Some EmptyString => true
  | _ => false
  end.

(** The decimal digits at the head of [s] as an integer appended to
    [acc], how many there were, and the rest. *)
Fixpoint readDigits (s : string) (acc : Z) (n : Z) : Z * Z * string :=
  match s with
  | String c rest =>
      if isDigit c then readDigits rest (10 * acc + (Z.of_N (byte c) - 48))%Z (n + 1)%Z
      else (acc, n, s)
  | EmptyString => (acc, n, s)
  end.

(** The magnitude of a valid number literal as [m * 10 ^ e]. *)
Definition decimalOf (w : string) : Z * Z :=
  let '(m1, _, r1) := readDigits (dropSign true w) 0 0 in
  let '(m2, fracDigits, r2) :=
    match r1 with
    | String c rest => if (byte c =? 46)%N then readDigits rest m1 0 else (m1, 0%Z, r1)
    | EmptyString => (m1, 0%Z, r1)
    end in
  let e :=
    match r2 with
    | String _ rest =>
        let negative :=
          match rest with String c _ => (byte c =? 45)%N | EmptyString => false end in
        let '(x, _, _) := readDigits (dropSign false rest) 0 0 in
        if negative then (- x)%Z else x
    | EmptyString => 0%Z
    end in
  (m2, (e - fracDigits)%Z).

(** [strconv.ParseFloat(s, 64)] reports a range error when the literal
    lies half an ulp or more beyond the largest float64, that is at
    [2^1024 - 2^970] or above; the decoder then fails. *)
Definition overflowsFloat64 (w : string) : bool :=
  let '(m, e) := decimalOf w in
  let bound := (2 ^ 1024 - 2 ^ 970)%Z in
  if (0 <=? e)%Z then (bound <=? m * 10 ^ e)%Z
  else (bound * 10 ^ (- e) <=? m)%Z.

(** *** The scanner, as a machine over bytes *)

Inductive scanState :=
| Between                              (* between two tokens *)
| InWord (w : string)                  (* in a literal name or a number *)
| InString (raw : string)              (* in a string, after its quote *)
| InEscape (raw : string)              (* after a backslash *)
| InHex (raw : string) (more : nat).   (* in the digits of a \u escape *)

Definition isWordByte (c : ascii) : bool :=
  isDigit c || inRange 97 122 c || inRange 65 90 c
  || (byte c =? 43)%N || (byte c =? 45)%N || (byte c =? 46)%N.

Definition isSpace (c : ascii) : bool :=
  let n := byte c in ((n =? 32) || (n =? 9) || (n =? 13) || (n =? 10))%N.

Definition wordToken (w : string) : option token :=
  if String.eqb w "true" then Some TTrue
  else if String.eqb w "false" then Some TFalse
  else if String.eqb w "null" then Some TNull
  else if validNumber w && negb (overflowsFloat64 w) then Some (TNumber w)
  else None.

Definition snoc (s : string) (c : ascii) : string := s +:+ String c EmptyString.

(** A byte met between two tokens; [out] is the tokens so far, last
    first. *)
Definition scanBetween (out : list token) (c : ascii)
    : option (scanState * list token) :=
  let n := byte c in
  if isSpace c then Some (Between, out)
  else if (n =? 123)%N then Some (Between, TLBrace :: out)
  else if (n =? 125)%N then Some (Between, TRBrace :: out)
  else if (n =? 91)%N then Some (Between, TLBracket :: out)
  else if (n =? 93)%N then Some (Between, TRBracket :: out)
  else if (n =? 58)%N then Some (Between, TColon :: out)
  else if (n =? 44)%N then Some (Between, TComma :: out)
  else if (n =? 34)%N then Some (InString EmptyString, out)
  else if isWordByte c then Some (InWord (String c EmptyString), out)
  else None.

Definition scanStep (st : scanState * list token) (c : ascii)
    : option (scanState * list token) :=
  let '(state, out) := st in
  match state with
  | Between => scanBetween out c
  | InWord w =>
      if isWordByte c then Some (InWord (snoc w c), out)
      else tok ← wordToken w; scanBetween (tok :: out) c
  | InString raw =>
      if (byte c =? 34)%N then s ← unquote raw; Some (Between, TString s :: out)
      else if (byte c =? 92)%N then Some (InEscape (snoc raw c), out)
      else if (byte c <? 32)%N then None
      else Some (InString (snoc raw c), out)
  | InEscape raw =>
      let n := byte c in
      if (n =? 117)%N then Some (InHex (snoc raw c) 4, out)
      else if (n =? 34)%N || (n =? 92)%N || (n =? 47)%N || (n =? 98)%N
              || (n =? 102)%N || (n =? 110)%N || (n =? 114)%N || (n =? 116)%N
      then Some (InString (snoc raw c), out)
      else None
  | InHex raw more =>
      match hexVal c, more with
      | Some _, 1%nat => Some (InString (snoc raw c), out)
      | Some _, S k => Some (InHex (snoc raw c) k, out)
      | _, _ => None
      end
  end.

Fixpoint scan (st : scanState * list token) (s : string)
    : option (scanState * list token) :=
  match s with
  | EmptyString => Some st
  | String c rest => st' ← scanStep st c; scan st' rest
  end.

(** The tokens of a whole input, first token first. *)
Definition tokens (data : string) : option (list token) :=
  st ← scan (Between, []) data;
  match st with
  | (Between, out) => Some (rev out)
  | (InWord w, out) => tok ← wordToken w; Some (rev (tok :: out))
  | _ => None
  end.

(** *** The decoder over tokens

    [fuel] bounds the number of nested calls; [S (length ts)] is enough,
    as every call but the first follows a consumed token. *)
Fixpoint parseValue (fuel : nat) (ts : list token) : option (value * list token) :=
  match fuel with
  | O => None
  | S fuel =>
      match ts with
      | TString s :: ts' => Some (JString s, ts')
      | TNumber w :: ts' => Some (JNumber w, ts')
      | TTrue :: ts' => Some (JBool true, ts')
      | TFalse :: ts' => Some (JBool false, ts')
      | TNull :: ts' => Some (JNull, ts')
      | TLBracket :: TRBracket :: ts' => Some (JArray [], ts')
      | TLBracket :: ts' => parseElements fuel ts' []
      | TLBrace :: TRBrace :: ts' => Some (JObject ∅, ts')
      | TLBrace :: ts' => parseMembers fuel ts' ∅
      | _ => None
      end
  end
with parseElements (fuel : nat) (ts : list token) (acc : list value)
    : option (value * list token) :=
  match fuel with
  | O => None
  | S fuel =>
      match parseValue fuel ts with
      | Some (v, TComma :: ts') => parseElements fuel ts' (acc ++ [v])
      | Some (v, TRBracket :: ts') => Some (JArray (acc ++ [v]), ts')
      | _ => None
      end
  end
with parseMembers (fuel : nat) (ts : list token) (acc : gmap string value)
    : option (value * list token) :=
  match fuel with
  | O => None
  | S fuel =>
      match ts with
      | TString key :: TColon :: ts1 =>
          match parseValue fuel ts1 with
          | Some (v, TComma :: ts') => parseMembers fuel ts' (<[key := v]> acc)
          | Some (v, TRBrace :: ts') => Some (JObject (<[key := v]> acc), ts')
          | _ => None
          end
      | _ => None
      end
  end.

(** The value a whole input denotes, if it is one JSON text. *)
Definition decode (data : string) : option value :=
  ts ← tokens data;
  match parseValue (S (length ts)) ts with
  | Some (v, []) => Some v
  | _ => None
  end.

(** [json.Unmarshal(data, &m)] for a nil [m] of type
    [map[string]interface{}]: an object fills a fresh map, [null]
    leaves [m] nil, any other value and any invalid input is an
    error ([None]). *)
Definition Unmarshal (data : string) : option object :=
  match decode data with
  | Some (JObject m) => Some (Some m)
  | Some JNull => Some None
  | _ => None
  end.

(** *** [reflect.DeepEqual] on decoded values *)
Fixpoint deepValueEqual (v1 v2 : value) {struct v1} : bool :=
  match v1, v2 with
  | JNull, JNull => true
  | JBool b1, JBool b2 => Bool.eqb b1 b2
  | JNumber w1, JNumber w2 => String.eqb w1 w2
  | JString s1, JString s2 => String.eqb s1 s2
  | JArray l1, JArray l2 =>
      (fix each (l1 l2 : list value) : bool :=
         match l1, l2 with
         | [], [] => true
         | x :: l1', y :: l2' => deepValueEqual x y && each l1' l2'
         | _, _ => false
         end) l1 l2
  | JObject m1, JObject m2 =>
      (size m1 =? size m2)%nat
      && map_fold (fun k x ok =>
                     ok && match m2 !! k with
                           | Some y => deepValueEqual x y
                           | None => false
                           end) true m1
  | _, _ => false
  end.

(** The number of nodes of a value. *)
Fixpoint valueSize (v : value) : nat :=
  match v with
  | JArray l =>
      S ((fix sum (l : list value) : nat :=
            match l with
            | [] => 0
            | x :: l' => valueSize x + sum l'
            end) l)
  | JObject m => S (map_fold (fun _ x n => valueSize x + n) 0 m)
  | _ => 1
  end.

Definition DeepEqual (m1 m2 : object) : bool :=
  match m1, m2 with
  | None, None => true
  | Some a, Some b => deepValueEqual (JObject a) (JObject b)
  | _, _ => false
  end.

End JSON.

(** ** Calls that leave a trace, and panics *)

Module GoRun.

(** A call returns or panics. *)
Inductive Outcome (A : Type) :=
| Returned (a : A)
| Panicked.
Arguments Returned {A} a.
Arguments Panicked {A}.

#[export] Instance Outcome_ret : MRet Outcome := fun A a => Returned a.

#[export] Instance Outcome_bind : MBind Outcome := fun A B f m =>
  match m with
  | Returned a => f a
  | Panicked => Panicked
  end.

(** Reading through a pointer: a nil pointer panics. *)
Definition deref {A : Type} (p : option A) : Outcome A :=
  match p with
  | Some a => Returned a
  | None => Panicked
  end.

(** A call in a world of type [W]: its outcome and the world it leaves. *)
Definition M (W A : Type) : Type := W -> Outcome A * W.

#[export] Instance M_ret {W : Type} : MRet (M W) := fun A a w => (Returned a, w).

#[export] Instance M_bind {W : Type} : MBind (M W) := fun A B f m w =>
  match m w with
  | (Returned a, w') => f a w'
  | (Panicked, w') => (Panicked, w')
  end.

Definition panic {W A : Type} : M W A := fun w => (Panicked, w).

Definition lift {W A : Type} (o : Outcome A) : M W A := fun w => (o, w).

End GoRun.

(** ** The API types, field by field as the two files read them *)

Module metav1.

Record ObjectMeta := {
  Name : string;
  Namespace : string;
  UID : string;
  Labels : gmap string string;
  Annotations : gmap string string
}.

(** [metav1.Preconditions] and [metav1.DeleteOptions]. *)
Record Preconditions := { PreconditionUID : option string }.
Record DeleteOptions := { DeletePreconditions : option Preconditions }.

End metav1.

Module intstr.

(** [intstr.IntOrString]: an [int32] or a string. *)
Inductive IntOrString :=
| Int (IntVal : Z)
| String_ (StrVal : string).

(** The conversion [int32(val)] of an [int]. *)
Definition int32 (val : Z) : Z := ((val + 2 ^ 31) mod 2 ^ 32 - 2 ^ 31)%Z.

(** [intstr.FromInt]. *)
Definition FromInt (val : Z) : IntOrString := Int (int32 val).

(** [IntValue]: the integer, or [Atoi] of the string with its error
    dropped. *)
Definition IntValue (i : IntOrString) : Z :=
  match i with
  | String_ s => fst (GoStrconv.Atoi s)
  | Int n => n
  end.

End intstr.

Module corev1.

Definition ProtocolTCP : string := "TCP".
Definition NamespaceDefault : string := "default".
Definition ConditionTrue : string := "True".

Record ServicePort := {
  ServiceProtocol : string;
  ServicePortNumber : Z;               (* Port *)
  TargetPort : intstr.IntOrString
}.

(** A [Service], which the controller reads for [Spec.Ports] alone. *)
Record Service := { ServicePorts : list ServicePort }.

Record EndpointAddress := { IP : string }.

Record EndpointPort := {
  Port : Z;
  Protocol : string
}.

Record EndpointSubset := {
  Addresses : list EndpointAddress;
  NotReadyAddresses : list EndpointAddress;
  Ports : list EndpointPort
}.

Record Endpoints := { Subsets : list EndpointSubset }.

Record Secret := {
  SecretMeta : metav1.ObjectMeta;
  Data : gmap string string
}.

End corev1.

Module configv1.

Definition AuthenticationTypeIntegratedOAuth : string := "IntegratedOAuth".

(** An [Authentication], read for [Spec.OAuthMetadata.Name] and
    [Spec.Type]. *)
Record Authentication := {
  OAuthMetadataName : string;
  AuthenticationType : string
}.

(** An [Ingress] config, read for [Spec.Domain]. *)
Record Ingress := { Domain : string }.

Record CertInfo := { CertFile : string; KeyFile : string }.

(** [configv1.NamedCertificate]; [CertInfo] is embedded in it. *)
Record NamedCertificate := {
  Names : list string;
  NamedCertInfo : CertInfo
}.

End configv1.

Module routev1.

Definition TLSTerminationPassthrough : string := "passthrough".
Definition TLSTerminationEdge : string := "edge".
Definition InsecureEdgeTerminationPolicyRedirect : string := "Redirect".
Definition RouteAdmitted : string := "Admitted".

Record RouteTargetReference := { Kind : string; Name : string }.

Record RoutePort := { TargetPort : intstr.IntOrString }.

Record TLSConfig := {
  Termination : string;
  InsecureEdgeTerminationPolicy : string
}.

Record RouteSpec := {
  Host : string;
  Subdomain : string;
  To : RouteTargetReference;
  Port : option RoutePort;     (* *RoutePort *)
  TLS : option TLSConfig       (* *TLSConfig *)
}.

Record RouteIngressCondition := {
  ConditionType : string;
  ConditionStatus : string
}.

Record RouteIngress := {
  IngressHost : string;
  Conditions : list RouteIngressCondition
}.

Record RouteStatus := { Ingress : list RouteIngress }.

Record Route := {
  ObjectMeta : metav1.ObjectMeta;
  Spec : RouteSpec;
  Status : RouteStatus
}.

End routev1.

(** ** HTTP and the file system, as the controller meets them *)

Module http.

Import GoErrors.

Definition MethodGet : string := "GET".

Record Request := { Method : string; URL : string }.

(** A response: its status, and what [ioutil.ReadAll] makes of its
    body. *)
Record Response := {
  StatusCode : Z;
  Status : string;
  Body : string + error
}.

(** The [RoundTrip] method of a transport: its answer to a request,
    given the requests it has answered before. *)
Definition RoundTripper : Type := list Request -> Request -> Response + error.

End http.

(** What the Go runtime and the operator's [transport] package decide
    outside the two files. *)
Record Platform := {
  (* ioutil.ReadFile *)
  ReadFile : string -> string + GoErrors.error;
  (* transport.TransportFor(serverName, caData, nil, nil) *)
  TransportFor : string -> string -> http.RoundTripper + GoErrors.error;
  (* the error of http.NewRequest(method, url, nil), if any *)
  NewRequestError : string -> string -> option GoErrors.error;
  (* the error json.Unmarshal reports for data it rejects *)
  UnmarshalError : string -> GoErrors.error
}.

(** The generated listers of client-go over an informer's indexer:
    the object stored under the key, or [NewNotFound]. *)
Definition namespaceLister {A : Type} (resource : string)
    (indexer : gmap string A) (namespace name : string) : A + GoErrors.error :=
  match indexer !! (namespace +:+ "/" +:+ name) with
  | Some obj => inl obj
  | None => inr (GoErrors.NewNotFound resource name)
  end.

Definition clusterLister {A : Type} (resource : string)
    (indexer : gmap string A) (name : string) : A + GoErrors.error :=
  match indexer !! name with
  | Some obj => inl obj
  | None => inr (GoErrors.NewNotFound resource name)
  end.


(** ** Package [readiness]: the well-known readiness controller *)

Module readiness.

Import GoErrors GoFmt GoRun operatorv1 v1helpers.
Export GoRun operatorv1 v1helpers.

(** [init]: the port of the [kubernetes] service, from the environment,
    or 443.  [getenv] is [os.Getenv]. *)
Definition init (getenv : string -> string) : Z :=
  let '(port, err) := GoStrconv.Atoi (getenv "KUBERNETES_SERVICE_PORT_HTTPS") in
  match err with
  | Some _ => 443%Z
  | None => port
  end.

(** The controller: its listers answer from the informers' caches, and
    [operatorClient] is what [v1helpers.UpdateStatus] answers when it is
    handed one [UpdateConditionFn] per condition of the list. *)
Record wellKnownReadyController := {
  serviceLister : string -> string -> corev1.Service + error;
  endpointLister : string -> string -> corev1.Endpoints + error;
  operatorClient : list OperatorCondition -> option error;
  authLister : string -> configv1.Authentication + error;
  routeLister : string -> string -> routev1.Route + error
}.

(** [knownConditionNames] lists all condition types used by this
    controller. *)
Definition knownConditionNames : gset string :=
  list_to_set
    [ "WellKnownRouteDegraded";
      "WellKnownAuthConfigDegraded";
      "WellKnownProgressing";
      "WellKnownAvailable" ].

(** What a call leaves behind: the requests sent through a transport,
    and the condition lists handed to the status writer, oldest first. *)
Record World := {
  requests : list http.Request;
  statusUpdates : list (list OperatorCondition)
}.

Abbreviation M := (GoRun.M World).

(** [rt.RoundTrip(req)]: the request joins the log. *)
Definition RoundTrip (rt : http.RoundTripper) (req : http.Request)
    : M (http.Response + error) :=
  fun w =>
    (Returned (rt (requests w) req),
     {| requests := requests w ++ [req]; statusUpdates := statusUpdates w |}).

(** [v1helpers.UpdateStatus(c.operatorClient, updateConditionFuncs...)]. *)
Definition UpdateStatus (c : wellKnownReadyController)
    (conditions : list OperatorCondition) : M (option error) :=
  fun w =>
    (Returned (operatorClient c conditions),
     {| requests := requests w; statusUpdates := statusUpdates w ++ [conditions] |}).

(** The Go raw string of [getOAuthMetadata], apostrophes standing for its
    double quotes. *)
Definition stubMetadata : string := backquoted "
{
  'issuer': 'https://%s',
  'authorization_endpoint': 'https://%s/oauth/authorize',
  'token_endpoint': 'https://%s/oauth/token',
  'scopes_supported': [
    'user:check-access',
    'user:full',
    'user:info',
    'user:list-projects',
    'user:list-scoped-projects'
  ],
  'response_types_supported': [
    'code',
    'token'
  ],
  'grant_types_supported': [
    'authorization_code',
    'implicit'
  ],
  'code_challenge_methods_supported': [
    'plain',
    'S256'
  ]
}
".

Definition getOAuthMetadata (host : string) : string :=
  GoStrings.TrimSpace (Sprintf stubMetadata [host; host; host]).

(** [getMetadataStruct] panics when the document does not decode. *)
Definition getMetadataStruct (route : routev1.Route) : M JSON.object :=
  let metadataJSON := getOAuthMetadata (routev1.Host (routev1.Spec route)) in
  match JSON.Unmarshal metadataJSON with
  | None => panic
  | Some ret => mret ret
  end.

Section Controller.

Context `{Formatter corev1.Service} `{Formatter corev1.Endpoints}.

(** The package variable [kasServicePort], set by [init]. *)
Variable kasServicePort : Z.
Variable platform : Platform.
Variable c : wellKnownReadyController.

Definition getRoute : option routev1.Route * list OperatorCondition :=
  match routeLister c "openshift-authentication" "oauth-openshift" with
  | inr err =>
      if IsNotExist (Some err) then (None, [])
      else
        (None,
         [ {| Type_ := "WellKnownRouteDegraded";
              Status := ConditionTrue;
              Reason := "GetFailed";
              Message := Sprintf "Unable to get oauth-openshift route: %v" [Error err] |} ])
  | inl route => (Some route, [])
  end.

Definition getAuthConfig : option configv1.Authentication * list OperatorCondition :=
  match authLister c "cluster" with
  | inr err =>
      if IsNotExist (Some err) then (None, [])
      else
        (None,
         [ {| Type_ := "WellKnownAuthConfigDegraded";
              Status := ConditionTrue;
              Reason := "GetFailed";
              Message := Sprintf "Unable to get cluster authentication config: %v" [Error err] |} ])
  | inl operatorConfig => (Some operatorConfig, [])
  end.

Fixpoint servicePortsLoop (ports : list corev1.ServicePort) : Z * bool :=
  match ports with
  | [] => (0%Z, false)
  | port :: rest =>
      let targetPort := intstr.IntValue (corev1.TargetPort port) in
      if negb (targetPort =? 0)%Z
         && String.eqb (corev1.ServiceProtocol port) corev1.ProtocolTCP
         && (corev1.ServicePortNumber port =? kasServicePort)%Z
      then (targetPort, true)
      else servicePortsLoop rest
  end.

Definition getKASTargetPortFromService (service : corev1.Service) : Z * bool :=
  servicePortsLoop (corev1.ServicePorts service).

Fixpoint endpointPortsLoop (ports : list corev1.EndpointPort) (targetPort : Z) : bool :=
  match ports with
  | [] => false
  | port :: rest =>
      if String.eqb (corev1.Protocol port) corev1.ProtocolTCP
         && (corev1.Port port =? targetPort)%Z
      then true
      else endpointPortsLoop rest targetPort
  end.

Definition subsetHasKASTargetPort (subset : corev1.EndpointSubset) (targetPort : Z) : bool :=
  endpointPortsLoop (corev1.Ports subset) targetPort.

(** The loop of [getAPIServerIPs] over the subsets of the endpoints. *)
Fixpoint subsetsLoop (kasEndpoint : corev1.Endpoints) (targetPort : Z)
    (subsets : list corev1.EndpointSubset) : list string * option error :=
  match subsets with
  | [] =>
      ([], Some (Errorf "unable to find kube api server endpointLister port: %#v"
                   [sharp_v kasEndpoint]))
  | subset :: rest =>
      if negb (subsetHasKASTargetPort subset targetPort)
      then subsetsLoop kasEndpoint targetPort rest
      else if negb (length (corev1.NotReadyAddresses subset) =? 0)%nat
              || (length (corev1.Addresses subset) =? 0)%nat
      then ([], Some (Errorf "kube api server endpointLister is not ready: %#v"
                        [sharp_v kasEndpoint]))
      else
        (fold_left
           (fun ips address =>
              ips ++ [GoNet.JoinHostPort (corev1.IP address) (GoStrconv.Itoa targetPort)])
           (corev1.Addresses subset) [],
         None)
  end.

Definition getAPIServerIPs : list string * option error :=
  match serviceLister c corev1.NamespaceDefault "kubernetes" with
  | inr err =>
      ([], Some (Errorf "failed to get kube api server service: %v" [Error err]))
  | inl kasService =>
      let '(targetPort, ok) := getKASTargetPortFromService kasService in
      if negb ok then
        ([], Some (Errorf "unable to find kube api server service target port: %#v"
                     [sharp_v kasService]))
      else
        match endpointLister c corev1.NamespaceDefault "kubernetes" with
        | inr err =>
            ([], Some (Errorf "failed to get kube api server endpointLister: %v" [Error err]))
        | inl kasEndpoint =>
            subsetsLoop kasEndpoint targetPort (corev1.Subsets kasEndpoint)
        end
  end.

Definition wellKnownURL (apiIP : string) : string :=
  "https://" +:+ apiIP +:+ "/.well-known/oauth-authorization-server".

Definition checkWellknownEndpointReady (apiIP : string) (rt : http.RoundTripper)
    (route : routev1.Route) : M (bool * string * option error) :=
  let wellKnown := wellKnownURL apiIP in
  match NewRequestError platform http.MethodGet wellKnown with
  | Some err =>
      mret (false, "",
            Some (Errorf "failed to build request to well-known %s: %v" [wellKnown; Error err]))
  | None =>
      let req := {| http.Method := http.MethodGet; http.URL := wellKnown |} in
      resp ← RoundTrip rt req;
      match resp with
      | inr err =>
          mret (false, "",
                Some (Errorf "failed to GET well-known %s: %v" [wellKnown; Error err]))
      | inl resp =>
          if negb (http.StatusCode resp =? 200)%Z then
            mret (false,
                  Sprintf "got '%s' status while trying to GET the OAuth well-known %s endpoint data"
                    [http.Status resp; wellKnown],
                  None)
          else
            match http.Body resp with
            | inr err =>
                mret (false, "",
                      Some (Errorf "failed to read well-known %s body: %v"
                              [wellKnown; Error err]))
            | inl body =>
                match JSON.Unmarshal body with
                | None =>
                    mret (false, "",
                          Some (Errorf "failed to marshall well-known %s JSON: %v"
                                  [wellKnown; Error (UnmarshalError platform body)]))
                | Some receivedValues =>
                    expectedMetadata ← getMetadataStruct route;
                    if negb (JSON.DeepEqual expectedMetadata receivedValues) then
                      mret (false,
                            Sprintf "the value returned by the well-known %s endpoint does not match expectations"
                              [wellKnown],
                            None)
                    else mret (true, "", None)
                end
            end
      end
  end.

(** The loop of [isWellknownEndpointsReady] over the addresses. *)
Fixpoint probeLoop (ips : list string) (rt : http.RoundTripper)
    (route : routev1.Route) : M (bool * string * option error) :=
  match ips with
  | [] => mret (true, "", None)
  | ip :: rest =>
      r ← checkWellknownEndpointReady ip rt route;
      let '(wellknownReady, wellknownMsg, err) := r in
      if bool_decide (err <> None) || negb wellknownReady
      then mret (wellknownReady, wellknownMsg, err)
      else probeLoop rest rt route
  end.

Definition isWellknownEndpointsReady (authConfig : configv1.Authentication)
    (route : routev1.Route) : M (bool * string * option error) :=
  if negb (String.length (configv1.OAuthMetadataName authConfig) =? 0)%nat
     || negb (String.eqb (configv1.AuthenticationType authConfig)
                configv1.AuthenticationTypeIntegratedOAuth)
  then mret (true, "", None)
  else
    match ReadFile platform "/var/run/secrets/kubernetes.io/serviceaccount/ca.crt" with
    | inr err =>
        mret (false, "", Some (Errorf "failed to read SA ca.crt: %v" [Error err]))
    | inl caData =>
        match TransportFor platform "kubernetes.default.svc" caData with
        | inr err =>
            mret (false, "",
                  Some (Errorf "failed to build transport for SA ca.crt: %v" [Error err]))
        | inl rt =>
            let '(ips, err) := getAPIServerIPs in
            match err with
            | Some err =>
                mret (false, "",
                      Some (Errorf "failed to get API server IPs: %v" [Error err]))
            | None => probeLoop ips rt route
            end
        end
    end.

(** What [sync] adds to [foundConditions] for an answer of
    [isWellknownEndpointsReady]. *)
Definition notReadyConditions (answer : bool * string * option error)
    : list OperatorCondition :=
  let '(ready, conditionMessage, err) := answer in
  if negb ready then
    let conditionMessage :=
      match err with
      | Some err =>
          if (String.length conditionMessage =? 0)%nat then Error err
          else conditionMessage
      | None => conditionMessage
      end in
    if (0 <? String.length conditionMessage)%nat then
      [ {| Type_ := "WellKnownProgressing";
           Status := ConditionTrue;
           Reason := "NotReady";
           Message := Sprintf "The well-known endpoint is not yet avaiable: %s"
                        [conditionMessage] |};
        {| Type_ := "WellKnownAvailable";
           Status := ConditionFalse;
           Reason := "NotReady";
           Message := Sprintf "THe well-known endpoint is not yet available: %s"
                        [conditionMessage] |} ]
    else []
  else [].

(** The conditions [sync] wraps in [UpdateConditionFn], one per known
    condition type. *)
Definition updateConditionFuncs (foundConditions : list OperatorCondition)
    : list OperatorCondition :=
  fold_left
    (fun updateConditionFuncs conditionType =>
       let updatedCondition :=
         {| Type_ := conditionType;
            Status := ConditionFalse;
            Reason := "";
            Message := "" |} in
       let updatedCondition :=
         if GoStrings.HasSuffix conditionType "Available"
         then {| Type_ := Type_ updatedCondition;
                 Status := ConditionTrue;
                 Reason := Reason updatedCondition;
                 Message := Message updatedCondition |}
         else updatedCondition in
       let updatedCondition :=
         match FindOperatorCondition foundConditions conditionType with
         | Some condition => condition
         | None => updatedCondition
         end in
       updateConditionFuncs ++ [updatedCondition])
    (sets.List_ knownConditionNames) [].

Definition sync : M (option error) :=
  let foundConditions := [] in
  let '(authConfig, configConditions) := getAuthConfig in
  let foundConditions := foundConditions ++ configConditions in
  let '(route, routeConditions) := getRoute in
  let foundConditions := foundConditions ++ routeConditions in
  foundConditions ←
    match authConfig, route with
    | Some authConfig, Some route =>
        answer ← isWellknownEndpointsReady authConfig route;
        mret (foundConditions ++ notReadyConditions answer)
    | _, _ => mret foundConditions
    end;
  UpdateStatus c (updateConditionFuncs foundConditions).

End Controller.

End readiness.


(** ** Package [operator2], file [route.go]: the route reconciler *)

Module operator2.

Import GoErrors GoFmt GoRun.

(** The calls [handleRoute] makes on the cluster. *)
Inductive Call :=
| GetRoute (name : string)
| CreateRoute (route : routev1.Route)
| DeleteRoute (name : string) (opts : metav1.DeleteOptions)
| GetSecret (namespace name : string).

(** The two clients of [authOperator] that [handleRoute] uses, over a
    cluster state of type [S]: [c.route] and [c.secrets]. *)
Record authOperator (S : Type) := {
  routeGet : string -> S -> routev1.Route + error;
  routeCreate : routev1.Route -> S -> (routev1.Route + error) * S;
  routeDelete : string -> metav1.DeleteOptions -> S -> option error * S;
  secretsGet : string -> string -> S -> corev1.Secret + error
}.
Arguments routeGet {S} _ _ _.
Arguments routeCreate {S} _ _ _.
Arguments routeDelete {S} _ _ _ _.
Arguments secretsGet {S} _ _ _ _.

(** The cluster and the calls made on it so far, oldest first. *)
Record World (S : Type) := {
  cluster : S;
  calls : list Call
}.
Arguments cluster {S} _.
Arguments calls {S} _.

Section Operator.

Context {S : Type}.
Context `{Formatter routev1.Route} `{Formatter (list routev1.RouteIngress)}.

(** Constants and a helper of the package that other files declare. *)
Variable targetName : string.
Variable targetNamespace : string.
Variable containerPort : Z.
Variable routerCertsLocalName : string.
Variable defaultMeta : metav1.ObjectMeta.

Variable c : authOperator S.

Definition Get (name : string) : M (World S) (routev1.Route + error) :=
  fun w =>
    (Returned (routeGet c name (cluster w)),
     {| cluster := cluster w; calls := calls w ++ [GetRoute name] |}).

Definition Create (route : routev1.Route) : M (World S) (routev1.Route + error) :=
  fun w =>
    let '(r, s) := routeCreate c route (cluster w) in
    (Returned r, {| cluster := s; calls := calls w ++ [CreateRoute route] |}).

Definition Delete (name : string) (opts : metav1.DeleteOptions)
    : M (World S) (option error) :=
  fun w =>
    let '(r, s) := routeDelete c name opts (cluster w) in
    (Returned r, {| cluster := s; calls := calls w ++ [DeleteRoute name opts] |}).

Definition SecretsGet (namespace name : string) : M (World S) (corev1.Secret + error) :=
  fun w =>
    (Returned (secretsGet c namespace name (cluster w)),
     {| cluster := cluster w; calls := calls w ++ [GetSecret namespace name] |}).

Definition ingressToHost (ingress : configv1.Ingress) : string :=
  targetName +:+ "." +:+ configv1.Domain ingress.

Definition defaultRoute (ingress : configv1.Ingress) : routev1.Route :=
  {| routev1.ObjectMeta := defaultMeta;
     routev1.Spec :=
       {| routev1.Host := ingressToHost ingress;
          routev1.Subdomain := "";
          routev1.To := {| routev1.Kind := "Service"; routev1.Name := targetName |};
          routev1.Port := Some {| routev1.TargetPort := intstr.FromInt containerPort |};
          routev1.TLS :=
            Some {| routev1.Termination := routev1.TLSTerminationPassthrough;
                    routev1.InsecureEdgeTerminationPolicy :=
                      routev1.InsecureEdgeTerminationPolicyRedirect |} |};
     routev1.Status := {| routev1.Ingress := [] |} |}.

Fixpoint isIngressAdmittedLoop (conditions : list routev1.RouteIngressCondition) : bool :=
  match conditions with
  | [] => false
  | condition :: rest =>
      if String.eqb (routev1.ConditionType condition) routev1.RouteAdmitted
         && String.eqb (routev1.ConditionStatus condition) corev1.ConditionTrue
      then true
      else isIngressAdmittedLoop rest
  end.

Definition isIngressAdmitted (ingress : routev1.RouteIngress) : bool :=
  isIngressAdmittedLoop (routev1.Conditions ingress).

Fixpoint getCanonicalHostLoop (host : string) (ingresses : list routev1.RouteIngress)
    : string :=
  match ingresses with
  | [] => ""
  | ingress :: rest =>
      if negb (String.eqb (routev1.IngressHost ingress) host)
      then getCanonicalHostLoop host rest
      else if negb (isIngressAdmitted ingress)
      then getCanonicalHostLoop host rest
      else host
  end.

Definition getCanonicalHost (route : routev1.Route) (ingressConfig : configv1.Ingress)
    : string :=
  let host := ingressToHost ingressConfig in
  getCanonicalHostLoop host (routev1.Ingress (routev1.Status route)).

(** [isValidRoute]; reading [route.Spec.Port.TargetPort] panics on a
    nil [Port]. *)
Definition isValidRoute (route : routev1.Route) (ingress : configv1.Ingress)
    : Outcome (option error) :=
  let expectedRoute := defaultRoute ingress in
  let expName := routev1.Name (routev1.To (routev1.Spec expectedRoute)) in
  expectedPort ← deref (routev1.Port (routev1.Spec expectedRoute));
  let expPort := intstr.IntValue (routev1.TargetPort expectedPort) in
  expectedTLS ← deref (routev1.TLS (routev1.Spec expectedRoute));
  let expTLSTermination := routev1.Termination expectedTLS in
  let expInsecureEdgeTerminationPolicy :=
    routev1.InsecureEdgeTerminationPolicy expectedTLS in
  if negb (String.eqb (routev1.Name (routev1.To (routev1.Spec route))) expName) then
    mret (Some (Errorf "route targets a wrong service - needs %s: %#v"
                  [expName; sharp_v route]))
  else
    port ← deref (routev1.Port (routev1.Spec route));
    if negb (intstr.IntValue (routev1.TargetPort port) =? expPort)%Z then
      mret (Some (Errorf "expected port '%d' for route: %#v"
                    [GoStrconv.Itoa expPort; sharp_v route]))
    else
      match routev1.TLS (routev1.Spec route) with
      | None =>
          mret (Some (Errorf "TLS needs to be configured for route: %#v" [sharp_v route]))
      | Some tls =>
          if negb (String.eqb (routev1.Termination tls) expTLSTermination) then
            mret (Some (Errorf "route contains wrong TLS termination - '%s' is required: %#v"
                          [expTLSTermination; sharp_v route]))
          else if negb (String.eqb (routev1.InsecureEdgeTerminationPolicy tls)
                          expInsecureEdgeTerminationPolicy) then
            mret (Some (Errorf
                          "route contains wrong insecure termination policy - '%s' is required: %#v"
                          [expInsecureEdgeTerminationPolicy; sharp_v route]))
          else mret None
      end.

(** [route.Spec.Host = host] on the copy of the route. *)
Definition withHost (route : routev1.Route) (host : string) : routev1.Route :=
  {| routev1.ObjectMeta := routev1.ObjectMeta route;
     routev1.Spec :=
       {| routev1.Host := host;
          routev1.Subdomain := routev1.Subdomain (routev1.Spec route);
          routev1.To := routev1.To (routev1.Spec route);
          routev1.Port := routev1.Port (routev1.Spec route);
          routev1.TLS := routev1.TLS (routev1.Spec route) |};
     routev1.Status := routev1.Status route |}.

Definition handleRoute (ingress : configv1.Ingress)
    : M (World S) (option routev1.Route * option corev1.Secret * option error) :=
  got ← Get targetName;
  got ← match got with
        | inr err =>
            if IsNotFound (Some err) then Create (defaultRoute ingress) else mret got
        | inl _ => mret got
        end;
  match got with
  | inr err => mret (None, None, Some err)
  | inl route =>
      let host := getCanonicalHost route ingress in
      if (String.length host =? 0)%nat then
        mret (None, None,
              Some (Errorf "route is not available at canonical host %s: %+v"
                      [ingressToHost ingress;
                       plus_v (routev1.Ingress (routev1.Status route))]))
      else
        let route := withHost route host in
        valid ← lift (isValidRoute route ingress);
        match valid with
        | Some err =>
            let opts :=
              {| metav1.DeletePreconditions :=
                   Some {| metav1.PreconditionUID :=
                             Some (metav1.UID (routev1.ObjectMeta route)) |} |} in
            _ ← Delete (metav1.Name (routev1.ObjectMeta route)) opts;
            mret (None, None, Some err)
        | None =>
            got ← SecretsGet targetNamespace routerCertsLocalName;
            match got with
            | inr err => mret (None, None, Some err)
            | inl routerSecret =>
                if (size (corev1.Data routerSecret) =? 0)%nat then
                  mret (None, None,
                        Some (Errorf "router secret %s/%s is empty"
                                [metav1.Namespace (corev1.SecretMeta routerSecret);
                                 metav1.Name (corev1.SecretMeta routerSecret)]))
                else mret (Some route, Some routerSecret, None)
            end
        end
  end.

(** The mount point of the router certificates, declared in another
    file. *)
Variable routerCertsLocalMount : string.

(** [routerSecretToSNI] over the domains of [routerSecret.Data], in the
    order the [range] visits them.  Go leaves that order open: it is an
    argument here. *)
Definition routerSecretToSNI (domains : list string) : list configv1.NamedCertificate :=
  fold_left
    (fun out domain =>
       out ++ [ {| configv1.Names := ["*." +:+ domain];
                   configv1.NamedCertInfo :=
                     {| configv1.CertFile := routerCertsLocalMount +:+ "/" +:+ domain;
                        configv1.KeyFile := routerCertsLocalMount +:+ "/" +:+ domain |} |} ])
    domains [].

End Operator.

End operator2.

(** ** The vocabulary of the statements of Part II *)

Module Spec.

Import GoErrors.

(** The request the verifier sends to one API server address. *)
Definition probeRequest (apiIP : string) : http.Request :=
  {| http.Method := http.MethodGet; http.URL := readiness.wellKnownURL apiIP |}.

(** What a probe of [apiIP] adds to the request log: its request, unless
    the request could not be built. *)
Definition sentFor (platform : Platform) (apiIP : string) : list http.Request :=
  match NewRequestError platform http.MethodGet (readiness.wellKnownURL apiIP) with
  | Some _ => []
  | None => [probeRequest apiIP]
  end.

(** An answer of a probe that is an error or not ready. *)
Definition failed (answer : bool * string * option error) : Prop :=
  answer.2 <> None \/ answer.1.1 = false.

(** The world after more requests. *)
Definition afterRequests (w : readiness.World) (sent : list http.Request)
    : readiness.World :=
  {| readiness.requests := readiness.requests w ++ sent;
     readiness.statusUpdates := readiness.statusUpdates w |}.

(** A byte a JSON string holds as it stands: printable ASCII other than
    the double quote and the backslash.  Every byte of a host name (a
    letter, a digit, a hyphen or a dot) is one. *)
Definition plainByte (c : ascii) : bool :=
  let n := byte c in
  ((32 <=? n) && (n <? 128) && negb (n =? 34) && negb (n =? 92))%N.

Fixpoint allPlain (s : string) : bool :=
  match s with
  | EmptyString => true
  | String c rest => plainByte c && allPlain rest
  end.

Definition hostnameByte (c : ascii) : bool :=
  let n := byte c in
  ((48 <=? n) && (n <=? 57) || (97 <=? n) && (n <=? 122)
   || (65 <=? n) && (n <=? 90) || (n =? 45) || (n =? 46))%N.

Fixpoint isHostname (s : string) : bool :=
  match s with
  | EmptyString => true
  | String c rest => hostnameByte c && isHostname rest
  end.

(** The text of [stubMetadata] around its three verbs, without the
    blank lines at its two ends. *)
Definition piece0 : string := backquoted "{
  'issuer': 'https://".

Definition piece1 : string := backquoted "',
  'authorization_endpoint': 'https://".

Definition piece2 : string := backquoted "/oauth/authorize',
  'token_endpoint': 'https://".

Definition piece3 : string := backquoted "/oauth/token',
  'scopes_supported': [
    'user:check-access',
    'user:full',
    'user:info',
    'user:list-projects',
    'user:list-scoped-projects'
  ],
  'response_types_supported': [
    'code',
    'token'
  ],
  'grant_types_supported': [
    'authorization_code',
    'implicit'
  ],
  'code_challenge_methods_supported': [
    'plain',
    'S256'
  ]
}".

(** A route spec disagrees with the desired one on a validated field:
    the name of the target service, the target port, the TLS
    termination or the insecure-edge termination policy.  A field that
    is not set disagrees. *)
Definition disagrees (targetName : string) (containerPort : Z)
    (route : routev1.Route) : Prop :=
  routev1.Name (routev1.To (routev1.Spec route)) <> targetName
  \/ match routev1.Port (routev1.Spec route) with
     | Some port =>
         intstr.IntValue (routev1.TargetPort port)
         <> intstr.IntValue (intstr.FromInt containerPort)
     | None => True
     end
  \/ match routev1.TLS (routev1.Spec route) with
     | Some tls =>
         routev1.Termination tls <> routev1.TLSTerminationPassthrough
         \/ routev1.InsecureEdgeTerminationPolicy tls
            <> routev1.InsecureEdgeTerminationPolicyRedirect
     | None => True
     end.


(** The tokens of the document of a plain host. *)
Definition documentTokens (host : string) : list JSON.token :=
  [ JSON.TLBrace;
    JSON.TString "issuer"; JSON.TColon; JSON.TString ("https://" +:+ host); JSON.TComma;
    JSON.TString "authorization_endpoint"; JSON.TColon;
    JSON.TString ("https://" +:+ host +:+ "/oauth/authorize"); JSON.TComma;
    JSON.TString "token_endpoint"; JSON.TColon;
    JSON.TString ("https://" +:+ host +:+ "/oauth/token"); JSON.TComma;
    JSON.TString "scopes_supported"; JSON.TColon;
    JSON.TLBracket;
    JSON.TString "user:check-access"; JSON.TComma; JSON.TString "user:full"; JSON.TComma;
    JSON.TString "user:info"; JSON.TComma; JSON.TString "user:list-projects"; JSON.TComma;
    JSON.TString "user:list-scoped-projects";
    JSON.TRBracket; JSON.TComma;
    JSON.TString "response_types_supported"; JSON.TColon;
    JSON.TLBracket; JSON.TString "code"; JSON.TComma; JSON.TString "token"; JSON.TRBracket; JSON.TComma;
    JSON.TString "grant_types_supported"; JSON.TColon;
    JSON.TLBracket; JSON.TString "authorization_code"; JSON.TComma; JSON.TString "implicit"; JSON.TRBracket;
    JSON.TComma;
    JSON.TString "code_challenge_methods_supported"; JSON.TColon;
    JSON.TLBracket; JSON.TString "plain"; JSON.TComma; JSON.TString "S256"; JSON.TRBracket;
    JSON.TRBrace ].

(** A service port the controller takes for the port of the API
    servers: a TCP port of the service, at the number of
    [kasServicePort], whose target port has a value other than 0. *)
Definition qualifies (kasServicePort : Z) (port : corev1.ServicePort) : Prop :=
  intstr.IntValue (corev1.TargetPort port) <> 0%Z
  /\ corev1.ServiceProtocol port = corev1.ProtocolTCP
  /\ corev1.ServicePortNumber port = kasServicePort.

(** An ingress of a route status that a router has admitted at [host]. *)
Definition admittedAt (host : string) (ingress : routev1.RouteIngress) : Prop :=
  routev1.IngressHost ingress = host
  /\ exists condition,
       condition ∈ routev1.Conditions ingress
       /\ routev1.ConditionType condition = routev1.RouteAdmitted
       /\ routev1.ConditionStatus condition = corev1.ConditionTrue.

(** The shape of a readiness answer: ready with no message and no
    error, or not ready with either a message or an error that has a
    text, never both and never neither. *)
Definition wellFormedAnswer (answer : bool * string * option error) : Prop :=
  let '(ready, msg, err) := answer in
  if ready : bool then msg = "" /\ err = None
  else (msg <> "" /\ err = None)
       \/ (msg = "" /\ exists e, err = Some e /\ Error e <> "").

(** The text [sync] reports for an answer that is not ready: the message,
    or the text of the error when there is no message. *)
Definition reportedText (msg : string) (err : option error) : string :=
  if (String.length msg =? 0)%nat
  then match err with Some e => Error e | None => "" end
  else msg.

(** The list [sync] hands over for an answer of the readiness check, when
    both lookups have found their object. *)
Definition reportFor (ready : bool) (msg : string) (err : option error)
    : list operatorv1.OperatorCondition :=
  [ {| operatorv1.Type_ := "WellKnownAuthConfigDegraded";
       operatorv1.Status := operatorv1.ConditionFalse;
       operatorv1.Reason := ""; operatorv1.Message := "" |};
    (if ready then
       {| operatorv1.Type_ := "WellKnownAvailable";
          operatorv1.Status := operatorv1.ConditionTrue;
          operatorv1.Reason := ""; operatorv1.Message := "" |}
     else
       {| operatorv1.Type_ := "WellKnownAvailable";
          operatorv1.Status := operatorv1.ConditionFalse;
          operatorv1.Reason := "NotReady";
          operatorv1.Message := "THe well-known endpoint is not yet available: "
                                +:+ reportedText msg err |});
    (if ready then
       {| operatorv1.Type_ := "WellKnownProgressing";
          operatorv1.Status := operatorv1.ConditionFalse;
          operatorv1.Reason := ""; operatorv1.Message := "" |}
     else
       {| operatorv1.Type_ := "WellKnownProgressing";
          operatorv1.Status := operatorv1.ConditionTrue;
          operatorv1.Reason := "NotReady";
          operatorv1.Message := "The well-known endpoint is not yet avaiable: "
                                +:+ reportedText msg err |});
    {| operatorv1.Type_ := "WellKnownRouteDegraded";
       operatorv1.Status := operatorv1.ConditionFalse;
       operatorv1.Reason := ""; operatorv1.Message := "" |} ].

(** An order in which a [range] may visit the keys of a map. *)
Definition rangeOrder {A : Type} (m : gmap string A) (keys : list string) : Prop :=
  keys ≡ₚ map fst (map_to_list m).

(** The discovery document of [host], built directly: the seven keys
    and their values. *)
Definition expectedMetadata (host : string) : gmap string JSON.value :=
  list_to_map
    [ ("issuer", JSON.JString ("https://" +:+ host));
      ("authorization_endpoint", JSON.JString ("https://" +:+ host +:+ "/oauth/authorize"));
      ("token_endpoint", JSON.JString ("https://" +:+ host +:+ "/oauth/token"));
      ("scopes_supported",
       JSON.JArray
         [ JSON.JString "user:check-access";
           JSON.JString "user:full";
           JSON.JString "user:info";
           JSON.JString "user:list-projects";
           JSON.JString "user:list-scoped-projects" ]);
      ("response_types_supported",
       JSON.JArray [JSON.JString "code"; JSON.JString "token"]);
      ("grant_types_supported",
       JSON.JArray [JSON.JString "authorization_code"; JSON.JString "implicit"]);
      ("code_challenge_methods_supported",
       JSON.JArray [JSON.JString "plain"; JSON.JString "S256"]) ].

(** The entry [routerSecretToSNI] builds for one domain of the router
    secret: the wildcard name of the domain, with the certificate and
    the key in the one file of the domain under [mount]. *)
Definition namedCertificateFor (mount domain : string) : configv1.NamedCertificate :=
  {| configv1.Names := ["*." +:+ domain];
     configv1.NamedCertInfo :=
       {| configv1.CertFile := mount +:+ "/" +:+ domain;
          configv1.KeyFile := mount +:+ "/" +:+ domain |} |}.

(** What [Atoi] answers for a numeral of [v]: the number, or beyond the
    range of an [int] the nearest bound with an error. *)
Definition inRange (v : Z) (answer : Z * option error) : Prop :=
  if (GoStrconv.maxInt64 <? v)%Z
  then answer.1 = GoStrconv.maxInt64 /\ answer.2 <> None
  else if (v <? GoStrconv.minInt64)%Z
  then answer.1 = GoStrconv.minInt64 /\ answer.2 <> None
  else answer = (v, None).

End Spec.

(** ** Concrete inputs for the examples of Part II *)

Module Fixtures.

Import GoErrors GoFmt.

(** A rendering of [%#v] and [%+v] that elides the value. *)
Definition elided (A : Type) : Formatter A :=
  {| sharp_v := fun _ => "{...}"; plus_v := fun _ => "{...}" |}.

(** A controller whose informer caches hold the given objects. *)
Definition cachedController
    (services : gmap string corev1.Service)
    (endpoints : gmap string corev1.Endpoints)
    (authentications : gmap string configv1.Authentication)
    (routes : gmap string routev1.Route) : readiness.wellKnownReadyController :=
  {| readiness.serviceLister := namespaceLister "service" services;
     readiness.endpointLister := namespaceLister "endpoints" endpoints;
     readiness.operatorClient := fun _ => None;
     readiness.authLister :=
       clusterLister "authentication.config.openshift.io" authentications;
     readiness.routeLister := namespaceLister "route.route.openshift.io" routes |}.

(** The controller of a cluster that has none of the four objects yet. *)
Definition emptyCaches : readiness.wellKnownReadyController :=
  cachedController ∅ ∅ ∅ ∅.

Definition address (ip : string) : corev1.EndpointAddress := {| corev1.IP := ip |}.

Definition kubernetesService : corev1.Service :=
  {| corev1.ServicePorts :=
       [ {| corev1.ServiceProtocol := "TCP";
            corev1.ServicePortNumber := 443;
            corev1.TargetPort := intstr.FromInt 6443 |} ] |}.

(** Endpoints with a UDP subset, then a ready TCP subset, then a TCP
    subset that is not ready. *)
Definition kubernetesEndpoints : corev1.Endpoints :=
  {| corev1.Subsets :=
       [ {| corev1.Addresses := [address "10.0.0.9"];
            corev1.NotReadyAddresses := [];
            corev1.Ports := [ {| corev1.Port := 6443; corev1.Protocol := "UDP" |} ] |};
         {| corev1.Addresses := [address "10.0.0.1"; address "fd00::2"];
            corev1.NotReadyAddresses := [];
            corev1.Ports := [ {| corev1.Port := 6443; corev1.Protocol := "TCP" |} ] |};
         {| corev1.Addresses := [address "10.0.0.3"];
            corev1.NotReadyAddresses := [address "10.0.0.4"];
            corev1.Ports := [ {| corev1.Port := 6443; corev1.Protocol := "TCP" |} ] |} ] |}.

Definition readyCluster : readiness.wellKnownReadyController :=
  cachedController {[ "default/kubernetes" := kubernetesService ]}
                   {[ "default/kubernetes" := kubernetesEndpoints ]} ∅ ∅.

(** The route of the OAuth server, admitted at [host]. *)
Definition oauthRoute (host : string) : routev1.Route :=
  {| routev1.ObjectMeta :=
       {| metav1.Name := "oauth-openshift";
          metav1.Namespace := "openshift-authentication";
          metav1.UID := "3f0c";
          metav1.Labels := ∅;
          metav1.Annotations := ∅ |};
     routev1.Spec :=
       {| routev1.Host := host;
          routev1.Subdomain := "";
          routev1.To := {| routev1.Kind := "Service"; routev1.Name := "oauth-openshift" |};
          routev1.Port := Some {| routev1.TargetPort := intstr.FromInt 6443 |};
          routev1.TLS :=
            Some {| routev1.Termination := "passthrough";
                    routev1.InsecureEdgeTerminationPolicy := "Redirect" |} |};
     routev1.Status :=
       {| routev1.Ingress :=
            [ {| routev1.IngressHost := host;
                 routev1.Conditions :=
                   [ {| routev1.ConditionType := "Admitted";
                        routev1.ConditionStatus := "True" |} ] |} ] |} |}.

Definition response (code : Z) (status body : string) : http.Response :=
  {| http.StatusCode := code; http.Status := status; http.Body := inl body |}.

(** A transport behind which 10.0.0.1 serves the document of
    [oauth.example.com], 10.0.0.2 is unavailable, 10.0.0.3 serves an
    empty object, and nothing else answers. *)
Definition transport : http.RoundTripper := fun _ req =>
  if String.eqb (http.URL req) (readiness.wellKnownURL "10.0.0.1:6443") then
    inl (response 200 "200 OK" (readiness.getOAuthMetadata "oauth.example.com"))
  else if String.eqb (http.URL req) (readiness.wellKnownURL "10.0.0.2:6443") then
    inl (response 503 "503 Service Unavailable" "")
  else if String.eqb (http.URL req) (readiness.wellKnownURL "10.0.0.3:6443") then
    inl (response 200 "200 OK" "{}")
  else inr (mkError errorString "dial tcp: connection refused").

Definition platform : Platform :=
  {| ReadFile := fun _ => inl "-----BEGIN CERTIFICATE-----";
     TransportFor := fun _ _ => inl transport;
     NewRequestError := fun _ _ => None;
     UnmarshalError := fun _ => mkError errorString "unexpected end of JSON input" |}.

Definition world0 : readiness.World :=
  {| readiness.requests := []; readiness.statusUpdates := [] |}.

(** *** Two whole clusters for [sync] *)

Definition integratedOAuth : configv1.Authentication :=
  {| configv1.OAuthMetadataName := "";
     configv1.AuthenticationType := "IntegratedOAuth" |}.

Definition subsetOf (ready notReady : list string) : corev1.EndpointSubset :=
  {| corev1.Addresses := map address ready;
     corev1.NotReadyAddresses := map address notReady;
     corev1.Ports := [ {| corev1.Port := 6443; corev1.Protocol := "TCP" |} ] |}.

(** A cluster with the route, the authentication config, the service
    and the given endpoints subset. *)
Definition clusterOf (subset : corev1.EndpointSubset) : readiness.wellKnownReadyController :=
  cachedController
    {[ "default/kubernetes" := kubernetesService ]}
    {[ "default/kubernetes" := {| corev1.Subsets := [subset] |} ]}
    {[ "cluster" := integratedOAuth ]}
    {[ "openshift-authentication/oauth-openshift" := oauthRoute "oauth.example.com" ]}.

(** A transport behind which every address serves the document of
    [oauth.example.com]. *)
Definition healthyTransport : http.RoundTripper := fun _ _ =>
  inl (response 200 "200 OK" (readiness.getOAuthMetadata "oauth.example.com")).

Definition healthyPlatform : Platform :=
  {| ReadFile := fun _ => inl "-----BEGIN CERTIFICATE-----";
     TransportFor := fun _ _ => inl healthyTransport;
     NewRequestError := fun _ _ => None;
     UnmarshalError := fun _ => mkError errorString "unexpected end of JSON input" |}.

(** [sync] with the port 443 of the [kubernetes] service. *)
Definition sync :=
  @readiness.sync (elided _) (elided _) 443.

(** An API server that stores one route and one secret.  A delete
    checks the UID precondition; a create refuses a second route. *)
Record Store := {
  storedRoute : option routev1.Route;
  storedSecret : option corev1.Secret
}.

Definition uidMatches (opts : metav1.DeleteOptions) (route : routev1.Route) : bool :=
  match metav1.DeletePreconditions opts with
  | Some {| metav1.PreconditionUID := Some uid |} =>
      String.eqb uid (metav1.UID (routev1.ObjectMeta route))
  | _ => true
  end.

Definition apiServer : operator2.authOperator Store :=
  {| operator2.routeGet := fun name st =>
       match storedRoute st with
       | Some route =>
           if String.eqb (metav1.Name (routev1.ObjectMeta route)) name then inl route
           else inr (NewNotFound "routes.route.openshift.io" name)
       | None => inr (NewNotFound "routes.route.openshift.io" name)
       end;
     operator2.routeCreate := fun route st =>
       match storedRoute st with
       | Some _ =>
           (inr (mkError (StatusError "AlreadyExists") "route already exists"), st)
       | None =>
           (inl route, {| storedRoute := Some route; storedSecret := storedSecret st |})
       end;
     operator2.routeDelete := fun name opts st =>
       match storedRoute st with
       | Some route =>
           if uidMatches opts route
           then (None, {| storedRoute := None; storedSecret := storedSecret st |})
           else (Some (mkError (StatusError "Conflict") "the UID in the precondition does not match"), st)
       | None => (Some (NewNotFound "routes.route.openshift.io" name), st)
       end;
     operator2.secretsGet := fun namespace name st =>
       match storedSecret st with
       | Some secret => inl secret
       | None => inr (NewNotFound "secrets" name)
       end |}.

Definition targetName : string := "oauth-openshift".
Definition targetNamespace : string := "openshift-authentication".
Definition containerPort : Z := 6443.
Definition routerCertsLocalName : string := "v4-0-config-system-router-certs".

Definition defaultMeta : metav1.ObjectMeta :=
  {| metav1.Name := "oauth-openshift";
     metav1.Namespace := "openshift-authentication";
     metav1.UID := "";
     metav1.Labels := {[ "app" := "oauth-openshift" ]};
     metav1.Annotations := ∅ |}.

Definition ingressConfig : configv1.Ingress :=
  {| configv1.Domain := "apps.example.com" |}.

(** [oauthRoute] with another spec. *)
Definition withSpec (route : routev1.Route) (to : string)
    (port : option routev1.RoutePort) (tls : option routev1.TLSConfig)
    : routev1.Route :=
  {| routev1.ObjectMeta := routev1.ObjectMeta route;
     routev1.Spec :=
       {| routev1.Host := routev1.Host (routev1.Spec route);
          routev1.Subdomain := "";
          routev1.To := {| routev1.Kind := "Service"; routev1.Name := to |};
          routev1.Port := port;
          routev1.TLS := tls |};
     routev1.Status := routev1.Status route |}.


(** A route for another service that no router has admitted. *)
Definition unadmittedRoute : routev1.Route :=
  {| routev1.ObjectMeta := routev1.ObjectMeta (oauthRoute "");
     routev1.Spec :=
       routev1.Spec
         (withSpec (oauthRoute "") "console"
            (Some {| routev1.TargetPort := intstr.FromInt 6443 |})
            (Some {| routev1.Termination := "passthrough";
                     routev1.InsecureEdgeTerminationPolicy := "Redirect" |}));
     routev1.Status := {| routev1.Ingress := [] |} |}.

(** The admitted route with no port. *)
Definition portlessRoute : routev1.Route :=
  withSpec (oauthRoute "oauth-openshift.apps.example.com") "oauth-openshift" None
    (Some {| routev1.Termination := "passthrough";
             routev1.InsecureEdgeTerminationPolicy := "Redirect" |}).

Definition clusterWith (route : routev1.Route) : operator2.World Store :=
  {| operator2.cluster := {| storedRoute := Some route; storedSecret := None |};
     operator2.calls := [] |}.

(** [handleRoute] with the constants of the package. *)
Definition handleRoute :=
  @operator2.handleRoute Store (elided _) (elided _)
    targetName targetNamespace containerPort routerCertsLocalName defaultMeta apiServer.

(** The secret of the router certificates, with one domain. *)
Definition routerSecret : corev1.Secret :=
  {| corev1.SecretMeta :=
       {| metav1.Name := "v4-0-config-system-router-certs";
          metav1.Namespace := "openshift-authentication";
          metav1.UID := "77aa";
          metav1.Labels := ∅;
          metav1.Annotations := ∅ |};
     corev1.Data := {[ "apps.example.com" := "-----BEGIN CERTIFICATE-----" ]} |}.

(** A cluster with the admitted route and the router secret. *)
Definition servingCluster : operator2.World Store :=
  {| operator2.cluster :=
       {| storedRoute := Some (oauthRoute "oauth-openshift.apps.example.com");
          storedSecret := Some routerSecret |};
     operator2.calls := [] |}.

(** A cluster with no route yet. *)
Definition freshCluster : operator2.World Store :=
  {| operator2.cluster := {| storedRoute := None; storedSecret := Some routerSecret |};
     operator2.calls := [] |}.

Definition routerCertsLocalMount : string :=
  "/var/config/system/secrets/v4-0-config-system-router-certs".

(** The caches of a cluster whose authentication config leaves the
    type empty: they hold the route, no service and no endpoints. *)
Definition untypedCaches : readiness.wellKnownReadyController :=
  {| readiness.serviceLister := readiness.serviceLister emptyCaches;
     readiness.endpointLister := readiness.endpointLister emptyCaches;
     readiness.operatorClient := fun _ => None;
     readiness.authLister := fun _ =>
       inl {| configv1.OAuthMetadataName := ""; configv1.AuthenticationType := "" |};
     readiness.routeLister := fun _ _ => inl (oauthRoute "oauth.example.com") |}.

End Fixtures.

(* ===================================================================== *)
(** * Part II: theorems *)
(* ===================================================================== *)


(** ** Small facts about the runtime models *)

Example Itoa_6443 : GoStrconv.Itoa 6443 = "6443".
Proof. reflexivity. Qed.

Example Atoi_examples :
  fst (GoStrconv.Atoi "6443") = 6443%Z /\ fst (GoStrconv.Atoi "https") = 0%Z
  /\ GoStrconv.Atoi "-12" = ((-12)%Z, None)
  /\ fst (GoStrconv.Atoi "99999999999999999999") = GoStrconv.maxInt64.
Proof. repeat split; reflexivity. Qed.

Example JoinHostPort_examples :
  GoNet.JoinHostPort "10.0.0.1" "6443" = "10.0.0.1:6443"
  /\ GoNet.JoinHostPort "fd00::1" "6443" = "[fd00::1]:6443".
Proof. split; reflexivity. Qed.

Example TrimSpace_examples :
  GoStrings.TrimSpace "  a b
" = "a b"
  /\ GoStrings.TrimSpace "   " = ""
  /\ GoStrings.HasSuffix "WellKnownAvailable" "Available" = true
  /\ GoStrings.HasSuffix "Available" "WellKnownAvailable" = false.
Proof. repeat split; reflexivity. Qed.

(** The decoder on a few inputs: [null] leaves the map nil; a value
    that is no object, text after the value, a leading zero and a number
    beyond float64 are errors; of two members with one key the last
    wins, and escapes are decoded. *)
Example Unmarshal_examples :
  JSON.Unmarshal "null" = Some None
  /\ JSON.Unmarshal "[1]" = None
  /\ JSON.Unmarshal "{} x" = None
  /\ JSON.Unmarshal (backquoted "{'a': 01}") = None
  /\ JSON.Unmarshal (backquoted "{'a': 1e999}") = None
  /\ JSON.Unmarshal (backquoted "{'a': 1, 'a': [true, null, 'x\u0041\n']}")
     = Some (Some {[ "a" := JSON.JArray
                              [ JSON.JBool true; JSON.JNull;
                                JSON.JString ("xA" +:+ String (JSON.chr 10) "") ] ]}).
Proof. repeat split; reflexivity. Qed.

(** ** The condition aggregation of [sync] *)

Section Aggregation.

Import readiness.

(** [knownConditionNames.List()] is the four names in byte order. *)
Lemma known_names_sorted :
  sets.List_ knownConditionNames
  = [ "WellKnownAuthConfigDegraded"; "WellKnownAvailable";
      "WellKnownProgressing"; "WellKnownRouteDegraded" ].
Proof. vm_compute. reflexivity. Qed.

Lemma elem_of_known (t : string) :
  t ∈ knownConditionNames
  <-> t ∈ [ "WellKnownAuthConfigDegraded"; "WellKnownAvailable";
            "WellKnownProgressing"; "WellKnownRouteDegraded" ].
Proof.
  unfold knownConditionNames. rewrite elem_of_list_to_set.
  rewrite !elem_of_cons, !elem_of_nil. tauto.
Qed.

Lemma find_some_type (found : list OperatorCondition) (t : string) (c : OperatorCondition) :
  FindOperatorCondition found t = Some c -> Type_ c = t.
Proof.
  induction found as [|d found IH]; simpl; [discriminate|].
  destruct (String.eqb (Type_ d) t) eqn:E; [|exact IH].
  intros [= <-]. now apply String.eqb_eq.
Qed.

Lemma find_none (found : list OperatorCondition) (t : string) :
  FindOperatorCondition found t = None <-> forall c, c ∈ found -> Type_ c <> t.
Proof.
  induction found as [|d found IH]; simpl.
  - split; [intros _ c Hc; inversion Hc | reflexivity].
  - destruct (String.eqb (Type_ d) t) eqn:E.
    + apply String.eqb_eq in E. split; [discriminate|].
      intros Hall. destruct (Hall d); [left | exact E].
    + apply String.eqb_neq in E. rewrite IH. split.
      * intros Hall c Hc. apply elem_of_cons in Hc as [-> | Hc]; auto.
      * intros Hall c Hc. apply Hall. now right.
Qed.

Lemma find_app (a b : list OperatorCondition) (t : string) :
  FindOperatorCondition (a ++ b) t
  = match FindOperatorCondition a t with
    | Some c => Some c
    | None => FindOperatorCondition b t
    end.
Proof.
  induction a as [|d a IH]; simpl; [reflexivity|].
  now destruct (String.eqb (Type_ d) t).
Qed.

(** The condition [sync] settles on for one type. *)
Lemma updateConditionFuncs_unfold (found : list OperatorCondition) :
  updateConditionFuncs found
  = [ default {| Type_ := "WellKnownAuthConfigDegraded"; Status := ConditionFalse;
                 Reason := ""; Message := "" |}
        (FindOperatorCondition found "WellKnownAuthConfigDegraded");
      default {| Type_ := "WellKnownAvailable"; Status := ConditionTrue;
                 Reason := ""; Message := "" |}
        (FindOperatorCondition found "WellKnownAvailable");
      default {| Type_ := "WellKnownProgressing"; Status := ConditionFalse;
                 Reason := ""; Message := "" |}
        (FindOperatorCondition found "WellKnownProgressing");
      default {| Type_ := "WellKnownRouteDegraded"; Status := ConditionFalse;
                 Reason := ""; Message := "" |}
        (FindOperatorCondition found "WellKnownRouteDegraded") ].
Proof.
  unfold updateConditionFuncs. rewrite known_names_sorted. reflexivity.
Qed.

Lemma default_find_type (found : list OperatorCondition) (t : string) (d : OperatorCondition) :
  Type_ d = t -> Type_ (default d (FindOperatorCondition found t)) = t.
Proof.
  intros Hd. destruct (FindOperatorCondition found t) eqn:E; simpl; [|exact Hd].
  eapply find_some_type, E.
Qed.

Lemma updateConditionFuncs_types (found : list OperatorCondition) :
  map Type_ (updateConditionFuncs found)
  = [ "WellKnownAuthConfigDegraded"; "WellKnownAvailable";
      "WellKnownProgressing"; "WellKnownRouteDegraded" ].
Proof.
  rewrite updateConditionFuncs_unfold. simpl.
  now rewrite !default_find_type.
Qed.

Lemma count_by_type (l : list OperatorCondition) (t : string) :
  length (filter (fun c => Type_ c = t) l)
  = length (filter (fun s => s = t) (map Type_ l)).
Proof.
  induction l as [|c l IH]; [reflexivity|]. simpl map.
  rewrite !filter_cons. destruct (decide (Type_ c = t)); simpl; now rewrite IH.
Qed.

(** The aggregated list holds one condition of each known type and none
    of any other. *)
Lemma one_per_known_type (foundConditions : list OperatorCondition) (t : string) :
  length (filter (fun c => Type_ c = t) (updateConditionFuncs foundConditions))
  = if decide (t ∈ knownConditionNames) then 1 else 0.
Proof.
  rewrite count_by_type, updateConditionFuncs_types.
  destruct (decide (t ∈ knownConditionNames)) as [Hin | Hout].
  - apply elem_of_known in Hin.
    rewrite !elem_of_cons, elem_of_nil in Hin.
    destruct Hin as [-> | [-> | [-> | [-> | []]]]]; reflexivity.
  - rewrite elem_of_known, !elem_of_cons, elem_of_nil in Hout.
    rewrite !filter_cons, filter_nil.
    repeat match goal with
           | |- context [decide (?s = t)] =>
               destruct (decide (s = t));
               [exfalso; apply Hout; subst t; tauto|]
           end.
    reflexivity.
Qed.

(** C2. The aggregation is idempotent: aggregating its own result, or
    the same findings fed twice, gives the list that one aggregation of
    the findings gives. *)
Theorem updateConditionFuncs_idempotent (foundConditions : list OperatorCondition) :
  updateConditionFuncs (updateConditionFuncs foundConditions)
  = updateConditionFuncs foundConditions
  /\ updateConditionFuncs (foundConditions ++ foundConditions)
     = updateConditionFuncs foundConditions.
Proof.
  split.
  - rewrite (updateConditionFuncs_unfold (updateConditionFuncs foundConditions)).
    rewrite (updateConditionFuncs_unfold foundConditions).
    simpl FindOperatorCondition.
    rewrite !default_find_type by reflexivity.
    reflexivity.
  - rewrite !updateConditionFuncs_unfold, !find_app.
    repeat match goal with
           | |- context [FindOperatorCondition foundConditions ?t] =>
               destruct (FindOperatorCondition foundConditions t)
           end; reflexivity.
Qed.

(** A default that no finding overrides is in the result. *)
Lemma default_emitted (found : list OperatorCondition) (t : string) :
  t ∈ knownConditionNames ->
  (forall c, c ∈ found -> Type_ c <> t) ->
  {| Type_ := t;
     Status := if GoStrings.HasSuffix t "Available"
               then ConditionTrue else ConditionFalse;
     Reason := "";
     Message := "" |} ∈ updateConditionFuncs found.
Proof.
  intros Hin Hnone. apply find_none in Hnone.
  rewrite updateConditionFuncs_unfold.
  apply elem_of_known in Hin. rewrite !elem_of_cons, elem_of_nil in Hin.
  destruct Hin as [-> | [-> | [-> | [-> | []]]]]; rewrite Hnone; simpl;
    rewrite !elem_of_cons; tauto.
Qed.

(** C8. A known type that no finding has is emitted with status False,
    or True when its name ends in Available, with no reason and no
    message; and with no finding at all the result is the four
    defaults. *)
Theorem updateConditionFuncs_defaults :
  (forall (foundConditions : list OperatorCondition) (t : string),
      t ∈ knownConditionNames ->
      (forall c, c ∈ foundConditions -> Type_ c <> t) ->
      {| Type_ := t;
         Status := if GoStrings.HasSuffix t "Available"
                   then ConditionTrue else ConditionFalse;
         Reason := "";
         Message := "" |} ∈ updateConditionFuncs foundConditions)
  /\ updateConditionFuncs []
     = [ {| Type_ := "WellKnownAuthConfigDegraded"; Status := ConditionFalse;
            Reason := ""; Message := "" |};
         {| Type_ := "WellKnownAvailable"; Status := ConditionTrue;
            Reason := ""; Message := "" |};
         {| Type_ := "WellKnownProgressing"; Status := ConditionFalse;
            Reason := ""; Message := "" |};
         {| Type_ := "WellKnownRouteDegraded"; Status := ConditionFalse;
            Reason := ""; Message := "" |} ].
Proof.
  split; [|reflexivity].
  intros found t Hin Hnone. now apply default_emitted.
Qed.

(** C10. A readiness answer that is not ready and carries neither a
    message nor an error text adds no finding; so, the earlier findings
    holding no progressing or available condition, the final list says
    WellKnownAvailable True and WellKnownProgressing False. *)
Theorem not_ready_without_text_reports_available
    (err : option GoErrors.error) (foundConditions : list OperatorCondition) :
  (forall e, err = Some e -> GoErrors.Error e = "") ->
  (forall c, c ∈ foundConditions ->
     Type_ c <> "WellKnownProgressing" /\ Type_ c <> "WellKnownAvailable") ->
  notReadyConditions (false, "", err) = []
  /\ {| Type_ := "WellKnownAvailable"; Status := ConditionTrue;
        Reason := ""; Message := "" |}
     ∈ updateConditionFuncs (foundConditions ++ notReadyConditions (false, "", err))
  /\ {| Type_ := "WellKnownProgressing"; Status := ConditionFalse;
        Reason := ""; Message := "" |}
     ∈ updateConditionFuncs (foundConditions ++ notReadyConditions (false, "", err)).
Proof.
  intros Htext Hfound.
  assert (Hnone : notReadyConditions (false, "", err) = []).
  { unfold notReadyConditions. simpl.
    destruct err as [e|]; [rewrite (Htext e eq_refl)|]; reflexivity. }
  rewrite Hnone, app_nil_r. split; [reflexivity|]. split.
  - apply (default_emitted foundConditions "WellKnownAvailable").
    + apply elem_of_known. rewrite !elem_of_cons. tauto.
    + intros c Hc. apply (Hfound c Hc).
  - apply (default_emitted foundConditions "WellKnownProgressing").
    + apply elem_of_known. rewrite !elem_of_cons. tauto.
    + intros c Hc. apply (Hfound c Hc).
Qed.

Lemma not_ready_without_text_reports_available_witness :
  notReadyConditions (false, "", None) = []
  /\ {| Type_ := "WellKnownAvailable"; Status := ConditionTrue;
        Reason := ""; Message := "" |}
     ∈ updateConditionFuncs ([] ++ notReadyConditions (false, "", None))
  /\ {| Type_ := "WellKnownProgressing"; Status := ConditionFalse;
        Reason := ""; Message := "" |}
     ∈ updateConditionFuncs ([] ++ notReadyConditions (false, "", None)).
Proof.
  apply (not_ready_without_text_reports_available None []).
  - intros e He. discriminate He.
  - intros c Hc. inversion Hc.
Defined.

(** A ready answer adds no finding either. *)
Lemma ready_adds_no_condition (msg : string) (err : option GoErrors.error) :
  notReadyConditions (true, msg, err) = [].
Proof. reflexivity. Qed.

End Aggregation.

(** ** The two prerequisite lookups *)

Section Lookups.

Import readiness GoErrors.

(** The branch the lookups take for an error [os.IsNotExist] accepts:
    no object and no condition. *)
Lemma getRoute_IsNotExist (c : wellKnownReadyController) (err : error) :
  routeLister c "openshift-authentication" "oauth-openshift" = inr err ->
  IsNotExist (Some err) = true ->
  getRoute c = (None, []).
Proof. intros Hget Hne. unfold getRoute. now rewrite Hget, Hne. Qed.

(** [os.IsNotExist] does not know the [NotFound] error of the API
    machinery. *)
Lemma IsNotExist_NewNotFound (resource name : string) :
  IsNotExist (Some (NewNotFound resource name)) = false
  /\ IsNotFound (Some (NewNotFound resource name)) = true.
Proof. split; reflexivity. Qed.

(** A lister that misses the route answers [NewNotFound], and [getRoute]
    reports the route degraded. *)
Lemma getRoute_not_found (c : wellKnownReadyController)
    (routes : gmap string routev1.Route) :
  routeLister c = namespaceLister "route.route.openshift.io" routes ->
  routes !! "openshift-authentication/oauth-openshift" = None ->
  getRoute c
  = (None,
     [ {| Type_ := "WellKnownRouteDegraded";
          Status := ConditionTrue;
          Reason := "GetFailed";
          Message := "Unable to get oauth-openshift route: "
                     +:+ Error (NewNotFound "route.route.openshift.io" "oauth-openshift") |} ]).
Proof.
  intros Hlister Hmiss. unfold getRoute.
  rewrite Hlister. unfold namespaceLister.
  change ("openshift-authentication" +:+ "/" +:+ "oauth-openshift")
    with "openshift-authentication/oauth-openshift".
  rewrite Hmiss. reflexivity.
Qed.

(** C5, on the code: with caches that hold neither the route nor the
    authentication config, [getRoute] and [getAuthConfig] return no
    object and one degraded condition each, where the claim has none. *)
Theorem lookups_of_absent_objects_report_degraded :
  getRoute Fixtures.emptyCaches
  = (None,
     [ {| Type_ := "WellKnownRouteDegraded";
          Status := ConditionTrue;
          Reason := "GetFailed";
          Message := "Unable to get oauth-openshift route: route.route.openshift.io "
                     +:+ String dquote "oauth-openshift"
                     +:+ String dquote " not found" |} ])
  /\ getAuthConfig Fixtures.emptyCaches
     = (None,
        [ {| Type_ := "WellKnownAuthConfigDegraded";
             Status := ConditionTrue;
             Reason := "GetFailed";
             Message := "Unable to get cluster authentication config: "
                        +:+ "authentication.config.openshift.io "
                        +:+ String dquote "cluster"
                        +:+ String dquote " not found" |} ]).
Proof. split; reflexivity. Qed.

End Lookups.

(** ** The address resolver *)

Section Resolver.

Import readiness GoErrors GoFmt.

Context `{Formatter corev1.Service} `{Formatter corev1.Endpoints}.

(** A subset has the target port when one of its ports is that TCP port. *)
Lemma subsetHasKASTargetPort_spec (subset : corev1.EndpointSubset) (targetPort : Z) :
  subsetHasKASTargetPort subset targetPort = true
  <-> exists port, port ∈ corev1.Ports subset
                   /\ corev1.Protocol port = corev1.ProtocolTCP
                   /\ corev1.Port port = targetPort.
Proof.
  unfold subsetHasKASTargetPort.
  induction (corev1.Ports subset) as [|p ports IH]; simpl.
  - split; [discriminate|]. intros (port & Hin & _). inversion Hin.
  - destruct (String.eqb (corev1.Protocol p) corev1.ProtocolTCP) eqn:Eproto;
      destruct (corev1.Port p =? targetPort)%Z eqn:Eport; simpl.
    + split; [intros _|reflexivity]. exists p. repeat split.
      * left.
      * now apply String.eqb_eq.
      * now apply Z.eqb_eq.
    + rewrite IH. apply Z.eqb_neq in Eport. split.
      * intros (port & Hin & Hp). exists port. split; [now right | exact Hp].
      * intros (port & Hin & Hproto & Hport).
        apply elem_of_cons in Hin as [-> | Hin]; [contradiction|]. now exists port.
    + rewrite IH. apply String.eqb_neq in Eproto. split.
      * intros (port & Hin & Hp). exists port. split; [now right | exact Hp].
      * intros (port & Hin & Hproto & Hport).
        apply elem_of_cons in Hin as [-> | Hin]; [contradiction|]. now exists port.
    + rewrite IH. apply String.eqb_neq in Eproto. split.
      * intros (port & Hin & Hp). exists port. split; [now right | exact Hp].
      * intros (port & Hin & Hproto & Hport).
        apply elem_of_cons in Hin as [-> | Hin]; [contradiction|]. now exists port.
Qed.

(** The address loop appends one joined address per ready address. *)
Lemma join_loop (targetPort : Z) (addresses : list corev1.EndpointAddress)
    (ips : list string) :
  fold_left
    (fun ips address =>
       ips ++ [GoNet.JoinHostPort (corev1.IP address) (GoStrconv.Itoa targetPort)])
    addresses ips
  = ips ++ map (fun address =>
                  GoNet.JoinHostPort (corev1.IP address) (GoStrconv.Itoa targetPort))
             addresses.
Proof.
  revert ips. induction addresses as [|a addresses IH]; intros ips; simpl.
  - now rewrite app_nil_r.
  - rewrite IH, <- app_assoc. reflexivity.
Qed.

(** The all-or-nothing test on a subset. *)
Lemma not_usable_test (notReady ready : list corev1.EndpointAddress) :
  negb (length notReady =? 0)%nat || (length ready =? 0)%nat
  = bool_decide (notReady <> [] \/ ready = []).
Proof.
  symmetry. destruct notReady as [|n notReady], ready as [|a ready].
  - apply bool_decide_eq_true_2. now right.
  - apply bool_decide_eq_false_2. intros [Hc | Hc]; [now apply Hc | discriminate].
  - apply bool_decide_eq_true_2. now left.
  - apply bool_decide_eq_true_2. now left.
Qed.

(** Subsets without the target port are passed over. *)
Lemma subsetsLoop_skip (kasEndpoint : corev1.Endpoints) (targetPort : Z)
    (before rest : list corev1.EndpointSubset) :
  Forall (fun s => subsetHasKASTargetPort s targetPort = false) before ->
  subsetsLoop kasEndpoint targetPort (before ++ rest)
  = subsetsLoop kasEndpoint targetPort rest.
Proof.
  induction 1 as [|s before Hs _ IH]; simpl; [reflexivity|].
  now rewrite Hs.
Qed.

(** With no subset that has the target port, the resolver fails. *)
Lemma getAPIServerIPs_no_matching_subset
    (kasServicePort : Z) (c : wellKnownReadyController)
    (kasService : corev1.Service) (kasEndpoint : corev1.Endpoints) (targetPort : Z) :
  serviceLister c "default" "kubernetes" = inl kasService ->
  getKASTargetPortFromService kasServicePort kasService = (targetPort, true) ->
  endpointLister c "default" "kubernetes" = inl kasEndpoint ->
  Forall (fun s => subsetHasKASTargetPort s targetPort = false)
    (corev1.Subsets kasEndpoint) ->
  getAPIServerIPs kasServicePort c
  = ([], Some (Errorf "unable to find kube api server endpointLister port: %#v"
                 [sharp_v kasEndpoint])).
Proof.
  intros Hsvc Hport Hep Hnone.
  unfold getAPIServerIPs. change corev1.NamespaceDefault with "default".
  rewrite Hsvc, Hport, Hep. simpl negb. cbv iota.
  rewrite <- (app_nil_r (corev1.Subsets kasEndpoint)).
  now rewrite subsetsLoop_skip.
Qed.

(** C3. With the target port resolved from the service, the resolver
    decides on the first subset that has that TCP port, whatever
    subsets follow: an error and no address when the subset has a
    not-ready address or no ready one, and otherwise every ready address
    of the subset joined with the target port, in order. *)
Theorem getAPIServerIPs_first_matching_subset
    (kasServicePort : Z) (c : wellKnownReadyController)
    (kasService : corev1.Service) (kasEndpoint : corev1.Endpoints) (targetPort : Z)
    (before : list corev1.EndpointSubset) (subset : corev1.EndpointSubset)
    (after : list corev1.EndpointSubset) :
  serviceLister c "default" "kubernetes" = inl kasService ->
  getKASTargetPortFromService kasServicePort kasService = (targetPort, true) ->
  endpointLister c "default" "kubernetes" = inl kasEndpoint ->
  corev1.Subsets kasEndpoint = before ++ subset :: after ->
  (forall s port, s ∈ before -> port ∈ corev1.Ports s ->
     ~ (corev1.Protocol port = "TCP" /\ corev1.Port port = targetPort)) ->
  (exists port, port ∈ corev1.Ports subset
                /\ corev1.Protocol port = "TCP" /\ corev1.Port port = targetPort) ->
  getAPIServerIPs kasServicePort c
  = if bool_decide (corev1.NotReadyAddresses subset <> []
                    \/ corev1.Addresses subset = [])
    then ([], Some (Errorf "kube api server endpointLister is not ready: %#v"
                      [sharp_v kasEndpoint]))
    else (map (fun address =>
                 GoNet.JoinHostPort (corev1.IP address) (GoStrconv.Itoa targetPort))
            (corev1.Addresses subset),
          None).
Proof.
  intros Hsvc Hport Hep Hsubsets Hbefore Hsubset.
  unfold getAPIServerIPs. change corev1.NamespaceDefault with "default".
  rewrite Hsvc, Hport, Hep, Hsubsets. simpl negb. cbv iota.
  rewrite subsetsLoop_skip.
  2:{ apply Forall_forall. intros s Hs.
      destruct (subsetHasKASTargetPort s targetPort) eqn:E; [|reflexivity].
      apply subsetHasKASTargetPort_spec in E as (port & Hin & Hp).
      destruct (Hbefore s port Hs Hin Hp). }
  simpl subsetsLoop. apply subsetHasKASTargetPort_spec in Hsubset.
  rewrite Hsubset, not_usable_test, join_loop. reflexivity.
Qed.

End Resolver.

Lemma getAPIServerIPs_first_matching_subset_witness :
  @readiness.getAPIServerIPs (Fixtures.elided _) (Fixtures.elided _) 443
    Fixtures.readyCluster
  = (["10.0.0.1:6443"; "[fd00::2]:6443"], None).
Proof.
  refine (@getAPIServerIPs_first_matching_subset
            (Fixtures.elided _) (Fixtures.elided _) 443 Fixtures.readyCluster
            Fixtures.kubernetesService Fixtures.kubernetesEndpoints 6443
            [ {| corev1.Addresses := [Fixtures.address "10.0.0.9"];
                 corev1.NotReadyAddresses := [];
                 corev1.Ports := [ {| corev1.Port := 6443; corev1.Protocol := "UDP" |} ] |} ]
            {| corev1.Addresses := [Fixtures.address "10.0.0.1"; Fixtures.address "fd00::2"];
               corev1.NotReadyAddresses := [];
               corev1.Ports := [ {| corev1.Port := 6443; corev1.Protocol := "TCP" |} ] |}
            [ {| corev1.Addresses := [Fixtures.address "10.0.0.3"];
                 corev1.NotReadyAddresses := [Fixtures.address "10.0.0.4"];
                 corev1.Ports := [ {| corev1.Port := 6443; corev1.Protocol := "TCP" |} ] |} ]
            _ _ _ _ _ _).
  - reflexivity.
  - reflexivity.
  - reflexivity.
  - reflexivity.
  - intros s port Hs Hport [Hproto _].
    apply list_elem_of_singleton in Hs. subst s.
    apply list_elem_of_singleton in Hport. subst port. discriminate Hproto.
  - eexists. split; [left|]. split; reflexivity.
Defined.

(** ** The discovery verifier *)

Section Verifier.

Import readiness GoErrors GoFmt Spec.

Variable platform : Platform.
Variable rt : http.RoundTripper.
Variable route : routev1.Route.

Lemma afterRequests_nil (w : World) : afterRequests w [] = w.
Proof. destruct w. unfold afterRequests. simpl. now rewrite app_nil_r. Qed.

Lemma afterRequests_app (w : World) (a b : list http.Request) :
  afterRequests (afterRequests w a) b = afterRequests w (a ++ b).
Proof. unfold afterRequests. simpl. now rewrite app_assoc. Qed.

(** A probe changes the world by its request alone. *)
Lemma check_world (apiIP : string) (w : World) :
  (checkWellknownEndpointReady platform apiIP rt route w).2
  = afterRequests w (sentFor platform apiIP).
Proof.
  unfold checkWellknownEndpointReady, sentFor.
  destruct (NewRequestError platform http.MethodGet (wellKnownURL apiIP)).
  - simpl. now rewrite afterRequests_nil.
  - unfold mbind, M_bind, RoundTrip. simpl.
    destruct (rt (requests w) _) as [resp | err]; [|reflexivity].
    destruct (negb (http.StatusCode resp =? 200)%Z); [reflexivity|].
    destruct (http.Body resp) as [body | err]; [|reflexivity].
    destruct (JSON.Unmarshal body) as [received|]; [|reflexivity].
    unfold getMetadataStruct.
    destruct (JSON.Unmarshal (getOAuthMetadata _)) as [expected|]; [|reflexivity].
    simpl. now destruct (negb (JSON.DeepEqual expected received)).
Qed.

(** A probe that answers ready has sent its request, and answers with
    no message and no error. *)
Lemma check_ready (apiIP : string) (w w' : World) (msg : string) (err : option error) :
  checkWellknownEndpointReady platform apiIP rt route w = (Returned (true, msg, err), w') ->
  msg = "" /\ err = None /\ sentFor platform apiIP = [probeRequest apiIP].
Proof.
  unfold checkWellknownEndpointReady, sentFor.
  destruct (NewRequestError platform http.MethodGet (wellKnownURL apiIP));
    [intros [=]|].
  unfold mbind, M_bind, RoundTrip. simpl.
  destruct (rt (requests w) _) as [resp | e]; [|intros [=]].
  destruct (negb (http.StatusCode resp =? 200)%Z); [intros [=]|].
  destruct (http.Body resp) as [body | e]; [|intros [=]].
  destruct (JSON.Unmarshal body) as [received|]; [|intros [=]].
  unfold getMetadataStruct.
  destruct (JSON.Unmarshal (getOAuthMetadata _)) as [expected|]; [|intros [=]].
  simpl. destruct (negb (JSON.DeepEqual expected received)); intros [= <- <-]; auto.
Qed.

Lemma probeLoop_cons (ip : string) (rest : list string) (w : World) :
  probeLoop platform (ip :: rest) rt route w
  = match checkWellknownEndpointReady platform ip rt route w with
    | (Returned (wellknownReady, wellknownMsg, err), w') =>
        if bool_decide (err <> None) || negb wellknownReady
        then (Returned (wellknownReady, wellknownMsg, err), w')
        else probeLoop platform rest rt route w'
    | (Panicked, w') => (Panicked, w')
    end.
Proof.
  simpl. unfold mbind, M_bind.
  destruct (checkWellknownEndpointReady platform ip rt route w) as [[[[r m] e]|] w'];
    [|reflexivity].
  now destruct (bool_decide (e <> None) || negb r).
Qed.

Lemma failed_test (answer : bool * string * option error) :
  failed answer <-> bool_decide (answer.2 <> None) || negb answer.1.1 = true.
Proof.
  destruct answer as [[r m] e]. unfold failed. simpl.
  rewrite orb_true_iff, bool_decide_eq_true, negb_true_iff. reflexivity.
Qed.

(** A probe that is ready lets the loop go on. *)
Lemma probeLoop_ready_step (ip : string) (rest : list string) (w w' : World) :
  checkWellknownEndpointReady platform ip rt route w = (Returned (true, "", None), w') ->
  probeLoop platform (ip :: rest) rt route w = probeLoop platform rest rt route w'.
Proof. intros Hc. rewrite probeLoop_cons, Hc. reflexivity. Qed.

(** What a loop that answers ready has done. *)
Lemma probeLoop_ready (ips : list string) (w w' : World) (msg : string) (err : option error) :
  probeLoop platform ips rt route w = (Returned (true, msg, err), w') ->
  msg = "" /\ err = None
  /\ w' = afterRequests w (map probeRequest ips)
  /\ forall k ip, ips !! k = Some ip ->
       checkWellknownEndpointReady platform ip rt route
         (afterRequests w (map probeRequest (take k ips)))
       = (Returned (true, "", None),
          afterRequests w (map probeRequest (take (S k) ips))).
Proof.
  revert w. induction ips as [|ip ips IH]; intros w.
  - simpl. intros [= <- <- <-]. rewrite afterRequests_nil.
    repeat split; auto. intros k ip Hk. inversion Hk.
  - rewrite probeLoop_cons.
    pose proof (check_world ip w) as Hw.
    destruct (checkWellknownEndpointReady platform ip rt route w)
      as [[[[r m] e]|] w1] eqn:Hc; [|intros [=]].
    simpl in Hw. subst w1.
    destruct (bool_decide (e <> None) || negb r) eqn:Htest.
    + intros [= -> -> ->]. destruct err; simpl in Htest; [|discriminate].
      apply check_ready in Hc as (_ & [=] & _).
    + apply orb_false_iff in Htest as [He Hr].
      apply negb_false_iff in Hr. subst r.
      apply bool_decide_eq_false in He.
      assert (e = None) as -> by (destruct e; [exfalso; apply He; discriminate | reflexivity]).
      pose proof (check_ready _ _ _ _ _ Hc) as (-> & _ & Hsent).
      rewrite Hsent in Hc |- *.
      intros Hrest. apply IH in Hrest as (-> & -> & -> & Heach).
      rewrite afterRequests_app. repeat split; auto.
      intros [|k] ip' Hk; simpl in Hk.
      * injection Hk as <-. simpl. rewrite afterRequests_nil. exact Hc.
      * simpl take. simpl map.
        specialize (Heach k ip' Hk). rewrite !afterRequests_app in Heach. exact Heach.
Qed.

(** After a prefix that answers ready, the loop goes on with the rest. *)
Lemma probeLoop_prefix (before : list string) (w w1 : World) :
  probeLoop platform before rt route w = (Returned (true, "", None), w1) ->
  forall rest,
    probeLoop platform (before ++ rest) rt route w = probeLoop platform rest rt route w1.
Proof.
  revert w. induction before as [|b before IH]; intros w Hbefore rest.
  - simpl in Hbefore. now injection Hbefore as <-.
  - simpl app. rewrite probeLoop_cons in Hbefore |- *.
    destruct (checkWellknownEndpointReady platform b rt route w)
      as [[[[r m] e]|] wb]; [|discriminate Hbefore].
    destruct (bool_decide (e <> None) || negb r) eqn:Htest.
    + injection Hbefore as -> -> -> _. discriminate Htest.
    + now apply IH.
Qed.

(** C4. The probe loop is fail-fast.  When the addresses before [ip]
    have all answered ready and the probe of [ip] answers with an error
    or not ready, the loop returns that answer in the world the probe
    of [ip] left: the requests sent are those of the addresses up to
    [ip], and none goes to an address after it.  And a loop that
    answers ready has probed every address, in order, each answering
    ready. *)
Theorem probeLoop_fail_fast :
  (forall (before : list string) (ip : string) (after : list string)
          (w w1 w2 : World) (answer : bool * string * option error),
      probeLoop platform before rt route w = (Returned (true, "", None), w1) ->
      checkWellknownEndpointReady platform ip rt route w1 = (Returned answer, w2) ->
      failed answer ->
      probeLoop platform (before ++ ip :: after) rt route w = (Returned answer, w2)
      /\ w2 = afterRequests w (map probeRequest before ++ sentFor platform ip))
  /\ (forall (ips : list string) (w w' : World) (msg : string) (err : option error),
        probeLoop platform ips rt route w = (Returned (true, msg, err), w') ->
        msg = "" /\ err = None
        /\ w' = afterRequests w (map probeRequest ips)
        /\ forall k ip, ips !! k = Some ip ->
             checkWellknownEndpointReady platform ip rt route
               (afterRequests w (map probeRequest (take k ips)))
             = (Returned (true, "", None),
                afterRequests w (map probeRequest (take (S k) ips)))).
Proof.
  split; [|exact probeLoop_ready].
  intros before ip after w w1 w2 answer Hbefore Hcheck Hfail.
  split.
  - rewrite (probeLoop_prefix _ _ _ Hbefore), probeLoop_cons, Hcheck.
    destruct answer as [[r m] e]. apply failed_test in Hfail. simpl in Hfail.
    now rewrite Hfail.
  - apply probeLoop_ready in Hbefore as (_ & _ & -> & _).
    pose proof (check_world ip (afterRequests w (map probeRequest before))) as Hw2.
    rewrite Hcheck in Hw2. simpl in Hw2. now rewrite afterRequests_app in Hw2.
Qed.

(** Past its early returns, [isWellknownEndpointsReady] is the loop over
    the resolved addresses. *)
Lemma isWellknownEndpointsReady_loop
    `{Formatter corev1.Service} `{Formatter corev1.Endpoints}
    (kasServicePort : Z) (c : wellKnownReadyController)
    (authConfig : configv1.Authentication) (caData : string) (ips : list string) :
  configv1.OAuthMetadataName authConfig = "" ->
  configv1.AuthenticationType authConfig = "IntegratedOAuth" ->
  ReadFile platform "/var/run/secrets/kubernetes.io/serviceaccount/ca.crt" = inl caData ->
  TransportFor platform "kubernetes.default.svc" caData = inl rt ->
  getAPIServerIPs kasServicePort c = (ips, None) ->
  isWellknownEndpointsReady kasServicePort platform c authConfig route
  = probeLoop platform ips rt route.
Proof.
  intros Hname Htype Hfile Htransport Hips.
  unfold isWellknownEndpointsReady.
  rewrite Hname, Htype, Hfile, Htransport, Hips. reflexivity.
Qed.

(** C7. One probe: an error of the transport comes back as an error; a
    status other than 200 comes back as not ready, the status line in
    the message, with no error; and a 200 whose decoded body is not
    deep-equal to the expected document comes back as not ready with a
    message and no error. *)
Theorem checkWellknownEndpointReady_answers (apiIP : string) (w : World) :
  NewRequestError platform "GET" (wellKnownURL apiIP) = None ->
  (forall err,
      rt (requests w) (probeRequest apiIP) = inr err ->
      checkWellknownEndpointReady platform apiIP rt route w
      = (Returned (false, "",
                   Some (Errorf "failed to GET well-known %s: %v"
                           [wellKnownURL apiIP; Error err])),
         afterRequests w [probeRequest apiIP]))
  /\ (forall resp,
        rt (requests w) (probeRequest apiIP) = inl resp ->
        http.StatusCode resp <> 200%Z ->
        checkWellknownEndpointReady platform apiIP rt route w
        = (Returned (false,
                     "got '" +:+ http.Status resp
                     +:+ "' status while trying to GET the OAuth well-known "
                     +:+ wellKnownURL apiIP +:+ " endpoint data",
                     None),
           afterRequests w [probeRequest apiIP]))
  /\ (forall resp body receivedValues expectedMetadata,
        rt (requests w) (probeRequest apiIP) = inl resp ->
        http.StatusCode resp = 200%Z ->
        http.Body resp = inl body ->
        JSON.Unmarshal body = Some receivedValues ->
        JSON.Unmarshal (getOAuthMetadata (routev1.Host (routev1.Spec route)))
        = Some expectedMetadata ->
        JSON.DeepEqual expectedMetadata receivedValues = false ->
        checkWellknownEndpointReady platform apiIP rt route w
        = (Returned (false,
                     "the value returned by the well-known " +:+ wellKnownURL apiIP
                     +:+ " endpoint does not match expectations",
                     None),
           afterRequests w [probeRequest apiIP])).
Proof.
  intros Hreq. unfold checkWellknownEndpointReady, probeRequest, http.MethodGet.
  rewrite Hreq. unfold mbind, M_bind, RoundTrip, afterRequests. simpl.
  repeat split.
  - intros err Hrt. now rewrite Hrt.
  - intros resp Hrt Hstatus. rewrite Hrt.
    apply Z.eqb_neq in Hstatus. rewrite Hstatus. reflexivity.
  - intros resp body received expected Hrt Hstatus Hbody Hreceived Hexpected Hneq.
    rewrite Hrt.
    apply Z.eqb_eq in Hstatus. rewrite Hstatus, Hbody, Hreceived. simpl.
    unfold getMetadataStruct. rewrite Hexpected. simpl. rewrite Hneq. reflexivity.
Qed.

End Verifier.

Lemma probeLoop_fail_fast_witness :
  readiness.probeLoop Fixtures.platform
    ["10.0.0.1:6443"; "10.0.0.2:6443"; "10.0.0.3:6443"; "10.0.0.4:6443"]
    Fixtures.transport (Fixtures.oauthRoute "oauth.example.com") Fixtures.world0
  = (GoRun.Returned
       (false,
        "got '503 Service Unavailable' status while trying to GET the OAuth well-known https://10.0.0.2:6443/.well-known/oauth-authorization-server endpoint data",
        None),
     Spec.afterRequests Fixtures.world0
       [Spec.probeRequest "10.0.0.1:6443"; Spec.probeRequest "10.0.0.2:6443"])
  /\ Spec.afterRequests Fixtures.world0
       [Spec.probeRequest "10.0.0.1:6443"; Spec.probeRequest "10.0.0.2:6443"]
     = Spec.afterRequests Fixtures.world0
         (map Spec.probeRequest ["10.0.0.1:6443"]
          ++ Spec.sentFor Fixtures.platform "10.0.0.2:6443").
Proof.
  apply (proj1 (probeLoop_fail_fast Fixtures.platform Fixtures.transport
                  (Fixtures.oauthRoute "oauth.example.com"))
           ["10.0.0.1:6443"] "10.0.0.2:6443" ["10.0.0.3:6443"; "10.0.0.4:6443"]
           Fixtures.world0
           (Spec.afterRequests Fixtures.world0 [Spec.probeRequest "10.0.0.1:6443"])).
  - reflexivity.
  - reflexivity.
  - right. reflexivity.
Defined.

Lemma checkWellknownEndpointReady_answers_witness :
  readiness.checkWellknownEndpointReady Fixtures.platform "10.0.0.9:6443"
    Fixtures.transport (Fixtures.oauthRoute "oauth.example.com") Fixtures.world0
  = (GoRun.Returned
       (false, "",
        Some (GoErrors.Errorf "failed to GET well-known %s: %v"
                [readiness.wellKnownURL "10.0.0.9:6443"; "dial tcp: connection refused"])),
     Spec.afterRequests Fixtures.world0 [Spec.probeRequest "10.0.0.9:6443"])
  /\ readiness.checkWellknownEndpointReady Fixtures.platform "10.0.0.2:6443"
       Fixtures.transport (Fixtures.oauthRoute "oauth.example.com") Fixtures.world0
     = (GoRun.Returned
          (false,
           "got '" +:+ "503 Service Unavailable"
           +:+ "' status while trying to GET the OAuth well-known "
           +:+ readiness.wellKnownURL "10.0.0.2:6443" +:+ " endpoint data",
           None),
        Spec.afterRequests Fixtures.world0 [Spec.probeRequest "10.0.0.2:6443"])
  /\ readiness.checkWellknownEndpointReady Fixtures.platform "10.0.0.3:6443"
       Fixtures.transport (Fixtures.oauthRoute "oauth.example.com") Fixtures.world0
     = (GoRun.Returned
          (false,
           "the value returned by the well-known "
           +:+ readiness.wellKnownURL "10.0.0.3:6443"
           +:+ " endpoint does not match expectations",
           None),
        Spec.afterRequests Fixtures.world0 [Spec.probeRequest "10.0.0.3:6443"]).
Proof.
  split; [|split].
  - apply (proj1 (checkWellknownEndpointReady_answers Fixtures.platform
                    Fixtures.transport (Fixtures.oauthRoute "oauth.example.com")
                    "10.0.0.9:6443" Fixtures.world0 eq_refl)
             (GoErrors.mkError GoErrors.errorString "dial tcp: connection refused")).
    reflexivity.
  - apply (proj1 (proj2 (checkWellknownEndpointReady_answers Fixtures.platform
                    Fixtures.transport (Fixtures.oauthRoute "oauth.example.com")
                    "10.0.0.2:6443" Fixtures.world0 eq_refl))
             (Fixtures.response 503 "503 Service Unavailable" "")).
    + reflexivity.
    + discriminate.
  - apply (proj2 (proj2 (checkWellknownEndpointReady_answers Fixtures.platform
                    Fixtures.transport (Fixtures.oauthRoute "oauth.example.com")
                    "10.0.0.3:6443" Fixtures.world0 eq_refl))
             (Fixtures.response 200 "200 OK" "{}") "{}" (Some ∅)
             (Some (Spec.expectedMetadata "oauth.example.com"))).
    + reflexivity.
    + reflexivity.
    + reflexivity.
    + reflexivity.
    + reflexivity.
    + reflexivity.
Defined.

(** ** The discovery document *)

Section Document.

Import readiness Spec JSON.

#[local] Arguments String.append _ _ : simpl nomatch.

Lemma append_assoc (a b c : string) : (a +:+ b) +:+ c = a +:+ (b +:+ c).
Proof. induction a as [|x a IH]; simpl; [reflexivity | now rewrite IH]. Qed.

Lemma append_nil_r (a : string) : a +:+ "" = a.
Proof. induction a as [|x a IH]; simpl; [reflexivity | now rewrite IH]. Qed.

Lemma allPlain_app (a b : string) :
  allPlain (a +:+ b) = allPlain a && allPlain b.
Proof.
  induction a as [|x a IH]; simpl; [reflexivity|].
  now rewrite IH, andb_assoc.
Qed.

Lemma hostnameByte_plain (c : ascii) : hostnameByte c = true -> plainByte c = true.
Proof.
  unfold hostnameByte, plainByte. generalize (byte c). intros n Hn.
  repeat match goal with
         | H : _ || _ = true |- _ => apply orb_true_iff in H as [H | H]
         | H : _ && _ = true |- _ => apply andb_true_iff in H as [? ?]
         end;
    repeat match goal with
           | H : (_ <=? _)%N = true |- _ => apply N.leb_le in H
           | H : (_ =? _)%N = true |- _ => apply N.eqb_eq in H
           end;
    rewrite !andb_true_iff, !negb_true_iff, N.leb_le, N.ltb_lt, !N.eqb_neq; lia.
Qed.

Lemma isHostname_plain (host : string) : isHostname host = true -> allPlain host = true.
Proof.
  induction host as [|c host IH]; simpl; [reflexivity|].
  intros Hc. apply andb_true_iff in Hc as [Hc Hhost].
  now rewrite (hostnameByte_plain c Hc), (IH Hhost).
Qed.

(** The template with its three verbs filled in. *)
Lemma Sprintf_stubMetadata (host : string) :
  GoFmt.Sprintf stubMetadata [host; host; host]
  = String (chr 10)
      (piece0 +:+ host +:+ piece1 +:+ host +:+ piece2 +:+ host +:+ piece3
       +:+ String (chr 10) "").
Proof. reflexivity. Qed.

Lemma append_not_empty (a b : string) : b <> "" -> a +:+ b <> "".
Proof. intros Hb. destruct a; simpl; [exact Hb | discriminate]. Qed.

Lemma trimRight_app (a b kept : string) :
  GoStrings.trimRight b = kept -> kept <> "" ->
  GoStrings.trimRight (a +:+ b) = a +:+ kept.
Proof.
  intros <- Hb. induction a as [|x a IH]; simpl; [reflexivity|].
  rewrite IH. destruct (a +:+ GoStrings.trimRight b) eqn:E; [|reflexivity].
  now apply append_not_empty in E.
Qed.

Lemma piece3_not_empty : piece3 <> "".
Proof. discriminate. Qed.

(** [getOAuthMetadata] is the template with the host at its three
    places, the blank line at either end trimmed. *)
Lemma getOAuthMetadata_pieces (host : string) :
  getOAuthMetadata host
  = piece0 +:+ host +:+ piece1 +:+ host +:+ piece2 +:+ host +:+ piece3.
Proof.
  unfold getOAuthMetadata, GoStrings.TrimSpace.
  rewrite Sprintf_stubMetadata.
  change (GoStrings.trimLeft _)
    with (piece0 +:+ host +:+ piece1 +:+ host +:+ piece2 +:+ host +:+ piece3
          +:+ String (chr 10) "").
  repeat (apply trimRight_app; [|repeat apply append_not_empty; exact piece3_not_empty]).
  reflexivity.
Qed.

(** *** Scanning the document *)

Lemma plainByte_tests (c : ascii) :
  plainByte c = true ->
  (byte c =? 92)%N = false /\ (byte c =? 34)%N = false
  /\ (byte c <? 32)%N = false /\ (byte c <? 128)%N = true.
Proof.
  unfold plainByte. generalize (byte c). intros n Hn.
  repeat match goal with
         | H : _ && _ = true |- _ => apply andb_true_iff in H as [? ?]
         end.
  repeat match goal with
         | H : negb _ = true |- _ => apply negb_true_iff in H
         end.
  apply N.leb_le in H. repeat split; auto. apply N.ltb_ge. exact H.
Qed.

(** Plain bytes decode to themselves. *)
Lemma unquote_plain (p rest : string) :
  allPlain p = true -> unquote (p +:+ rest) = prepend p (unquote rest).
Proof.
  induction p as [|c p IH]; simpl.
  - intros _. unfold prepend. now destruct (unquote rest).
  - intros Hp. apply andb_true_iff in Hp as [Hc Hp].
    destruct (plainByte_tests c Hc) as (-> & -> & -> & ->). simpl.
    rewrite (IH Hp). unfold prepend. now destruct (unquote rest).
Qed.

Lemma unquote_all_plain (p : string) : allPlain p = true -> unquote p = Some p.
Proof.
  intros Hp. rewrite <- (append_nil_r p) at 1.
  rewrite (unquote_plain p "" Hp). simpl. unfold prepend. simpl.
  now rewrite append_nil_r.
Qed.

Lemma scan_app (st : scanState * list token) (a b : string) :
  scan st (a +:+ b) = st' ← scan st a; scan st' b.
Proof.
  revert st. induction a as [|c a IH]; intros st; simpl; [reflexivity|].
  destruct (scanStep st c) as [st1|]; simpl; [apply IH | reflexivity].
Qed.

(** Inside a string, plain bytes are taken as they stand. *)
Lemma scan_plain (raw p : string) (out : list token) :
  allPlain p = true ->
  scan (InString raw, out) p = Some (InString (raw +:+ p), out).
Proof.
  revert raw. induction p as [|c p IH]; intros raw; simpl.
  - intros _. now rewrite append_nil_r.
  - intros Hp. apply andb_true_iff in Hp as [Hc Hp].
    destruct (plainByte_tests c Hc) as (-> & -> & -> & _). simpl.
    rewrite (IH _ Hp). unfold snoc. now rewrite append_assoc.
Qed.

Lemma scan_close (raw rest : string) (out : list token) :
  scan (InString raw, out) (String dquote rest)
  = s ← unquote raw; scan (Between, TString s :: out) rest.
Proof. simpl. now destruct (unquote raw). Qed.

Lemma bind_some {A B : Type} (a : A) (f : A -> option B) : (x ← Some a; f x) = f a.
Proof. reflexivity. Qed.

Lemma tokens_document (host : string) :
  allPlain host = true ->
  tokens (getOAuthMetadata host) = Some (documentTokens host).
Proof.
  intros Hhost. rewrite getOAuthMetadata_pieces. unfold tokens.
  (* up to the first host *)
  rewrite scan_app.
  replace (scan (Between, []) piece0)
    with (Some (InString "https://", [TColon; TString "issuer"; TLBrace]))
    by reflexivity.
  rewrite bind_some, scan_app, (scan_plain _ _ _ Hhost), bind_some.
  (* the end of the issuer, up to the second host *)
  replace piece1
    with (String dquote (backquoted ",
  'authorization_endpoint': 'https://")) by reflexivity.
  rewrite scan_app, scan_close, unquote_all_plain, bind_some
    by (rewrite allPlain_app, Hhost; reflexivity).
  match goal with
  | |- context [scan (Between, ?out) ?piece] =>
      replace (scan (Between, out) piece)
        with (Some (InString "https://",
                    TColon :: TString "authorization_endpoint" :: TComma :: out))
        by reflexivity
  end.
  rewrite bind_some, scan_app, (scan_plain _ _ _ Hhost), bind_some.
  (* the end of the authorization endpoint, up to the third host *)
  replace piece2
    with ("/oauth/authorize" +:+ String dquote (backquoted ",
  'token_endpoint': 'https://")) by reflexivity.
  rewrite !scan_app, scan_plain, bind_some, scan_close, unquote_all_plain, bind_some
    by (rewrite ?allPlain_app, ?Hhost; reflexivity).
  match goal with
  | |- context [scan (Between, ?out) ?piece] =>
      replace (scan (Between, out) piece)
        with (Some (InString "https://",
                    TColon :: TString "token_endpoint" :: TComma :: out))
        by reflexivity
  end.
  rewrite bind_some, scan_app, (scan_plain _ _ _ Hhost), bind_some.
  (* the end of the token endpoint, and the rest *)
  replace piece3
    with ("/oauth/token" +:+ String dquote (backquoted ",
  'scopes_supported': [
    'user:check-access',
    'user:full',
    'user:info',
    'user:list-projects',
    'user:list-scoped-projects'
  ],
  'response_types_supported': [
    'code',
    'token'
  ],
  'grant_types_supported': [
    'authorization_code',
    'implicit'
  ],
  'code_challenge_methods_supported': [
    'plain',
    'S256'
  ]
}")) by reflexivity.
  rewrite scan_app, scan_plain, bind_some, scan_close, unquote_all_plain
    by (rewrite ?allPlain_app, ?Hhost; reflexivity).
  reflexivity.
Qed.

(** *** Decoding the document *)

(** The document of a plain host decodes to the map built directly. *)
Lemma Unmarshal_document (host : string) :
  allPlain host = true ->
  Unmarshal (getOAuthMetadata host) = Some (Some (expectedMetadata host)).
Proof.
  intros Hhost. unfold Unmarshal, decode.
  rewrite (tokens_document host Hhost). reflexivity.
Qed.

(** *** Deep equality is reflexive *)

Lemma member_smaller (m : gmap string value) (k : string) (x : value) :
  m !! k = Some x -> valueSize x <= map_fold (fun _ x n => valueSize x + n) 0 m.
Proof.
  revert k x. induction m as [|i y m Hi IH] using map_ind; intros k x Hk.
  - now rewrite lookup_empty in Hk.
  - rewrite map_fold_insert_L; [|intros; lia|exact Hi].
    apply lookup_insert_Some in Hk as [[<- <-] | [_ Hk]]; [lia|].
    specialize (IH k x Hk). lia.
Qed.

Lemma members_equal (m0 m : gmap string value) :
  m ⊆ m0 ->
  (forall k x, m0 !! k = Some x -> deepValueEqual x x = true) ->
  map_fold (fun k x ok =>
              ok && match m0 !! k with
                    | Some y => deepValueEqual x y
                    | None => false
                    end) true m = true.
Proof.
  intros Hsub Hall. induction m as [|i y m Hi IH] using map_ind.
  - now rewrite map_fold_empty.
  - rewrite map_fold_insert_L; [| |exact Hi].
    + rewrite IH.
      * assert (m0 !! i = Some y) as ->.
        { eapply lookup_weaken; [apply lookup_insert_eq | exact Hsub]. }
        simpl. eapply Hall, lookup_weaken; [apply lookup_insert_eq | exact Hsub].
      * etrans; [apply insert_subseteq, Hi | exact Hsub].
    + intros j1 j2 z1 z2 ok _ _ _.
      rewrite <- !andb_assoc. f_equal. apply andb_comm.
Qed.

Lemma deepValueEqual_refl (v : value) : deepValueEqual v v = true.
Proof.
  remember (S (valueSize v)) as n eqn:Hn.
  assert (valueSize v < n) as Hlt by lia. clear Hn.
  revert v Hlt. induction n as [|n IH]; intros v Hlt; [lia|].
  destruct v as [| b | w | s | l | m]; simpl.
  - reflexivity.
  - apply Bool.eqb_reflx.
  - apply String.eqb_refl.
  - apply String.eqb_refl.
  - simpl in Hlt. apply PeanoNat.lt_S_n in Hlt.
    induction l as [|x l IHl]; [reflexivity|].
    rewrite IH by lia. simpl. apply IHl. lia.
  - simpl in Hlt. apply PeanoNat.lt_S_n in Hlt.
    rewrite Nat.eqb_refl. simpl. apply members_equal; [reflexivity|].
    intros k x Hk. apply IH. pose proof (member_smaller m k x Hk). lia.
Qed.

Lemma DeepEqual_refl (m : object) : DeepEqual m m = true.
Proof. destruct m as [m|]; [apply (deepValueEqual_refl (JObject m)) | reflexivity]. Qed.

(** C9. For every host name (every string of plain bytes), the
    document generated for the host decodes, and to the map built
    directly from the host: [getMetadataStruct] returns that map, it is
    deep-equal to it, and the map has exactly the seven keys of the
    discovery document with the values the document gives them. *)
Theorem discovery_document_round_trip (host : string) (route : routev1.Route) :
  allPlain host = true ->
  routev1.Host (routev1.Spec route) = host ->
  Unmarshal (getOAuthMetadata host) = Some (Some (expectedMetadata host))
  /\ (forall w, getMetadataStruct route w = (Returned (Some (expectedMetadata host)), w))
  /\ (forall decoded, Unmarshal (getOAuthMetadata host) = Some decoded ->
        DeepEqual decoded (Some (expectedMetadata host)) = true)
  /\ dom (expectedMetadata host)
     = list_to_set
         [ "issuer"; "authorization_endpoint"; "token_endpoint"; "scopes_supported";
           "response_types_supported"; "grant_types_supported";
           "code_challenge_methods_supported" ]
  /\ expectedMetadata host !! "issuer" = Some (JString ("https://" +:+ host))
  /\ expectedMetadata host !! "authorization_endpoint"
     = Some (JString ("https://" +:+ host +:+ "/oauth/authorize"))
  /\ expectedMetadata host !! "token_endpoint"
     = Some (JString ("https://" +:+ host +:+ "/oauth/token"))
  /\ expectedMetadata host !! "scopes_supported"
     = Some (JArray [ JString "user:check-access"; JString "user:full";
                      JString "user:info"; JString "user:list-projects";
                      JString "user:list-scoped-projects" ])
  /\ expectedMetadata host !! "response_types_supported"
     = Some (JArray [JString "code"; JString "token"])
  /\ expectedMetadata host !! "grant_types_supported"
     = Some (JArray [JString "authorization_code"; JString "implicit"])
  /\ expectedMetadata host !! "code_challenge_methods_supported"
     = Some (JArray [JString "plain"; JString "S256"]).
Proof.
  intros Hhost Hroute.
  pose proof (Unmarshal_document host Hhost) as Hdoc.
  split; [exact Hdoc|]. split.
  { intros w. unfold getMetadataStruct. rewrite Hroute, Hdoc. reflexivity. }
  split.
  { intros decoded Hdecoded. rewrite Hdoc in Hdecoded. injection Hdecoded as <-.
    apply DeepEqual_refl. }
  split.
  { unfold expectedMetadata. rewrite dom_list_to_map_L. reflexivity. }
  repeat split.
Qed.

Lemma discovery_document_round_trip_witness :
  Unmarshal (getOAuthMetadata "example.com")
  = Some (Some (expectedMetadata "example.com"))
  /\ allPlain "example.com" = true.
Proof.
  split; [|reflexivity].
  apply (discovery_document_round_trip "example.com"
           (Fixtures.oauthRoute "example.com") eq_refl eq_refl).
Defined.

(** A host with a double quote in it is no host name, and its document
    does not decode: [getMetadataStruct] panics. *)
Lemma getMetadataStruct_panics_on_quote (w : World) :
  getMetadataStruct (Fixtures.oauthRoute (String dquote "")) w = (Panicked, w).
Proof. reflexivity. Qed.

End Document.

(** ** The route reconciler *)

Section Reconciler.

Import operator2 GoErrors GoFmt GoRun Spec.

Context {S : Type}.
Context `{Formatter routev1.Route} `{Formatter (list routev1.RouteIngress)}.

Variable targetName : string.
Variable targetNamespace : string.
Variable containerPort : Z.
Variable routerCertsLocalName : string.
Variable defaultMeta : metav1.ObjectMeta.
Variable c : authOperator S.

(** Setting the host leaves the validated fields as they are. *)
Lemma disagrees_withHost (route : routev1.Route) (host : string) :
  disagrees targetName containerPort (withHost route host)
  <-> disagrees targetName containerPort route.
Proof. reflexivity. Qed.


(** A route that agrees on the four fields is valid. *)
Lemma isValidRoute_agrees (route : routev1.Route) (ingress : configv1.Ingress) :
  routev1.Port (routev1.Spec route) <> None ->
  ~ disagrees targetName containerPort route ->
  isValidRoute targetName containerPort defaultMeta route ingress = Returned None.
Proof.
  intros Hport Hagree. unfold isValidRoute, disagrees in *. simpl.
  destruct (String.eqb_spec (routev1.Name (routev1.To (routev1.Spec route))) targetName)
    as [Ename | Ename]; [|tauto]. simpl.
  destruct (routev1.Port (routev1.Spec route)) as [port|]; [|contradiction]. simpl.
  destruct (Z.eqb_spec (intstr.IntValue (routev1.TargetPort port))
              (intstr.int32 containerPort)) as [Eport | Eport]; [|simpl in *; tauto].
  simpl.
  destruct (routev1.TLS (routev1.Spec route)) as [tls|]; [|tauto].
  destruct (String.eqb_spec (routev1.Termination tls) routev1.TLSTerminationPassthrough);
    [|tauto]. simpl.
  destruct (String.eqb_spec (routev1.InsecureEdgeTerminationPolicy tls)
              routev1.InsecureEdgeTerminationPolicyRedirect); [|tauto].
  reflexivity.
Qed.


(** The slip beside it: with the service name right and no port set,
    [isValidRoute] panics before any delete. *)
Lemma isValidRoute_panics_without_port (route : routev1.Route)
    (ingress : configv1.Ingress) :
  routev1.Name (routev1.To (routev1.Spec route)) = targetName ->
  routev1.Port (routev1.Spec route) = None ->
  isValidRoute targetName containerPort defaultMeta route ingress = Panicked.
Proof.
  intros Hname Hport. unfold isValidRoute. simpl.
  rewrite Hname, String.eqb_refl, Hport. reflexivity.
Qed.

End Reconciler.



(** And an admitted route with no port makes [handleRoute] panic, with
    no delete either. *)
Lemma handleRoute_panics_without_port :
  Fixtures.handleRoute Fixtures.ingressConfig (Fixtures.clusterWith Fixtures.portlessRoute)
  = (GoRun.Panicked,
     {| operator2.cluster :=
          {| Fixtures.storedRoute := Some Fixtures.portlessRoute;
             Fixtures.storedSecret := None |};
        operator2.calls := [operator2.GetRoute "oauth-openshift"] |}).
Proof. reflexivity. Qed.

(** ** Whole cycles of [sync] *)

Section Cycle.

Import readiness GoErrors GoFmt Spec.

Context `{Formatter corev1.Service} `{Formatter corev1.Endpoints}.

Variable kasServicePort : Z.
Variable platform : Platform.
Variable c : wellKnownReadyController.

Lemma probeLoop_world (rt : http.RoundTripper) (route : routev1.Route)
    (ips : list string) (w : World) :
  statusUpdates (probeLoop platform ips rt route w).2 = statusUpdates w.
Proof.
  revert w. induction ips as [|ip ips IH]; intros w; [reflexivity|].
  rewrite probeLoop_cons.
  pose proof (check_world platform rt route ip w) as Hw.
  destruct (checkWellknownEndpointReady platform ip rt route w)
    as [[[[r m] e]|] w1]; simpl in Hw; subst w1; [|reflexivity].
  destruct (bool_decide (e <> None) || negb r); [reflexivity|].
  now rewrite IH.
Qed.

Lemma isWellknownEndpointsReady_world (authConfig : configv1.Authentication)
    (route : routev1.Route) (w : World) :
  statusUpdates (isWellknownEndpointsReady kasServicePort platform c authConfig route w).2
  = statusUpdates w.
Proof.
  unfold isWellknownEndpointsReady.
  destruct (_ || _); [reflexivity|].
  destruct (ReadFile platform _) as [caData | err]; [|reflexivity].
  destruct (TransportFor platform _ caData) as [rt | err]; [|reflexivity].
  destruct (getAPIServerIPs kasServicePort c) as [ips [err|]]; [reflexivity|].
  apply probeLoop_world.
Qed.

(** A cycle that returns has handed the status writer one list, and
    that list is [updateConditionFuncs] of the findings of the cycle; a
    cycle that panics has handed it nothing. *)
Lemma sync_hands_over (w : World) :
  match sync kasServicePort platform c w with
  | (Returned _, w') =>
      exists foundConditions,
        statusUpdates w' = statusUpdates w ++ [updateConditionFuncs foundConditions]
  | (Panicked, w') => statusUpdates w' = statusUpdates w
  end.
Proof.
  unfold sync.
  destruct (getAuthConfig c) as [authConfig configConditions].
  destruct (getRoute c) as [route routeConditions].
  unfold mbind, M_bind, UpdateStatus.
  destruct authConfig as [authConfig|], route as [route|]; simpl; eauto.
  pose proof (isWellknownEndpointsReady_world authConfig route w) as Hw.
  destruct (isWellknownEndpointsReady kasServicePort platform c authConfig route w)
    as [[answer|] w1]; simpl in *; [|exact Hw].
  rewrite Hw. eauto.
Qed.

(** C1. Whatever was found in a cycle, the aggregated list holds
    exactly one condition of each of the four known types and none of
    any other type: for every type [t], the number of its conditions of
    type [t] is 1 when [t] is known and 0 otherwise.  And that list is
    what a cycle of [sync] that returns has handed to the status writer,
    once. *)
Theorem sync_one_condition_per_known_type :
  (forall (foundConditions : list OperatorCondition) (t : string),
      length (filter (fun c => Type_ c = t) (updateConditionFuncs foundConditions))
      = if decide (t ∈ knownConditionNames) then 1 else 0)
  /\ (forall w : World,
        match sync kasServicePort platform c w with
        | (Returned _, w') =>
            exists handed,
              statusUpdates w' = statusUpdates w ++ [handed]
              /\ forall t,
                   length (filter (fun c => Type_ c = t) handed)
                   = if decide (t ∈ knownConditionNames) then 1 else 0
        | (Panicked, w') => statusUpdates w' = statusUpdates w
        end).
Proof.
  split; [exact one_per_known_type|].
  intros w. pose proof (sync_hands_over w) as Hsync.
  destruct (sync kasServicePort platform c w) as [[err|] w']; [|exact Hsync].
  destruct Hsync as [found Hfound]. exists (updateConditionFuncs found).
  split; [exact Hfound | apply one_per_known_type].
Qed.

End Cycle.

(** The happy path: the route admitted at [oauth.example.com], two ready
    addresses, both serving the expected document. *)
Example sync_happy_path :
  Fixtures.sync Fixtures.healthyPlatform
    (Fixtures.clusterOf (Fixtures.subsetOf ["10.0.0.1"; "10.0.0.2"] []))
    Fixtures.world0
  = (GoRun.Returned None,
     {| readiness.requests :=
          [Spec.probeRequest "10.0.0.1:6443"; Spec.probeRequest "10.0.0.2:6443"];
        readiness.statusUpdates :=
          [ [ {| operatorv1.Type_ := "WellKnownAuthConfigDegraded"; operatorv1.Status := operatorv1.ConditionFalse;
                 operatorv1.Reason := ""; operatorv1.Message := "" |};
              {| operatorv1.Type_ := "WellKnownAvailable"; operatorv1.Status := operatorv1.ConditionTrue;
                 operatorv1.Reason := ""; operatorv1.Message := "" |};
              {| operatorv1.Type_ := "WellKnownProgressing"; operatorv1.Status := operatorv1.ConditionFalse;
                 operatorv1.Reason := ""; operatorv1.Message := "" |};
              {| operatorv1.Type_ := "WellKnownRouteDegraded"; operatorv1.Status := operatorv1.ConditionFalse;
                 operatorv1.Reason := ""; operatorv1.Message := "" |} ] ] |}).
Proof. reflexivity. Qed.

(** The stale endpoint: one address that is not ready and none that is.
    No request is sent; the cycle reports progressing and not
    available. *)
Example sync_stale_endpoint :
  Fixtures.sync Fixtures.healthyPlatform
    (Fixtures.clusterOf (Fixtures.subsetOf [] ["10.0.0.1"]))
    Fixtures.world0
  = (GoRun.Returned None,
     {| readiness.requests := [];
        readiness.statusUpdates :=
          [ [ {| operatorv1.Type_ := "WellKnownAuthConfigDegraded"; operatorv1.Status := operatorv1.ConditionFalse;
                 operatorv1.Reason := ""; operatorv1.Message := "" |};
              {| operatorv1.Type_ := "WellKnownAvailable"; operatorv1.Status := operatorv1.ConditionFalse;
                 operatorv1.Reason := "NotReady";
                 operatorv1.Message := "THe well-known endpoint is not yet available: failed to get API server IPs: kube api server endpointLister is not ready: {...}" |};
              {| operatorv1.Type_ := "WellKnownProgressing"; operatorv1.Status := operatorv1.ConditionTrue;
                 operatorv1.Reason := "NotReady";
                 operatorv1.Message := "The well-known endpoint is not yet avaiable: failed to get API server IPs: kube api server endpointLister is not ready: {...}" |};
              {| operatorv1.Type_ := "WellKnownRouteDegraded"; operatorv1.Status := operatorv1.ConditionFalse;
                 operatorv1.Reason := ""; operatorv1.Message := "" |} ] ] |}).
Proof. reflexivity. Qed.

(** All or nothing: one address that is not ready beside two that are
    resolves as not ready. *)
Example getAPIServerIPs_partly_ready :
  (@readiness.getAPIServerIPs (Fixtures.elided _) (Fixtures.elided _) 443
     (Fixtures.clusterOf (Fixtures.subsetOf ["10.0.0.1"; "10.0.0.2"] ["10.0.0.3"]))).1
  = [].
Proof. reflexivity. Qed.

(** A cluster whose authentication config and route are both absent:
    the cycle reports both degraded. *)
Example sync_empty_cluster :
  (Fixtures.sync Fixtures.healthyPlatform Fixtures.emptyCaches Fixtures.world0).2
  = {| readiness.requests := [];
       readiness.statusUpdates :=
         [ [ {| operatorv1.Type_ := "WellKnownAuthConfigDegraded"; operatorv1.Status := operatorv1.ConditionTrue;
                operatorv1.Reason := "GetFailed";
                operatorv1.Message := "Unable to get cluster authentication config: "
                              +:+ "authentication.config.openshift.io "
                              +:+ String dquote "cluster" +:+ String dquote " not found" |};
             {| operatorv1.Type_ := "WellKnownAvailable"; operatorv1.Status := operatorv1.ConditionTrue;
                operatorv1.Reason := ""; operatorv1.Message := "" |};
             {| operatorv1.Type_ := "WellKnownProgressing"; operatorv1.Status := operatorv1.ConditionFalse;
                operatorv1.Reason := ""; operatorv1.Message := "" |};
             {| operatorv1.Type_ := "WellKnownRouteDegraded"; operatorv1.Status := operatorv1.ConditionTrue;
                operatorv1.Reason := "GetFailed";
                operatorv1.Message := "Unable to get oauth-openshift route: "
                              +:+ "route.route.openshift.io "
                              +:+ String dquote "oauth-openshift"
                              +:+ String dquote " not found" |} ] ] |}.
Proof. reflexivity. Qed.

(* ===================================================================== *)
(** * Part III: further properties of the two files *)
(* ===================================================================== *)

(** ** More on the aggregation *)

Section AggregationMore.

Import readiness.

(** X1. Of the findings of one known type, the first is emitted as it
    stands, whatever findings follow it. *)
Theorem updateConditionFuncs_first_finding_wins
    (before : list OperatorCondition) (finding : OperatorCondition)
    (after : list OperatorCondition) :
  Type_ finding ∈ knownConditionNames ->
  (forall c, c ∈ before -> Type_ c <> Type_ finding) ->
  finding ∈ updateConditionFuncs (before ++ finding :: after)
  /\ forall c, c ∈ updateConditionFuncs (before ++ finding :: after) ->
       Type_ c = Type_ finding -> c = finding.
Proof.
  intros Hknown Hbefore.
  assert (Hfind : FindOperatorCondition (before ++ finding :: after) (Type_ finding)
                  = Some finding).
  { rewrite find_app. apply find_none in Hbefore. rewrite Hbefore. simpl.
    now rewrite String.eqb_refl. }
  rewrite updateConditionFuncs_unfold.
  apply elem_of_known in Hknown. rewrite !elem_of_cons, elem_of_nil in Hknown.
  split.
  - destruct Hknown as [Ht | [Ht | [Ht | [Ht | []]]]]; rewrite Ht in Hfind;
      rewrite Hfind; simpl; rewrite !elem_of_cons; tauto.
  - intros c Hc Htype. rewrite !elem_of_cons, elem_of_nil in Hc.
    destruct Hc as [-> | [-> | [-> | [-> | []]]]];
      rewrite default_find_type in Htype by reflexivity;
      rewrite Htype, Hfind; reflexivity.
Qed.

End AggregationMore.

Lemma updateConditionFuncs_first_finding_wins_witness :
  let first := {| operatorv1.Type_ := "WellKnownAvailable";
                  operatorv1.Status := operatorv1.ConditionFalse;
                  operatorv1.Reason := "NotReady"; operatorv1.Message := "first" |} in
  let second := {| operatorv1.Type_ := "WellKnownAvailable";
                   operatorv1.Status := operatorv1.ConditionUnknown;
                   operatorv1.Reason := "Other"; operatorv1.Message := "second" |} in
  first ∈ readiness.updateConditionFuncs ([] ++ first :: [second])
  /\ forall c, c ∈ readiness.updateConditionFuncs ([] ++ first :: [second]) ->
       operatorv1.Type_ c = operatorv1.Type_ first -> c = first.
Proof.
  apply (updateConditionFuncs_first_finding_wins []).
  - apply elem_of_known. simpl. rewrite !elem_of_cons. tauto.
  - intros c Hc. inversion Hc.
Defined.

(** ** More on the address resolver *)

Section ResolverMore.

Import readiness GoErrors GoFmt Spec.

Context `{Formatter corev1.Service} `{Formatter corev1.Endpoints}.

Variable kasServicePort : Z.

Lemma qualifies_test (port : corev1.ServicePort) :
  negb (intstr.IntValue (corev1.TargetPort port) =? 0)%Z
  && String.eqb (corev1.ServiceProtocol port) corev1.ProtocolTCP
  && (corev1.ServicePortNumber port =? kasServicePort)%Z = true
  <-> qualifies kasServicePort port.
Proof.
  unfold qualifies.
  rewrite !andb_true_iff, negb_true_iff, Z.eqb_neq, String.eqb_eq, Z.eqb_eq. tauto.
Qed.

(** X2. [getKASTargetPortFromService] answers with the target port of
    the first service port that qualifies, which is never 0; and with 0
    and false exactly when no service port qualifies. *)
Theorem getKASTargetPortFromService_first_qualifying (service : corev1.Service) :
  match getKASTargetPortFromService kasServicePort service with
  | (targetPort, true) =>
      targetPort <> 0%Z
      /\ exists before port after,
           corev1.ServicePorts service = before ++ port :: after
           /\ (forall p, p ∈ before -> ~ qualifies kasServicePort p)
           /\ qualifies kasServicePort port
           /\ intstr.IntValue (corev1.TargetPort port) = targetPort
  | (targetPort, false) =>
      targetPort = 0%Z
      /\ forall p, p ∈ corev1.ServicePorts service -> ~ qualifies kasServicePort p
  end.
Proof.
  unfold getKASTargetPortFromService.
  induction (corev1.ServicePorts service) as [|p ports IH]; simpl.
  - split; [reflexivity|]. intros p Hp. inversion Hp.
  - destruct (negb (intstr.IntValue (corev1.TargetPort p) =? 0)%Z
              && String.eqb (corev1.ServiceProtocol p) corev1.ProtocolTCP
              && (corev1.ServicePortNumber p =? kasServicePort)%Z) eqn:Etest.
    + apply qualifies_test in Etest. split; [apply Etest|].
      exists [], p, ports. repeat split; try apply Etest.
      intros q Hq. inversion Hq.
    + assert (~ qualifies kasServicePort p) as Hp.
      { intros Hq. apply qualifies_test in Hq. congruence. }
      destruct (servicePortsLoop kasServicePort ports) as [targetPort [|]].
      * destruct IH as (Hnz & before & port & after & -> & Hbefore & Hport & Hvalue).
        split; [exact Hnz|]. exists (p :: before), port, after.
        repeat split; try apply Hport; try exact Hvalue.
        intros q Hq. apply elem_of_cons in Hq as [-> | Hq]; auto.
      * destruct IH as [-> Hnone]. split; [reflexivity|].
        intros q Hq. apply elem_of_cons in Hq as [-> | Hq]; auto.
Qed.

(** A target port that is found is not 0. *)
Lemma getKASTargetPortFromService_found (service : corev1.Service) (targetPort : Z) :
  getKASTargetPortFromService kasServicePort service = (targetPort, true) ->
  targetPort <> 0%Z.
Proof.
  unfold getKASTargetPortFromService.
  induction (corev1.ServicePorts service) as [|p ports IH]; simpl; [discriminate|].
  destruct (negb (intstr.IntValue (corev1.TargetPort p) =? 0)%Z
            && String.eqb (corev1.ServiceProtocol p) corev1.ProtocolTCP
            && (corev1.ServicePortNumber p =? kasServicePort)%Z) eqn:Etest;
    [|exact IH].
  apply qualifies_test in Etest. intros [= <-]. apply Etest.
Qed.

Variable c : wellKnownReadyController.

(** X3. [getAPIServerIPs] is all or nothing: with an error it returns
    no address; without one it returns at least one address, and they
    are the ready addresses, each joined with one target port other than
    0, of a subset of the endpoints that has no address that is not
    ready. *)
Theorem getAPIServerIPs_all_or_nothing :
  match getAPIServerIPs kasServicePort c with
  | (ips, Some _) => ips = []
  | (ips, None) =>
      ips <> []
      /\ exists kasEndpoint subset targetPort,
           endpointLister c "default" "kubernetes" = inl kasEndpoint
           /\ subset ∈ corev1.Subsets kasEndpoint
           /\ corev1.NotReadyAddresses subset = []
           /\ targetPort <> 0%Z
           /\ ips = map (fun address =>
                           GoNet.JoinHostPort (corev1.IP address)
                             (GoStrconv.Itoa targetPort))
                      (corev1.Addresses subset)
  end.
Proof.
  unfold getAPIServerIPs. change corev1.NamespaceDefault with "default".
  destruct (serviceLister c "default" "kubernetes") as [kasService | err];
    [|reflexivity].
  pose proof (getKASTargetPortFromService_found kasService) as Hport.
  destruct (getKASTargetPortFromService kasServicePort kasService)
    as [targetPort [|]]; simpl; [|reflexivity].
  pose proof (Hport targetPort eq_refl) as Hnz.
  destruct (endpointLister c "default" "kubernetes") as [kasEndpoint | err];
    [|reflexivity].
  assert (Hloop : forall subsets,
             (forall s, s ∈ subsets -> s ∈ corev1.Subsets kasEndpoint) ->
             match subsetsLoop kasEndpoint targetPort subsets with
             | (ips, Some _) => ips = []
             | (ips, None) =>
                 ips <> []
                 /\ exists subset,
                      subset ∈ corev1.Subsets kasEndpoint
                      /\ corev1.NotReadyAddresses subset = []
                      /\ ips = map (fun address =>
                                      GoNet.JoinHostPort (corev1.IP address)
                                        (GoStrconv.Itoa targetPort))
                                 (corev1.Addresses subset)
             end).
  { induction subsets as [|subset subsets IH]; intros Hin; simpl; [reflexivity|].
    destruct (subsetHasKASTargetPort subset targetPort); simpl.
    - rewrite not_usable_test, join_loop. simpl.
      destruct (bool_decide_reflect
                  (corev1.NotReadyAddresses subset <> [] \/ corev1.Addresses subset = []))
        as [Hbad | Hgood]; [reflexivity|].
      split.
      + destruct (corev1.Addresses subset); [exfalso; apply Hgood; now right | discriminate].
      + exists subset. split; [apply Hin; left|]. split; [|reflexivity].
        destruct (corev1.NotReadyAddresses subset); [reflexivity|].
        exfalso. apply Hgood. now left.
    - apply IH. intros s Hs. apply Hin. now right. }
  specialize (Hloop (corev1.Subsets kasEndpoint) (fun s Hs => Hs)).
  destruct (subsetsLoop kasEndpoint targetPort (corev1.Subsets kasEndpoint))
    as [ips [err|]]; [exact Hloop|].
  destruct Hloop as (Hne & subset & Hin & Hready & Hips).
  split; [exact Hne|]. exists kasEndpoint, subset, targetPort. auto.
Qed.

End ResolverMore.

(** ** More on the verifier and on whole cycles *)

Section CycleMore.

Import readiness GoErrors GoFmt Spec.

Context `{Formatter corev1.Service} `{Formatter corev1.Endpoints}.

Variable kasServicePort : Z.
Variable platform : Platform.
Variable c : wellKnownReadyController.

Lemma check_wellFormed (apiIP : string) (rt : http.RoundTripper)
    (route : routev1.Route) (w : World) :
  match checkWellknownEndpointReady platform apiIP rt route w with
  | (Returned answer, _) => wellFormedAnswer answer
  | (Panicked, _) => True
  end.
Proof.
  unfold checkWellknownEndpointReady.
  destruct (NewRequestError platform http.MethodGet (wellKnownURL apiIP)).
  { simpl. right. split; [reflexivity|]. eexists. split; [reflexivity | discriminate]. }
  unfold mbind, M_bind, RoundTrip. simpl.
  destruct (rt (requests w) _) as [resp | e].
  2:{ simpl. right. split; [reflexivity|]. eexists. split; [reflexivity | discriminate]. }
  destruct (negb (http.StatusCode resp =? 200)%Z).
  { simpl. left. split; [discriminate | reflexivity]. }
  destruct (http.Body resp) as [body | e].
  2:{ simpl. right. split; [reflexivity|]. eexists. split; [reflexivity | discriminate]. }
  destruct (JSON.Unmarshal body) as [received|].
  2:{ simpl. right. split; [reflexivity|]. eexists. split; [reflexivity | discriminate]. }
  unfold getMetadataStruct.
  destruct (JSON.Unmarshal (getOAuthMetadata _)) as [expected|]; [|exact I].
  simpl. destruct (negb (JSON.DeepEqual expected received)); simpl.
  - left. split; [discriminate | reflexivity].
  - split; reflexivity.
Qed.

Lemma probeLoop_wellFormed (rt : http.RoundTripper) (route : routev1.Route)
    (ips : list string) (w : World) :
  match probeLoop platform ips rt route w with
  | (Returned answer, _) => wellFormedAnswer answer
  | (Panicked, _) => True
  end.
Proof.
  revert w. induction ips as [|ip ips IH]; intros w.
  - simpl. split; reflexivity.
  - rewrite probeLoop_cons.
    pose proof (check_wellFormed ip rt route w) as Hc.
    destruct (checkWellknownEndpointReady platform ip rt route w)
      as [[[[r m] e]|] w1]; [|exact I].
    destruct (bool_decide (e <> None) || negb r); [exact Hc | apply IH].
Qed.

Lemma isWellknownEndpointsReady_wellFormed (authConfig : configv1.Authentication)
    (route : routev1.Route) (w : World) :
  match isWellknownEndpointsReady kasServicePort platform c authConfig route w with
  | (Returned answer, _) => wellFormedAnswer answer
  | (Panicked, _) => True
  end.
Proof.
  unfold isWellknownEndpointsReady.
  destruct (_ || _); [simpl; split; reflexivity|].
  destruct (ReadFile platform _) as [caData | err].
  2:{ simpl. right. split; [reflexivity|]. eexists. split; [reflexivity | discriminate]. }
  destruct (TransportFor platform _ caData) as [rt | err].
  2:{ simpl. right. split; [reflexivity|]. eexists. split; [reflexivity | discriminate]. }
  destruct (getAPIServerIPs kasServicePort c) as [ips [err|]].
  { simpl. right. split; [reflexivity|]. eexists. split; [reflexivity | discriminate]. }
  apply probeLoop_wellFormed.
Qed.

(** X4. [isWellknownEndpointsReady] never answers not ready in silence:
    an answer that is not ready carries a message and no error, or an
    error with a text and no message; a ready answer carries neither. *)
Theorem isWellknownEndpointsReady_never_silent (authConfig : configv1.Authentication)
    (route : routev1.Route) (w : World) :
  match isWellknownEndpointsReady kasServicePort platform c authConfig route w with
  | (Returned (ready, msg, err), _) =>
      if ready then msg = "" /\ err = None
      else (msg <> "" /\ err = None)
           \/ (msg = "" /\ exists e, err = Some e /\ Error e <> "")
  | (Panicked, _) => True
  end.
Proof.
  pose proof (isWellknownEndpointsReady_wellFormed authConfig route w) as Hw.
  destruct (isWellknownEndpointsReady kasServicePort platform c authConfig route w)
    as [[[[ready msg] err]|] w1]; exact Hw.
Qed.

Lemma reportedText_not_empty (msg : string) (err : option error) :
  wellFormedAnswer (false, msg, err) -> reportedText msg err <> "".
Proof.
  unfold reportedText. intros [[Hmsg ->] | [-> (e & -> & He)]].
  - destruct msg; [contradiction | discriminate].
  - exact He.
Qed.

Lemma length_pos (s : string) : s <> "" -> (0 <? String.length s)%nat = true.
Proof. destruct s; [contradiction | reflexivity]. Qed.

Lemma notReadyConditions_report (msg : string) (err : option error) :
  wellFormedAnswer (false, msg, err) ->
  updateConditionFuncs (([] ++ []) ++ [] ++ notReadyConditions (false, msg, err))
  = reportFor false msg err.
Proof.
  intros Hw. pose proof (reportedText_not_empty msg err Hw) as Htext.
  unfold notReadyConditions, reportFor. simpl negb. cbv iota.
  replace (match err with
           | Some err0 => if (String.length msg =? 0)%nat then Error err0 else msg
           | None => msg
           end) with (reportedText msg err).
  2:{ unfold reportedText. destruct err, msg; reflexivity. }
  rewrite (length_pos _ Htext), updateConditionFuncs_unfold.
  simpl. now rewrite !append_nil_r.
Qed.

(** With both objects found, [sync] is the readiness check followed by
    the hand-over. *)
Lemma sync_found (authConfig : configv1.Authentication) (route : routev1.Route)
    (w : World) :
  authLister c "cluster" = inl authConfig ->
  routeLister c "openshift-authentication" "oauth-openshift" = inl route ->
  sync kasServicePort platform c w
  = match isWellknownEndpointsReady kasServicePort platform c authConfig route w with
    | (Returned answer, w1) =>
        UpdateStatus c
          (updateConditionFuncs (([] ++ []) ++ [] ++ notReadyConditions answer)) w1
    | (Panicked, w1) => (Panicked, w1)
    end.
Proof.
  intros Hauth Hroute. unfold sync, getAuthConfig, getRoute.
  rewrite Hauth, Hroute. unfold mbind, M_bind.
  now destruct (isWellknownEndpointsReady kasServicePort platform c authConfig route w)
    as [[answer|] w1].
Qed.

(** X5. With both objects found, a cycle of [sync] reports what the
    readiness check answers: for a ready answer the four defaults, with
    available true; for an answer that is not ready, progressing true and
    available false, both with the reason NotReady and the text of the
    answer, which is never empty; and the two degraded conditions are
    false either way. *)
Theorem sync_reports_the_answer (authConfig : configv1.Authentication)
    (route : routev1.Route) (w w1 : World)
    (ready : bool) (msg : string) (err : option error) :
  authLister c "cluster" = inl authConfig ->
  routeLister c "openshift-authentication" "oauth-openshift" = inl route ->
  isWellknownEndpointsReady kasServicePort platform c authConfig route w
  = (Returned (ready, msg, err), w1) ->
  (ready = false -> reportedText msg err <> "")
  /\ sync kasServicePort platform c w
     = (Returned (operatorClient c (reportFor ready msg err)),
        {| requests := requests w1;
           statusUpdates := statusUpdates w ++ [reportFor ready msg err] |}).
Proof.
  intros Hauth Hroute Hanswer.
  pose proof (isWellknownEndpointsReady_wellFormed authConfig route w) as Hw.
  pose proof (isWellknownEndpointsReady_world kasServicePort platform c authConfig route w)
    as Hupdates.
  rewrite Hanswer in Hw, Hupdates. simpl in Hupdates.
  split.
  { intros ->. now apply reportedText_not_empty. }
  rewrite (sync_found authConfig route w Hauth Hroute), Hanswer.
  unfold UpdateStatus. rewrite Hupdates.
  destruct ready.
  - reflexivity.
  - now rewrite (notReadyConditions_report msg err Hw).
Qed.

(** X6. When a lookup finds no object, [sync] sends no request, and
    hands over the defaults for available (true) and progressing
    (false); an error of a lookup that [os.IsNotExist] does not accept
    is reported as the degraded condition of that lookup, with the text
    of the error. *)
Theorem sync_without_prerequisite (w : World) :
  (getAuthConfig c).1 = None \/ (getRoute c).1 = None ->
  let handed := updateConditionFuncs ((getAuthConfig c).2 ++ (getRoute c).2) in
  sync kasServicePort platform c w
  = (Returned (operatorClient c handed),
     {| requests := requests w; statusUpdates := statusUpdates w ++ [handed] |})
  /\ {| Type_ := "WellKnownAvailable"; Status := ConditionTrue;
        Reason := ""; Message := "" |} ∈ handed
  /\ {| Type_ := "WellKnownProgressing"; Status := ConditionFalse;
        Reason := ""; Message := "" |} ∈ handed
  /\ (forall e, authLister c "cluster" = inr e -> IsNotExist (Some e) = false ->
        {| Type_ := "WellKnownAuthConfigDegraded"; Status := ConditionTrue;
           Reason := "GetFailed";
           Message := "Unable to get cluster authentication config: " +:+ Error e |}
        ∈ handed)
  /\ (forall e, routeLister c "openshift-authentication" "oauth-openshift" = inr e ->
        IsNotExist (Some e) = false ->
        {| Type_ := "WellKnownRouteDegraded"; Status := ConditionTrue;
           Reason := "GetFailed";
           Message := "Unable to get oauth-openshift route: " +:+ Error e |}
        ∈ handed).
Proof.
  intros Hmissing handed. subst handed.
  assert (Hauth : forall cond, cond ∈ (getAuthConfig c).2 ->
                    Type_ cond = "WellKnownAuthConfigDegraded").
  { unfold getAuthConfig. destruct (authLister c "cluster") as [a | e].
    - intros cond Hc. inversion Hc.
    - destruct (IsNotExist (Some e)); intros cond Hc; [inversion Hc|].
      apply list_elem_of_singleton in Hc. now subst cond. }
  assert (Hroute : forall cond, cond ∈ (getRoute c).2 ->
                     Type_ cond = "WellKnownRouteDegraded").
  { unfold getRoute.
    destruct (routeLister c "openshift-authentication" "oauth-openshift") as [r | e].
    - intros cond Hc. inversion Hc.
    - destruct (IsNotExist (Some e)); intros cond Hc; [inversion Hc|].
      apply list_elem_of_singleton in Hc. now subst cond. }
  split; [|split; [|split; [|split]]].
  - unfold sync.
    destruct (getAuthConfig c) as [[authConfig|] configConditions];
      destruct (getRoute c) as [[route|] routeConditions];
      simpl in Hmissing; try reflexivity.
    destruct Hmissing; discriminate.
  - apply (default_emitted _ "WellKnownAvailable").
    + apply elem_of_known. rewrite !elem_of_cons. tauto.
    + intros cond Hc. apply elem_of_app in Hc as [Hc | Hc];
        [rewrite (Hauth _ Hc) | rewrite (Hroute _ Hc)]; discriminate.
  - apply (default_emitted _ "WellKnownProgressing").
    + apply elem_of_known. rewrite !elem_of_cons. tauto.
    + intros cond Hc. apply elem_of_app in Hc as [Hc | Hc];
        [rewrite (Hauth _ Hc) | rewrite (Hroute _ Hc)]; discriminate.
  - intros e He Hne. rewrite updateConditionFuncs_unfold.
    unfold getAuthConfig at 1. rewrite He, Hne. simpl. rewrite append_nil_r. left.
  - intros e He Hne. rewrite updateConditionFuncs_unfold, !find_app.
    assert (forall t, t <> "WellKnownAuthConfigDegraded" ->
              FindOperatorCondition (getAuthConfig c).2 t = None) as Hnone.
    { intros t Ht. apply find_none. intros cond Hc. rewrite (Hauth _ Hc). congruence. }
    rewrite (Hnone "WellKnownRouteDegraded") by discriminate.
    unfold getRoute. rewrite He, Hne. simpl. rewrite append_nil_r, !elem_of_cons. tauto.
Qed.

End CycleMore.

Lemma sync_reports_the_answer_witness :
  Fixtures.sync Fixtures.healthyPlatform
    (Fixtures.clusterOf (Fixtures.subsetOf [] ["10.0.0.1"])) Fixtures.world0
  = (GoRun.Returned None,
     {| readiness.requests := [];
        readiness.statusUpdates :=
          [ Spec.reportFor false ""
              (Some (GoErrors.Errorf "failed to get API server IPs: %v"
                       ["kube api server endpointLister is not ready: {...}"])) ] |}).
Proof.
  apply (proj2 (@sync_reports_the_answer (Fixtures.elided _) (Fixtures.elided _) 443
                  Fixtures.healthyPlatform
                  (Fixtures.clusterOf (Fixtures.subsetOf [] ["10.0.0.1"]))
                  Fixtures.integratedOAuth (Fixtures.oauthRoute "oauth.example.com")
                  Fixtures.world0 Fixtures.world0 false ""
                  (Some (GoErrors.Errorf "failed to get API server IPs: %v"
                           ["kube api server endpointLister is not ready: {...}"]))
                  eq_refl eq_refl eq_refl)).
Defined.

Lemma sync_without_prerequisite_witness :
  (Fixtures.sync Fixtures.healthyPlatform Fixtures.emptyCaches Fixtures.world0).2
  = {| readiness.requests := [];
       readiness.statusUpdates :=
         [ readiness.updateConditionFuncs
             ((readiness.getAuthConfig Fixtures.emptyCaches).2
              ++ (readiness.getRoute Fixtures.emptyCaches).2) ] |}.
Proof.
  pose proof (proj1 (@sync_without_prerequisite (Fixtures.elided _) (Fixtures.elided _)
                       443 Fixtures.healthyPlatform Fixtures.emptyCaches Fixtures.world0
                       (or_introl eq_refl))) as Hsync.
  unfold Fixtures.sync. now rewrite Hsync.
Defined.

(** ** Deep equality and the ready answer of a probe *)

Section Ready.

Import readiness GoErrors GoFmt Spec JSON.




Variable platform : Platform.
Variable rt : http.RoundTripper.
Variable route : routev1.Route.

(** A probe whose response is a 200 with a body that decodes to the map
    of the generated document answers ready. *)
Lemma check_ready_when (apiIP : string) (w : World)
    (resp : http.Response) (body : string) (document : object) :
  NewRequestError platform "GET" (wellKnownURL apiIP) = None ->
  rt (requests w) (probeRequest apiIP) = inl resp ->
  http.StatusCode resp = 200%Z ->
  http.Body resp = inl body ->
  Unmarshal body = Some document ->
  Unmarshal (getOAuthMetadata (routev1.Host (routev1.Spec route))) = Some document ->
  checkWellknownEndpointReady platform apiIP rt route w
  = (Returned (true, "", None), afterRequests w [probeRequest apiIP]).
Proof.
  intros Hreq Hrt Hstatus Hbody Hdoc Hexpected.
  unfold checkWellknownEndpointReady, probeRequest, http.MethodGet in *.
  rewrite Hreq. unfold mbind, M_bind, RoundTrip, afterRequests. simpl.
  rewrite Hrt. apply Z.eqb_eq in Hstatus. rewrite Hstatus, Hbody, Hdoc. simpl.
  unfold getMetadataStruct. rewrite Hexpected. simpl.
  now rewrite DeepEqual_refl.
Qed.


(** X8. A pool in which every address serves, at every request, a 200
    with a body that decodes to the document of the route's host makes
    the loop answer ready, after one request to each address, in
    order. *)
Theorem probeLoop_serving_pool (host : string) (ips : list string) (w : World) :
  allPlain host = true ->
  routev1.Host (routev1.Spec route) = host ->
  (forall ip, ip ∈ ips -> NewRequestError platform "GET" (wellKnownURL ip) = None) ->
  (forall history ip, ip ∈ ips ->
     exists resp body,
       rt history (probeRequest ip) = inl resp
       /\ http.StatusCode resp = 200%Z
       /\ http.Body resp = inl body
       /\ Unmarshal body = Some (Some (expectedMetadata host))) ->
  probeLoop platform ips rt route w
  = (Returned (true, "", None), afterRequests w (map probeRequest ips)).
Proof.
  intros Hhost Hroute Hreq Hserve. revert w.
  induction ips as [|ip ips IH]; intros w.
  - simpl. now rewrite afterRequests_nil.
  - destruct (Hserve (requests w) ip) as (resp & body & Hrt & Hstatus & Hbody & Hdoc);
      [left|].
    rewrite (probeLoop_ready_step platform rt route ip ips w
               (afterRequests w [probeRequest ip])).
    + rewrite IH.
      * now rewrite afterRequests_app.
      * intros ip' Hip. apply Hreq. now right.
      * intros history ip' Hip. apply Hserve. now right.
    + apply (check_ready_when ip w resp body (Some (expectedMetadata host)));
        auto; [apply Hreq; left|].
      rewrite Hroute. now apply Unmarshal_document.
Qed.

End Ready.

Lemma probeLoop_serving_pool_witness :
  readiness.probeLoop Fixtures.healthyPlatform ["10.0.0.1:6443"; "10.0.0.2:6443"]
    Fixtures.healthyTransport (Fixtures.oauthRoute "oauth.example.com") Fixtures.world0
  = (GoRun.Returned (true, "", None),
     Spec.afterRequests Fixtures.world0
       (map Spec.probeRequest ["10.0.0.1:6443"; "10.0.0.2:6443"])).
Proof.
  apply (probeLoop_serving_pool Fixtures.healthyPlatform Fixtures.healthyTransport
           (Fixtures.oauthRoute "oauth.example.com") "oauth.example.com").
  - reflexivity.
  - reflexivity.
  - intros ip _. reflexivity.
  - intros history ip _. eexists. eexists. repeat split; reflexivity.
Defined.

(** ** The route of the OAuth server: admission, validation, creation *)

Section ReconcilerMore.

Import operator2 GoErrors GoFmt GoRun Spec.

Context {S : Type}.
Context `{Formatter routev1.Route} `{Formatter (list routev1.RouteIngress)}.

Variable targetName : string.
Variable targetNamespace : string.
Variable containerPort : Z.
Variable routerCertsLocalName : string.
Variable defaultMeta : metav1.ObjectMeta.
Variable c : authOperator S.

Lemma isIngressAdmittedLoop_spec (conditions : list routev1.RouteIngressCondition) :
  isIngressAdmittedLoop conditions = true
  <-> exists condition,
        condition ∈ conditions
        /\ routev1.ConditionType condition = routev1.RouteAdmitted
        /\ routev1.ConditionStatus condition = corev1.ConditionTrue.
Proof.
  induction conditions as [|condition rest IH]; simpl.
  - split; [discriminate|]. intros (x & Hin & _). inversion Hin.
  - destruct (String.eqb_spec (routev1.ConditionType condition) routev1.RouteAdmitted)
      as [Htype | Htype];
      destruct (String.eqb_spec (routev1.ConditionStatus condition) corev1.ConditionTrue)
        as [Hstatus | Hstatus]; simpl.
    + split; [|reflexivity]. intros _. exists condition. split; [left | auto].
    + rewrite IH. split; intros (x & Hin & Ht & Hs).
      * exists x. split; [now right | auto].
      * apply elem_of_cons in Hin as [-> | Hin]; [contradiction | eauto].
    + rewrite IH. split; intros (x & Hin & Ht & Hs).
      * exists x. split; [now right | auto].
      * apply elem_of_cons in Hin as [-> | Hin]; [contradiction | eauto].
    + rewrite IH. split; intros (x & Hin & Ht & Hs).
      * exists x. split; [now right | auto].
      * apply elem_of_cons in Hin as [-> | Hin]; [contradiction | eauto].
Qed.

Lemma getCanonicalHostLoop_spec (host : string) (ingresses : list routev1.RouteIngress) :
  (getCanonicalHostLoop host ingresses = host
   /\ exists ingress, ingress ∈ ingresses /\ admittedAt host ingress)
  \/ (getCanonicalHostLoop host ingresses = ""
      /\ forall ingress, ingress ∈ ingresses -> ~ admittedAt host ingress).
Proof.
  induction ingresses as [|ingress rest IH]; simpl.
  - right. split; [reflexivity|]. intros x Hin. inversion Hin.
  - assert (~ admittedAt host ingress ->
            (getCanonicalHostLoop host rest = host
             /\ exists x, x ∈ ingress :: rest /\ admittedAt host x)
            \/ (getCanonicalHostLoop host rest = ""
                /\ forall x, x ∈ ingress :: rest -> ~ admittedAt host x)) as Hskip.
    { intros Hnot. destruct IH as [(Hloop & x & Hin & Hx) | (Hloop & Hnone)].
      - left. split; [exact Hloop|]. exists x. split; [now right | exact Hx].
      - right. split; [exact Hloop|]. intros x Hin.
        apply elem_of_cons in Hin as [-> | Hin]; [exact Hnot | now apply Hnone]. }
    destruct (String.eqb_spec (routev1.IngressHost ingress) host) as [Hhost | Hhost]; simpl.
    + destruct (isIngressAdmitted ingress) eqn:Hadmitted; simpl.
      * left. split; [reflexivity|]. exists ingress. split; [left|].
        split; [exact Hhost|]. now apply isIngressAdmittedLoop_spec.
      * apply Hskip. intros (_ & Hcondition).
        apply isIngressAdmittedLoop_spec in Hcondition.
        unfold isIngressAdmitted in Hadmitted. congruence.
    + apply Hskip. intros (Heq & _). contradiction.
Qed.

Lemma ingressToHost_not_empty (ingress : configv1.Ingress) :
  ingressToHost targetName ingress <> "".
Proof.
  unfold ingressToHost. apply append_not_empty.
  change ("." +:+ configv1.Domain ingress) with (String "." (configv1.Domain ingress)).
  discriminate.
Qed.

(** X9. The canonical host of a route is the host [targetName.domain]
    of the ingress config, which is never empty, when some ingress of
    the route's status carries that host and a condition Admitted with
    status True; it is the empty string when none does.  The host in
    the spec of the route plays no part. *)
Theorem getCanonicalHost_admitted (route : routev1.Route) (ingress : configv1.Ingress) :
  ingressToHost targetName ingress <> ""
  /\ ((getCanonicalHost targetName route ingress = ingressToHost targetName ingress
       /\ exists admitted,
            admitted ∈ routev1.Ingress (routev1.Status route)
            /\ admittedAt (ingressToHost targetName ingress) admitted)
      \/ (getCanonicalHost targetName route ingress = ""
          /\ forall other,
               other ∈ routev1.Ingress (routev1.Status route) ->
               ~ admittedAt (ingressToHost targetName ingress) other)).
Proof.
  split; [apply ingressToHost_not_empty|].
  unfold getCanonicalHost. apply getCanonicalHostLoop_spec.
Qed.

(** A route that [isValidRoute] accepts agrees on the four fields. *)
Lemma isValidRoute_accepted (route : routev1.Route) (ingress : configv1.Ingress) :
  isValidRoute targetName containerPort defaultMeta route ingress = Returned None ->
  ~ disagrees targetName containerPort route.
Proof.
  unfold isValidRoute, disagrees. simpl.
  destruct (String.eqb_spec (routev1.Name (routev1.To (routev1.Spec route))) targetName)
    as [Ename | Ename]; simpl; [|discriminate].
  destruct (routev1.Port (routev1.Spec route)) as [port|]; simpl; [|discriminate].
  destruct (Z.eqb_spec (intstr.IntValue (routev1.TargetPort port))
              (intstr.int32 containerPort)) as [Eport | Eport]; simpl; [|discriminate].
  destruct (routev1.TLS (routev1.Spec route)) as [tls|]; [|discriminate].
  destruct (String.eqb_spec (routev1.Termination tls) routev1.TLSTerminationPassthrough);
    simpl; [|discriminate].
  destruct (String.eqb_spec (routev1.InsecureEdgeTerminationPolicy tls)
              routev1.InsecureEdgeTerminationPolicyRedirect); simpl; [|discriminate].
  intros _. tauto.
Qed.

(** X10. [isValidRoute] accepts exactly the routes that agree with the
    desired route on the service name, the target port, and the two TLS
    settings, whatever the ingress config; and it panics exactly on a
    route with the right service name and no port. *)
Theorem isValidRoute_verdicts (route : routev1.Route) (ingress : configv1.Ingress) :
  (isValidRoute targetName containerPort defaultMeta route ingress = Returned None
   <-> ~ disagrees targetName containerPort route)
  /\ (isValidRoute targetName containerPort defaultMeta route ingress = Panicked
      <-> routev1.Name (routev1.To (routev1.Spec route)) = targetName
          /\ routev1.Port (routev1.Spec route) = None).
Proof.
  split; split.
  - apply isValidRoute_accepted.
  - intros Hagree. apply isValidRoute_agrees; [|exact Hagree].
    intros Hport. apply Hagree. unfold disagrees. rewrite Hport. tauto.
  - unfold isValidRoute. simpl.
    destruct (String.eqb_spec (routev1.Name (routev1.To (routev1.Spec route))) targetName)
      as [Ename | Ename]; simpl; [|discriminate].
    destruct (routev1.Port (routev1.Spec route)) as [port|]; simpl; [|auto].
    destruct (intstr.IntValue (routev1.TargetPort port) =? intstr.int32 containerPort)%Z;
      simpl; [|discriminate].
    destruct (routev1.TLS (routev1.Spec route)) as [tls|]; [|discriminate].
    destruct (String.eqb (routev1.Termination tls) routev1.TLSTerminationPassthrough);
      simpl; [|discriminate].
    destruct (String.eqb (routev1.InsecureEdgeTerminationPolicy tls)
                routev1.InsecureEdgeTerminationPolicyRedirect); discriminate.
  - intros [Hname Hport]. now apply isValidRoute_panics_without_port.
Qed.

Lemma defaultRoute_agrees (ingress : configv1.Ingress) (host : string) :
  ~ disagrees targetName containerPort
      (withHost (defaultRoute targetName containerPort defaultMeta ingress) host).
Proof. unfold disagrees. simpl. tauto. Qed.

(** X11. The route the operator creates passes its own validation, for
    every ingress config, container port and host it is given later:
    a route created as desired is never deleted as invalid. *)
Theorem defaultRoute_is_valid (ingress observed : configv1.Ingress) (host : string) :
  isValidRoute targetName containerPort defaultMeta
    (defaultRoute targetName containerPort defaultMeta ingress) observed
  = Returned None
  /\ isValidRoute targetName containerPort defaultMeta
       (withHost (defaultRoute targetName containerPort defaultMeta ingress) host) observed
     = Returned None.
Proof.
  split.
  - apply isValidRoute_agrees; [discriminate|].
    apply (defaultRoute_agrees ingress
             (routev1.Host
                (routev1.Spec (defaultRoute targetName containerPort defaultMeta ingress)))).
  - apply isValidRoute_agrees; [discriminate | apply defaultRoute_agrees].
Qed.

(** X12. When [handleRoute] returns no error it returns a route and a
    secret: the route is the one it got, from the lookup or, after a
    lookup that found none, from its own create of the desired route,
    with the canonical host set as its host; some ingress of its status
    is admitted at that host; it agrees with the desired route on the
    validated fields; the secret is the router secret and holds data.
    Its calls are the lookup, the create if there was one, and the read
    of the secret: it has deleted nothing. *)
Theorem handleRoute_success (ingress : configv1.Ingress) (w w' : World S)
    (r : option routev1.Route) (s : option corev1.Secret) :
  handleRoute targetName targetNamespace containerPort routerCertsLocalName
    defaultMeta c ingress w
  = (Returned (r, s, None), w') ->
  exists observed secret,
    r = Some (withHost observed (ingressToHost targetName ingress))
    /\ s = Some secret
    /\ (exists admitted,
          admitted ∈ routev1.Ingress (routev1.Status observed)
          /\ admittedAt (ingressToHost targetName ingress) admitted)
    /\ ~ disagrees targetName containerPort observed
    /\ secretsGet c targetNamespace routerCertsLocalName (cluster w') = inl secret
    /\ size (corev1.Data secret) <> 0
    /\ ((routeGet c targetName (cluster w) = inl observed
         /\ cluster w' = cluster w
         /\ calls w'
            = calls w ++ [GetRoute targetName;
                          GetSecret targetNamespace routerCertsLocalName])
        \/ (exists notFound,
              routeGet c targetName (cluster w) = inr notFound
              /\ IsNotFound (Some notFound) = true
              /\ routeCreate c (defaultRoute targetName containerPort defaultMeta ingress)
                   (cluster w)
                 = (inl observed, cluster w')
              /\ calls w'
                 = calls w
                   ++ [GetRoute targetName;
                       CreateRoute (defaultRoute targetName containerPort defaultMeta ingress);
                       GetSecret targetNamespace routerCertsLocalName])).
Proof.
  intros Hrun.
  unfold handleRoute, Get, Create, Delete, SecretsGet, lift, mbind, M_bind in Hrun.
  remember IsNotFound as missing eqn:Hmiss in Hrun.
  simpl in Hrun.
  destruct (routeGet c targetName (cluster w)) as [observed | notFound] eqn:Hget.
  - simpl in Hrun.
    destruct (getCanonicalHostLoop_spec (ingressToHost targetName ingress)
                (routev1.Ingress (routev1.Status observed)))
      as [(Hhost & Hadmitted) | (Hhost & _)];
      fold (getCanonicalHost targetName observed ingress) in Hhost;
      rewrite Hhost in Hrun.
    2: { simpl in Hrun. discriminate. }
    pose proof (ingressToHost_not_empty ingress) as Hnot.
    destruct (ingressToHost targetName ingress) as [|a host] eqn:Ehost; [contradiction|].
    simpl in Hrun.
    destruct (isValidRoute targetName containerPort defaultMeta
                (withHost observed (String a host)) ingress) as [[err|]|] eqn:Hvalid;
      simpl in Hrun.
    + destruct (routeDelete c _ _ (cluster w)). discriminate.
    + destruct (secretsGet c targetNamespace routerCertsLocalName (cluster w))
        as [secret | err] eqn:Hsecret; simpl in Hrun; [|discriminate].
      destruct (size (corev1.Data secret) =? 0)%nat eqn:Hsize; simpl in Hrun;
        [discriminate|].
      injection Hrun as <- <- <-.
      exists observed, secret. simpl.
      split; [reflexivity|]. split; [reflexivity|]. split; [exact Hadmitted|].
      split; [exact (isValidRoute_accepted (withHost observed (String a host)) ingress Hvalid)|].
      split; [exact Hsecret|].
      split; [now apply Nat.eqb_neq|].
      left. split; [reflexivity|]. split; [reflexivity|]. now rewrite <- app_assoc.
    + discriminate.
  - subst missing.
    destruct (IsNotFound (Some notFound)) eqn:Hmissing; simpl in Hrun; [|discriminate].
    destruct (routeCreate c (defaultRoute targetName containerPort defaultMeta ingress)
                (cluster w)) as [[observed | err] created] eqn:Hcreate;
      simpl in Hrun; [|discriminate].
    destruct (getCanonicalHostLoop_spec (ingressToHost targetName ingress)
                (routev1.Ingress (routev1.Status observed)))
      as [(Hhost & Hadmitted) | (Hhost & _)];
      fold (getCanonicalHost targetName observed ingress) in Hhost;
      rewrite Hhost in Hrun.
    2: { simpl in Hrun. discriminate. }
    pose proof (ingressToHost_not_empty ingress) as Hnot.
    destruct (ingressToHost targetName ingress) as [|a host] eqn:Ehost; [contradiction|].
    simpl in Hrun.
    destruct (isValidRoute targetName containerPort defaultMeta
                (withHost observed (String a host)) ingress) as [[err|]|] eqn:Hvalid;
      simpl in Hrun.
    + destruct (routeDelete c _ _ created). discriminate.
    + destruct (secretsGet c targetNamespace routerCertsLocalName created)
        as [secret | err] eqn:Hsecret; simpl in Hrun; [|discriminate].
      destruct (size (corev1.Data secret) =? 0)%nat eqn:Hsize; simpl in Hrun;
        [discriminate|].
      injection Hrun as <- <- <-.
      exists observed, secret. simpl.
      split; [reflexivity|]. split; [reflexivity|]. split; [exact Hadmitted|].
      split; [exact (isValidRoute_accepted (withHost observed (String a host)) ingress Hvalid)|].
      split; [exact Hsecret|].
      split; [now apply Nat.eqb_neq|].
      right. exists notFound. split; [reflexivity|]. split; [exact Hmissing|].
      split; [reflexivity|]. now rewrite <- !app_assoc.
    + discriminate.
Qed.

(** X13. [handleRoute] only reads, and returns, whenever the lookup of
    the route fails with an error other than not found, or finds a route
    that no router has admitted at the canonical host, or finds one that
    agrees with the desired route: the cluster is left as it was, and
    after the lookup the one call there may be is the read of the router
    secret. *)
Theorem handleRoute_only_reads (ingress : configv1.Ingress) (w : World S) :
  match routeGet c targetName (cluster w) with
  | inl route =>
      getCanonicalHost targetName route ingress = ""
      \/ ~ disagrees targetName containerPort route
  | inr err => IsNotFound (Some err) = false
  end ->
  exists result reads,
    handleRoute targetName targetNamespace containerPort routerCertsLocalName
      defaultMeta c ingress w
    = (Returned result,
       {| cluster := cluster w; calls := calls w ++ GetRoute targetName :: reads |})
    /\ (reads = [] \/ reads = [GetSecret targetNamespace routerCertsLocalName]).
Proof.
  intros Hcase.
  unfold handleRoute, Get, Create, Delete, SecretsGet, lift, mbind, M_bind.
  remember IsNotFound as missing eqn:Hmiss.
  simpl.
  destruct (routeGet c targetName (cluster w)) as [route | err] eqn:Hget.
  - simpl.
    destruct (getCanonicalHost targetName route ingress) as [|a host] eqn:Hhost; simpl.
    + eexists. exists []. split; [reflexivity | now left].
    + destruct Hcase as [Hcase | Hagree]; [discriminate|].
      rewrite (isValidRoute_agrees targetName containerPort defaultMeta
                 (withHost route (String a host)) ingress).
      * simpl.
        destruct (secretsGet c targetNamespace routerCertsLocalName (cluster w))
          as [secret | err]; simpl.
        -- destruct (size (corev1.Data secret) =? 0)%nat; simpl;
             eexists; exists [GetSecret targetNamespace routerCertsLocalName];
             (split; [now rewrite <- app_assoc | now right]).
        -- eexists. exists [GetSecret targetNamespace routerCertsLocalName].
           split; [now rewrite <- app_assoc | now right].
      * simpl. intros Hport. apply Hagree. unfold disagrees. rewrite Hport. tauto.
      * exact Hagree.
  - subst missing. rewrite Hcase. simpl.
    eexists. exists []. split; [reflexivity | now left].
Qed.

(** X14. After a lookup that finds no route, [handleRoute] creates the
    desired route, and that call never returns it: when the create
    fails, its error is returned; when it answers with a route whose
    status lists no ingress yet, as a route just created does, the
    error is that the route is not available at the canonical host.
    Either way nothing is deleted and the secret is not read. *)
Theorem handleRoute_creates_desired_route (ingress : configv1.Ingress) (w : World S)
    (notFound : error) (answer : routev1.Route + error) (created : S) :
  routeGet c targetName (cluster w) = inr notFound ->
  IsNotFound (Some notFound) = true ->
  routeCreate c (defaultRoute targetName containerPort defaultMeta ingress) (cluster w)
  = (answer, created) ->
  match answer with
  | inl route => routev1.Ingress (routev1.Status route) = []
  | inr _ => True
  end ->
  handleRoute targetName targetNamespace containerPort routerCertsLocalName
    defaultMeta c ingress w
  = (Returned
       (None, None,
        Some match answer with
             | inl route =>
                 Errorf "route is not available at canonical host %s: %+v"
                   [ingressToHost targetName ingress;
                    plus_v (routev1.Ingress (routev1.Status route))]
             | inr err => err
             end),
     {| cluster := created;
        calls :=
          calls w
          ++ [GetRoute targetName;
              CreateRoute (defaultRoute targetName containerPort defaultMeta ingress)] |}).
Proof.
  intros Hget Hmissing Hcreate Hfresh.
  unfold handleRoute, Get, Create, Delete, SecretsGet, lift, mbind, M_bind.
  remember IsNotFound as missing eqn:Hmiss.
  simpl. rewrite Hget. subst missing. rewrite Hmissing. simpl. rewrite Hcreate. simpl.
  destruct answer as [route | err]; simpl.
  - unfold getCanonicalHost. rewrite Hfresh. simpl. now rewrite <- app_assoc.
  - now rewrite <- app_assoc.
Qed.

End ReconcilerMore.

Lemma handleRoute_success_witness :
  exists observed secret,
    Fixtures.handleRoute Fixtures.ingressConfig Fixtures.servingCluster
    = (GoRun.Returned
         (Some (operator2.withHost observed
                  (operator2.ingressToHost Fixtures.targetName Fixtures.ingressConfig)),
          Some secret, None),
       {| operator2.cluster := operator2.cluster Fixtures.servingCluster;
          operator2.calls :=
            [operator2.GetRoute Fixtures.targetName;
             operator2.GetSecret Fixtures.targetNamespace Fixtures.routerCertsLocalName] |})
    /\ ~ Spec.disagrees Fixtures.targetName Fixtures.containerPort observed
    /\ size (corev1.Data secret) <> 0.
Proof.
  destruct (@handleRoute_success Fixtures.Store (Fixtures.elided _) (Fixtures.elided _)
              Fixtures.targetName Fixtures.targetNamespace Fixtures.containerPort
              Fixtures.routerCertsLocalName Fixtures.defaultMeta Fixtures.apiServer
              Fixtures.ingressConfig Fixtures.servingCluster
              {| operator2.cluster := operator2.cluster Fixtures.servingCluster;
                 operator2.calls :=
                   [operator2.GetRoute Fixtures.targetName;
                    operator2.GetSecret Fixtures.targetNamespace
                      Fixtures.routerCertsLocalName] |}
              (Some (Fixtures.oauthRoute "oauth-openshift.apps.example.com"))
              (Some Fixtures.routerSecret) eq_refl)
    as (observed & secret & Hroute & Hsecret & _ & Hagree & _ & Hdata & _).
  exists observed, secret.
  split; [|split; [exact Hagree | exact Hdata]].
  injection Hsecret as <-. rewrite <- Hroute. reflexivity.
Defined.

Lemma handleRoute_only_reads_witness :
  exists result reads,
    Fixtures.handleRoute Fixtures.ingressConfig
      (Fixtures.clusterWith Fixtures.unadmittedRoute)
    = (GoRun.Returned result,
       {| operator2.cluster :=
            operator2.cluster (Fixtures.clusterWith Fixtures.unadmittedRoute);
          operator2.calls := operator2.GetRoute Fixtures.targetName :: reads |})
    /\ (reads = []
        \/ reads = [operator2.GetSecret Fixtures.targetNamespace
                      Fixtures.routerCertsLocalName]).
Proof.
  apply (@handleRoute_only_reads Fixtures.Store (Fixtures.elided _) (Fixtures.elided _)
           Fixtures.targetName Fixtures.targetNamespace Fixtures.containerPort
           Fixtures.routerCertsLocalName Fixtures.defaultMeta Fixtures.apiServer
           Fixtures.ingressConfig (Fixtures.clusterWith Fixtures.unadmittedRoute)).
  left. reflexivity.
Defined.

Lemma handleRoute_creates_desired_route_witness :
  exists err,
    Fixtures.handleRoute Fixtures.ingressConfig Fixtures.freshCluster
    = (GoRun.Returned (None, None, Some err),
       {| operator2.cluster :=
            {| Fixtures.storedRoute :=
                 Some (operator2.defaultRoute Fixtures.targetName Fixtures.containerPort
                         Fixtures.defaultMeta Fixtures.ingressConfig);
               Fixtures.storedSecret := Some Fixtures.routerSecret |};
          operator2.calls :=
            [operator2.GetRoute Fixtures.targetName;
             operator2.CreateRoute
               (operator2.defaultRoute Fixtures.targetName Fixtures.containerPort
                  Fixtures.defaultMeta Fixtures.ingressConfig)] |}).
Proof.
  eexists.
  apply (@handleRoute_creates_desired_route Fixtures.Store
           (Fixtures.elided _) (Fixtures.elided _)
           Fixtures.targetName Fixtures.targetNamespace Fixtures.containerPort
           Fixtures.routerCertsLocalName Fixtures.defaultMeta Fixtures.apiServer
           Fixtures.ingressConfig Fixtures.freshCluster
           (GoErrors.NewNotFound "routes.route.openshift.io" Fixtures.targetName)
           (inl (operator2.defaultRoute Fixtures.targetName Fixtures.containerPort
                   Fixtures.defaultMeta Fixtures.ingressConfig))).
  - reflexivity.
  - reflexivity.
  - reflexivity.
  - reflexivity.
Defined.

(** ** The named certificates of the router secret *)

Section NamedCertificates.

Import operator2 Spec.

Variable routerCertsLocalMount : string.

Lemma routerSecretToSNI_loop (domains : list string)
    (out : list configv1.NamedCertificate) :
  fold_left
    (fun out domain =>
       out ++ [ {| configv1.Names := ["*." +:+ domain];
                   configv1.NamedCertInfo :=
                     {| configv1.CertFile := routerCertsLocalMount +:+ "/" +:+ domain;
                        configv1.KeyFile := routerCertsLocalMount +:+ "/" +:+ domain |} |} ])
    domains out
  = out ++ map (namedCertificateFor routerCertsLocalMount) domains.
Proof.
  revert out. induction domains as [|domain rest IH]; intros out; simpl.
  - now rewrite app_nil_r.
  - rewrite IH, <- app_assoc. reflexivity.
Qed.

Lemma routerSecretToSNI_map (domains : list string) :
  routerSecretToSNI routerCertsLocalMount domains
  = map (namedCertificateFor routerCertsLocalMount) domains.
Proof. unfold routerSecretToSNI. now rewrite routerSecretToSNI_loop. Qed.

Lemma namedCertificateFor_inj (a b : string) :
  namedCertificateFor routerCertsLocalMount a = namedCertificateFor routerCertsLocalMount b ->
  a = b.
Proof.
  unfold namedCertificateFor. intros Heq.
  apply (f_equal configv1.Names) in Heq. simpl in Heq.
  change ("*." +:+ a) with (String "*" (String "." a)) in Heq.
  change ("*." +:+ b) with (String "*" (String "." b)) in Heq.
  congruence.
Qed.

(** X15. Whatever the order in which the range visits the data of the
    router secret, [routerSecretToSNI] returns one named certificate for
    each domain of the secret and no other: as many entries as the
    secret has domains, no entry twice, each one the wildcard name of
    its domain with the same file of the mount for certificate and
    key. *)
Theorem routerSecretToSNI_one_per_domain (routerSecret : corev1.Secret)
    (visited : list string) :
  rangeOrder (corev1.Data routerSecret) visited ->
  length (routerSecretToSNI routerCertsLocalMount visited)
  = size (corev1.Data routerSecret)
  /\ NoDup (routerSecretToSNI routerCertsLocalMount visited)
  /\ forall named,
       named ∈ routerSecretToSNI routerCertsLocalMount visited
       <-> exists domain,
             is_Some (corev1.Data routerSecret !! domain)
             /\ named = namedCertificateFor routerCertsLocalMount domain.
Proof.
  unfold rangeOrder. intros Hvisited. rewrite routerSecretToSNI_map.
  split; [|split].
  - rewrite length_map, Hvisited, length_map. apply length_map_to_list.
  - apply NoDup_fmap_2.
    + intros a b. apply namedCertificateFor_inj.
    + rewrite Hvisited. apply NoDup_fst_map_to_list.
  - intros named. rewrite list_elem_of_fmap. split.
    + intros (domain & -> & Hin). exists domain. split; [|reflexivity].
      rewrite Hvisited in Hin. apply list_elem_of_fmap in Hin as ([k v] & -> & Hin).
      apply elem_of_map_to_list in Hin. simpl. rewrite Hin. eauto.
    + intros (domain & [v Hv] & ->). exists domain. split; [reflexivity|].
      rewrite Hvisited. apply list_elem_of_fmap. exists (domain, v).
      split; [reflexivity|]. now apply elem_of_map_to_list.
Qed.

End NamedCertificates.

Lemma routerSecretToSNI_one_per_domain_witness :
  operator2.routerSecretToSNI Fixtures.routerCertsLocalMount ["apps.example.com"]
  = [ {| configv1.Names := ["*.apps.example.com"];
         configv1.NamedCertInfo :=
           {| configv1.CertFile :=
                "/var/config/system/secrets/v4-0-config-system-router-certs/apps.example.com";
              configv1.KeyFile :=
                "/var/config/system/secrets/v4-0-config-system-router-certs/apps.example.com"
           |} |} ]
  /\ length (operator2.routerSecretToSNI Fixtures.routerCertsLocalMount ["apps.example.com"])
     = size (corev1.Data Fixtures.routerSecret).
Proof.
  split; [reflexivity|].
  apply (routerSecretToSNI_one_per_domain Fixtures.routerCertsLocalMount
           Fixtures.routerSecret ["apps.example.com"]).
  unfold Spec.rangeOrder. reflexivity.
Defined.

(** ** The port of the API servers, from the environment *)

Section Port.

Import GoStrconv GoErrors readiness Spec.

Lemma parseDigits_digit (c : ascii) (d : Z) (rest : string) (acc : Z) :
  digitVal c = Some d ->
  parseDigits (String c rest) acc = parseDigits rest (10 * acc + d)%Z.
Proof. intros Hd. simpl. now rewrite Hd. Qed.

Lemma parseDigits_of_uint_acc (d : Decimal.uint) (acc : positive) :
  parseDigits (NilEmpty.string_of_uint d) (Z.pos acc)
  = Some (Z.pos (Pos.of_uint_acc d acc)).
Proof.
  revert acc.
  induction d as [|d IH|d IH|d IH|d IH|d IH|d IH|d IH|d IH|d IH|d IH]; intros acc;
    cbn [NilEmpty.string_of_uint Pos.of_uint_acc]; [reflexivity|..].
  - rewrite (parseDigits_digit _ 0) by reflexivity. rewrite <- IH; f_equal; lia.
  - rewrite (parseDigits_digit _ 1) by reflexivity. rewrite <- IH; f_equal; lia.
  - rewrite (parseDigits_digit _ 2) by reflexivity. rewrite <- IH; f_equal; lia.
  - rewrite (parseDigits_digit _ 3) by reflexivity. rewrite <- IH; f_equal; lia.
  - rewrite (parseDigits_digit _ 4) by reflexivity. rewrite <- IH; f_equal; lia.
  - rewrite (parseDigits_digit _ 5) by reflexivity. rewrite <- IH; f_equal; lia.
  - rewrite (parseDigits_digit _ 6) by reflexivity. rewrite <- IH; f_equal; lia.
  - rewrite (parseDigits_digit _ 7) by reflexivity. rewrite <- IH; f_equal; lia.
  - rewrite (parseDigits_digit _ 8) by reflexivity. rewrite <- IH; f_equal; lia.
  - rewrite (parseDigits_digit _ 9) by reflexivity. rewrite <- IH; f_equal; lia.
Qed.

Lemma parseDigits_of_uint (d : Decimal.uint) :
  parseDigits (NilEmpty.string_of_uint d) 0 = Some (Z.of_N (Pos.of_uint d)).
Proof.
  induction d as [|d IH|d IH|d IH|d IH|d IH|d IH|d IH|d IH|d IH|d IH];
    cbn [NilEmpty.string_of_uint Pos.of_uint]; [reflexivity|..].
  - rewrite (parseDigits_digit _ 0) by reflexivity. exact IH.
  - rewrite (parseDigits_digit _ 1) by reflexivity. apply (parseDigits_of_uint_acc d 1).
  - rewrite (parseDigits_digit _ 2) by reflexivity. apply (parseDigits_of_uint_acc d 2).
  - rewrite (parseDigits_digit _ 3) by reflexivity. apply (parseDigits_of_uint_acc d 3).
  - rewrite (parseDigits_digit _ 4) by reflexivity. apply (parseDigits_of_uint_acc d 4).
  - rewrite (parseDigits_digit _ 5) by reflexivity. apply (parseDigits_of_uint_acc d 5).
  - rewrite (parseDigits_digit _ 6) by reflexivity. apply (parseDigits_of_uint_acc d 6).
  - rewrite (parseDigits_digit _ 7) by reflexivity. apply (parseDigits_of_uint_acc d 7).
  - rewrite (parseDigits_digit _ 8) by reflexivity. apply (parseDigits_of_uint_acc d 8).
  - rewrite (parseDigits_digit _ 9) by reflexivity. apply (parseDigits_of_uint_acc d 9).
Qed.

(** The numeral of a positive number starts with a digit. *)
Lemma to_uint_digits (p : positive) :
  exists c rest,
    NilZero.string_of_uint (Pos.to_uint p) = String c rest
    /\ NilEmpty.string_of_uint (Pos.to_uint p) = String c rest
    /\ Ascii.eqb c "-" = false /\ Ascii.eqb c "+" = false.
Proof.
  pose proof (DecimalPos.Unsigned.to_uint_nonnil p) as Hnil.
  destruct (Pos.to_uint p); [contradiction|..]; simpl; eauto 10.
Qed.

(** [Atoi] reads back the numeral [Itoa] writes, within the range of an
    [int]; beyond it, it answers the nearest bound with an error. *)
Lemma Atoi_Itoa (n : Z) : inRange n (Atoi (Itoa n)).
Proof.
  unfold inRange, Itoa. destruct n as [|p|p]; [reflexivity|..].
  - destruct (to_uint_digits p) as (c & rest & Hzero & Hempty & Hminus & Hplus).
    pose proof (parseDigits_of_uint (Pos.to_uint p)) as Hparse.
    rewrite DecimalPos.Unsigned.of_to, Hempty in Hparse.
    cbn [Z.to_int NilZero.string_of_int]. rewrite Hzero.
    unfold Atoi. rewrite Hminus, Hplus, Hparse.
    change (Z.of_N (N.pos p)) with (Z.pos p).
    destruct (maxInt64 <? Z.pos p)%Z; [split; [reflexivity | discriminate]|].
    destruct (Z.pos p <? minInt64)%Z; [split; [reflexivity | discriminate] | reflexivity].
  - destruct (to_uint_digits p) as (c & rest & Hzero & Hempty & Hminus & Hplus).
    pose proof (parseDigits_of_uint (Pos.to_uint p)) as Hparse.
    rewrite DecimalPos.Unsigned.of_to, Hempty in Hparse.
    cbn [Z.to_int NilZero.string_of_int]. rewrite Hzero.
    unfold Atoi. rewrite Ascii.eqb_refl, Hparse.
    change (- Z.of_N (N.pos p))%Z with (Z.neg p).
    destruct (maxInt64 <? Z.neg p)%Z; [split; [reflexivity | discriminate]|].
    destruct (Z.neg p <? minInt64)%Z; [split; [reflexivity | discriminate] | reflexivity].
Qed.

(** X16. When the environment holds the decimal numeral of a number for
    the port of the [kubernetes] service, [init] sets [kasServicePort]
    to that number if an [int] holds it, and to 443 otherwise: never to
    the bound that [Atoi] answers beside its range error. *)
Theorem init_reads_the_port (getenv : string -> string) (n : Z) :
  getenv "KUBERNETES_SERVICE_PORT_HTTPS" = Itoa n ->
  init getenv = if ((minInt64 <=? n) && (n <=? maxInt64))%Z then n else 443%Z.
Proof.
  intros Henv. unfold init. rewrite Henv.
  pose proof (Atoi_Itoa n) as Hread. unfold inRange in Hread.
  destruct (Atoi (Itoa n)) as [port err]. simpl in Hread.
  destruct (Z.ltb_spec maxInt64 n) as [Hhigh | Hhigh].
  - destruct Hread as [_ Herr]. destruct err; [|contradiction].
    replace (n <=? maxInt64)%Z with false by (symmetry; apply Z.leb_gt; lia).
    now rewrite andb_false_r.
  - destruct (Z.ltb_spec n minInt64) as [Hlow | Hlow].
    + destruct Hread as [_ Herr]. destruct err; [|contradiction].
      replace (minInt64 <=? n)%Z with false by (symmetry; apply Z.leb_gt; lia).
      reflexivity.
    + injection Hread as -> ->.
      replace (minInt64 <=? n)%Z with true by (symmetry; apply Z.leb_le; lia).
      replace (n <=? maxInt64)%Z with true by (symmetry; apply Z.leb_le; lia).
      reflexivity.
Qed.

End Port.

Lemma init_reads_the_port_witness :
  readiness.init (fun _ => "6443") = 6443%Z
  /\ readiness.init (fun _ => "9223372036854775808") = 443%Z.
Proof.
  split.
  - apply (init_reads_the_port (fun _ => "6443") 6443 eq_refl).
  - apply (init_reads_the_port (fun _ => "9223372036854775808") 9223372036854775808
             eq_refl).
Defined.

(** ** A cycle that does not probe *)

Section External.

Import readiness GoErrors GoFmt Spec.

Context `{Formatter corev1.Service} `{Formatter corev1.Endpoints}.

Variable kasServicePort : Z.
Variable platform : Platform.
Variable c : wellKnownReadyController.

(** X17. When the authentication config names an OAuth metadata config
    map, or has a type other than IntegratedOAuth (the empty type
    included), a cycle of [sync] that finds the config and the route
    reports the endpoint as available without looking at it: it reads
    no file, sends no request, and hands over the four defaults,
    whatever the services, the endpoints and the platform. *)
Theorem sync_skips_the_probe (authConfig : configv1.Authentication)
    (route : routev1.Route) (w : World) :
  authLister c "cluster" = inl authConfig ->
  routeLister c "openshift-authentication" "oauth-openshift" = inl route ->
  configv1.OAuthMetadataName authConfig <> ""
  \/ configv1.AuthenticationType authConfig <> configv1.AuthenticationTypeIntegratedOAuth ->
  sync kasServicePort platform c w
  = (Returned (operatorClient c (reportFor true "" None)),
     {| requests := requests w;
        statusUpdates := statusUpdates w ++ [reportFor true "" None] |}).
Proof.
  intros Hauth Hroute Hexternal.
  rewrite (sync_found kasServicePort platform c authConfig route w Hauth Hroute).
  unfold isWellknownEndpointsReady.
  replace (negb (String.length (configv1.OAuthMetadataName authConfig) =? 0)%nat
           || negb (String.eqb (configv1.AuthenticationType authConfig)
                      configv1.AuthenticationTypeIntegratedOAuth)) with true.
  - reflexivity.
  - symmetry. apply orb_true_iff.
    destruct Hexternal as [Hname | Htype].
    + left. destruct (configv1.OAuthMetadataName authConfig); [contradiction | reflexivity].
    + right. apply negb_true_iff. now apply String.eqb_neq.
Qed.

End External.

Lemma sync_skips_the_probe_witness :
  Fixtures.sync Fixtures.healthyPlatform Fixtures.untypedCaches Fixtures.world0
  = (GoRun.Returned None,
     {| readiness.requests := [];
        readiness.statusUpdates := [Spec.reportFor true "" None] |}).
Proof.
  apply (@sync_skips_the_probe (Fixtures.elided _) (Fixtures.elided _) 443
           Fixtures.healthyPlatform Fixtures.untypedCaches
           {| configv1.OAuthMetadataName := ""; configv1.AuthenticationType := "" |}
           (Fixtures.oauthRoute "oauth.example.com") Fixtures.world0 eq_refl eq_refl).
  right. discriminate.
Defined.

(** ** The requests of a readiness check *)

Section Requests.

Import readiness GoErrors GoFmt Spec.

Context `{Formatter corev1.Service} `{Formatter corev1.Endpoints}.

Variable kasServicePort : Z.
Variable platform : Platform.
Variable c : wellKnownReadyController.

Lemma probeLoop_requests (rt : http.RoundTripper) (route : routev1.Route)
    (ips : list string) (w : World) :
  exists probed rest,
    ips = probed ++ rest
    /\ (probeLoop platform ips rt route w).2
       = afterRequests w (flat_map (sentFor platform) probed).
Proof.
  revert w. induction ips as [|ip ips IH]; intros w.
  - exists [], []. split; [reflexivity|]. simpl. now rewrite afterRequests_nil.
  - rewrite probeLoop_cons.
    pose proof (check_world platform rt route ip w) as Hworld.
    destruct (checkWellknownEndpointReady platform ip rt route w)
      as [[[[ready msg] err]|] w1]; simpl in Hworld.
    + destruct (bool_decide (err <> None) || negb ready).
      * exists [ip], ips. split; [reflexivity|]. simpl. now rewrite app_nil_r.
      * destruct (IH w1) as (probed & rest & -> & Hrest).
        exists (ip :: probed), rest. split; [reflexivity|].
        rewrite Hrest, Hworld, afterRequests_app. reflexivity.
    + exists [ip], ips. split; [reflexivity|]. simpl. now rewrite app_nil_r.
Qed.

(** X18. Whatever a readiness check answers, and also when it panics,
    the requests it has sent go to addresses of the pool that
    [getAPIServerIPs] resolved, to a prefix of it: in the order of the
    pool, at most one request to an address, none skipped, and each one
    the GET of the well-known URL of its address.  The status writer is
    not called. *)
Theorem isWellknownEndpointsReady_requests (authConfig : configv1.Authentication)
    (route : routev1.Route) (w : World) :
  exists probed rest,
    (getAPIServerIPs kasServicePort c).1 = probed ++ rest
    /\ (isWellknownEndpointsReady kasServicePort platform c authConfig route w).2
       = afterRequests w (flat_map (sentFor platform) probed)
    /\ forall request,
         request ∈ flat_map (sentFor platform) probed ->
         exists ip, ip ∈ probed /\ request = probeRequest ip.
Proof.
  assert (forall probed request,
            request ∈ flat_map (sentFor platform) probed ->
            exists ip, ip ∈ probed /\ request = probeRequest ip) as Hsent.
  { induction probed as [|ip probed IH]; simpl; intros request Hin; [inversion Hin|].
    apply elem_of_app in Hin as [Hin | Hin].
    - exists ip. split; [left|]. unfold sentFor in Hin.
      destruct (NewRequestError platform _ _); [inversion Hin|].
      now apply list_elem_of_singleton in Hin.
    - destruct (IH request Hin) as (ip' & Hip & ->). exists ip'. split; [now right | auto]. }
  assert (exists probed rest,
            (getAPIServerIPs kasServicePort c).1 = probed ++ rest
            /\ (isWellknownEndpointsReady kasServicePort platform c authConfig route w).2
               = afterRequests w (flat_map (sentFor platform) probed)) as Hnone.
  { unfold isWellknownEndpointsReady.
    assert (exists probed rest,
              (getAPIServerIPs kasServicePort c).1 = probed ++ rest
              /\ w = afterRequests w (flat_map (sentFor platform) probed)) as Hidle.
    { exists [], (getAPIServerIPs kasServicePort c).1. split; [reflexivity|].
      simpl. now rewrite afterRequests_nil. }
    destruct (_ || _); [exact Hidle|].
    destruct (ReadFile platform _) as [caData | err]; [|exact Hidle].
    destruct (TransportFor platform _ caData) as [rt | err]; [|exact Hidle].
    destruct (getAPIServerIPs kasServicePort c) as [ips [err|]]; [exact Hidle|].
    apply probeLoop_requests. }
  destruct Hnone as (probed & rest & Hpool & Hworld).
  exists probed, rest. split; [exact Hpool|]. split; [exact Hworld|]. apply Hsent.
Qed.

End Requests.
